(** * Flashcard printer: card store, filtered views, debounced search and
      duplex page layout

    A shallow embedding of [FlashcardApp_V3.py].

    - The SQLite table [flashcards] is a list of rows kept in rowid order
      ([id INTEGER PRIMARY KEY] is the rowid, so a scan of the table, or
      of one key of an index on it, meets the rows by ascending id).
      SQL statements are functions on that list: [UPDATE] maps over the
      rows, [SELECT ... WHERE] filters them, [ORDER BY] is a stable sort
      of the scanned rows, as SQLite's sorter is.
    - A Python [str] is a [string] whose characters are the code points
      of the text; the model covers code points below 256 and no NUL.
    - INTEGER columns and Python integers are [Z]; a value bound to an SQL
      parameter has to fit 64 bits.
    - The settings dictionary is a [gmap] from key to value, the values
      being what [json.load] can give; a Python [float] that is a number
      is carried as the rational it equals.
    - Pixel geometry, floating point in the source, is carried as exact
      rationals; no property below depends on rounding.
    - The painter and the printer are a list of pages, each page the list
      of cells painted on it, each cell the drawing operations issued by
      one iteration of the cell loop; the colour of the pen is carried as
      the settings value handed to [QColor].
    - An exception that no [except] clause catches is part of the result
      of the call it leaves. *)

From Stdlib Require Import ZArith QArith List String Ascii Bool Lia.
From Stdlib Require Import Sorted Permutation.
From Stdlib Require OrderedTypeEx.
From stdpp Require Import base strings gmap.
Import ListNotations.

Open Scope string_scope.
Open Scope list_scope.
Open Scope Z_scope.

(** ** Text *)

(** [str.isspace] on the code points of the model. *)
Definition py_isspace (c : ascii) : bool :=
  let n := N_of_ascii c in
  ((9 <=? n) && (n <=? 13) || (28 <=? n) && (n <=? 32)
   || (n =? 133) || (n =? 160))%N.

Fixpoint lstrip (s : string) : string :=
  match s with
  | EmptyString => EmptyString
  | String c s' => if py_isspace c then lstrip s' else s
  end.

Fixpoint rstrip (s : string) : string :=
  match s with
  | EmptyString => EmptyString
  | String c s' =>
      match rstrip s' with
      | EmptyString => if py_isspace c then EmptyString else String c EmptyString
      | r => String c r
      end
  end.

(** [s.strip()] *)
Definition strip (s : string) : string := rstrip (lstrip s).

(** Python truth value of a [str] *)
Definition nonempty (s : string) : bool :=
  match s with EmptyString => false | String _ _ => true end.

(** SQLite folds the case of ASCII letters only. *)
Definition sqlite_tolower (c : ascii) : ascii :=
  let n := N_of_ascii c in
  if ((65 <=? n) && (n <=? 90))%N then ascii_of_N (n + 32) else c.

Fixpoint fold_case (s : string) : string :=
  match s with
  | EmptyString => EmptyString
  | String c s' => String (sqlite_tolower c) (fold_case s')
  end.

Definition like_char (c d : ascii) : bool :=
  Ascii.eqb (sqlite_tolower c) (sqlite_tolower d).

(** [s LIKE p] with SQLite's defaults: [%] matches any run of characters,
    [_] any one character, every other character itself up to ASCII
    case; there is no escape character. *)
Fixpoint sql_like (p : string) : string -> bool :=
  match p with
  | EmptyString => fun s => negb (nonempty s)
  | String c p' =>
      if Ascii.eqb c "%" then
        fix any (s : string) : bool :=
          sql_like p' s
          || match s with EmptyString => false | String _ s' => any s' end
      else if Ascii.eqb c "_" then
        fun s =>
          match s with EmptyString => false | String _ s' => sql_like p' s' end
      else
        fun s =>
          match s with
          | EmptyString => false
          | String d s' => like_char c d && sql_like p' s'
          end
  end.

Definition is_wildcard (c : ascii) : bool := Ascii.eqb c "%" || Ascii.eqb c "_".

Fixpoint wildcard_free (s : string) : bool :=
  match s with
  | EmptyString => true
  | String c s' => negb (is_wildcard c) && wildcard_free s'
  end.

(** [t] occurs in [s] as a contiguous run of characters, up to ASCII case. *)
Definition contains_nocase (t s : string) : Prop :=
  exists pre m post : string,
    s = pre +:+ m +:+ post /\ fold_case m = fold_case t.

(** Deciding [contains_nocase]. *)
Fixpoint prefix_nocase (t s : string) : bool :=
  match t, s with
  | EmptyString, _ => true
  | String c t', String d s' => like_char c d && prefix_nocase t' s'
  | String _ _, EmptyString => false
  end.

Fixpoint infix_nocase (t s : string) : bool :=
  prefix_nocase t s
  || match s with
     | EmptyString => false
     | String _ s' => infix_nocase t s'
     end.

(** [t] occurs in [s] as it is written. *)
Definition contains (t s : string) : Prop :=
  exists pre post : string, s = pre +:+ t +:+ post.

(** ** The card table *)

Record card := Card {
  card_id : Z;
  lesson : string;
  front : string;
  back : string;
  selected : Z;
  copies : Z;
  printed_count : Z;
  last_printed : option string
}.

Definition store := list card.

(** Rows in rowid order; in particular ids are unique. *)
Definition store_wf (db : store) : Prop :=
  StronglySorted Z.lt (map card_id db).

Definition set_selected (v : Z) (c : card) : card :=
  Card (card_id c) (lesson c) (front c) (back c) v (copies c)
       (printed_count c) (last_printed c).

Definition set_printed (n : Z) (t : option string) (c : card) : card :=
  Card (card_id c) (lesson c) (front c) (back c) (selected c) (copies c) n t.

(** [UPDATE flashcards SET ... WHERE ...] *)
Definition sql_update (where_ : card -> bool) (set : card -> card)
    (db : store) : store :=
  map (fun c => if where_ c then set c else c) db.

(** [SELECT ... FROM flashcards WHERE ...], rows in scan order *)
Definition sql_select (where_ : card -> bool) (db : store) : list card :=
  List.filter where_ db.

Definition is_selected (c : card) : bool := selected c =? 1.
Definition is_unprinted (c : card) : bool := printed_count c =? 0.

Definition selected_ids (db : store) : list Z :=
  map card_id (sql_select is_selected db).

(** ** Bulk selection *)

Definition unselect_all (db : store) : store :=
  sql_update (fun _ => true) (set_selected 0) db.

Definition select_all_unprinted (db : store) : store :=
  let db1 := sql_update (fun _ => true) (set_selected 0) db in
  sql_update is_unprinted (set_selected 1) db1.

(** ** Ordered queries *)

(** [ORDER BY lesson]: BINARY collation compares code points. *)
Definition lesson_le (a b : card) : bool := String.leb (lesson a) (lesson b).

(** [ORDER BY lesson, id] *)
Definition lesson_id_le (a b : card) : bool :=
  match String.compare (lesson a) (lesson b) with
  | Lt => true
  | Eq => card_id a <=? card_id b
  | Gt => false
  end.

Fixpoint insert_row (le : card -> card -> bool) (x : card)
    (rows : list card) : list card :=
  match rows with
  | [] => [x]
  | y :: rest => if le x y then x :: rows else y :: insert_row le x rest
  end.

(** Stable: of two rows with equal keys the one scanned first comes first. *)
Definition order_by (le : card -> card -> bool) (rows : list card)
    : list card :=
  fold_right (insert_row le) [] rows.

Definition like_any_field (pattern : string) (c : card) : bool :=
  sql_like pattern (lesson c) || sql_like pattern (front c)
  || sql_like pattern (back c).

(** The rows [load_data] fetches for the table, for the text of the search
    box and the [filter_selected] flag. *)
Definition load_data (search_text : string) (filter_selected : bool)
    (db : store) : list card :=
  let filter_text := strip search_text in
  if nonempty filter_text then
    let filter_param := "%" +:+ filter_text +:+ "%" in
    order_by lesson_id_le (sql_select (like_any_field filter_param) db)
  else if filter_selected then
    order_by lesson_id_le (sql_select is_selected db)
  else
    order_by lesson_id_le (sql_select (fun _ => true) db).

(** ** Settings *)

(** A Python [float]. *)
Inductive pyfloat :=
| FloatOf (q : Q)
| FloatInf
| FloatNegInf
| FloatNaN.

(** The values [json.load] gives. *)
#[warnings="-register-all"]
Inductive pyval :=
| PyStr (s : string)
| PyInt (n : Z)
| PyFloat (x : pyfloat)
| PyBool (b : bool)
| PyNone
| PyList (items : list pyval)
| PyDict (d : gmap string pyval).

Inductive exn :=
| ValueError
| ZeroDivisionError
| TypeError
| OverflowError
| OSError.

Inductive result (A : Type) :=
| Ok (a : A)
| Raise (e : exn).
Arguments Ok {A} a.
Arguments Raise {A} e.

(** [settings.get(key, default)] *)
Definition settings_get (settings : gmap string pyval) (key : string)
    (dflt : pyval) : pyval :=
  default dflt (settings !! key).

Definition digit_of (c : ascii) : option Z :=
  let n := N_of_ascii c in
  if ((48 <=? n) && (n <=? 57))%N then Some (Z.of_N n - 48) else None.

(** Decimal digits after the first, single underscores allowed between
    two digits. *)
Fixpoint parse_digits (acc : Z) (s : string) : option Z :=
  match s with
  | EmptyString => Some acc
  | String c s' =>
      match digit_of c with
      | Some d => parse_digits (10 * acc + d) s'
      | None =>
          if Ascii.eqb c "_" then
            match s' with
            | EmptyString => None
            | String c' s'' =>
                match digit_of c' with
                | Some d => parse_digits (10 * acc + d) s''
                | None => None
                end
            end
          else None
      end
  end.

Definition parse_unsigned (s : string) : option Z :=
  match s with
  | EmptyString => None
  | String c s' =>
      match digit_of c with
      | Some d => parse_digits d s'
      | None => None
      end
  end.

(** The characters [int] skips around a number: the ASCII whitespace
    (the separators U+001C to U+001F, which [str.strip] removes, are not
    among them) and the two other spaces of the model's code points. *)
Definition int_isspace (c : ascii) : bool :=
  let n := N_of_ascii c in
  ((9 <=? n) && (n <=? 13) || (n =? 32) || (n =? 133) || (n =? 160))%N.

Fixpoint int_lstrip (s : string) : string :=
  match s with
  | EmptyString => EmptyString
  | String c s' => if int_isspace c then int_lstrip s' else s
  end.

Fixpoint int_rstrip (s : string) : string :=
  match s with
  | EmptyString => EmptyString
  | String c s' =>
      match int_rstrip s' with
      | EmptyString =>
          if int_isspace c then EmptyString else String c EmptyString
      | r => String c r
      end
  end.

Fixpoint count_digits (s : string) : Z :=
  match s with
  | EmptyString => 0
  | String c s' =>
      match digit_of c with
      | Some _ => 1 + count_digits s'
      | None => count_digits s'
      end
  end.

(** [sys.get_int_max_str_digits()], at its default. *)
Definition int_max_str_digits : Z := 4300.

(** [int(s)] for a string: surrounding whitespace, one optional sign,
    decimal digits, no more of them than the interpreter converts;
    [None] is [ValueError]. *)
Definition int_of_str (s : string) : option Z :=
  let body := int_rstrip (int_lstrip s) in
  if int_max_str_digits <? count_digits body then None
  else
    match body with
    | String c r =>
        if Ascii.eqb c "-" then Z.opp <$> parse_unsigned r
        else if Ascii.eqb c "+" then parse_unsigned r
        else parse_unsigned (String c r)
    | EmptyString => None
    end.

(** [int(x)] for a float: the integer part, towards zero. *)
Definition int_of_float (x : pyfloat) : result Z :=
  match x with
  | FloatOf q => Ok (Z.quot (Qnum q) (Z.pos (Qden q)))
  | FloatInf | FloatNegInf => Raise OverflowError
  | FloatNaN => Raise ValueError
  end.

(** [int(v)] *)
Definition py_int (v : pyval) : result Z :=
  match v with
  | PyInt n => Ok n
  | PyStr s =>
      match int_of_str s with
      | Some n => Ok n
      | None => Raise ValueError
      end
  | PyFloat x => int_of_float x
  | PyBool b => Ok (if b then 1 else 0)
  | PyNone | PyList _ | PyDict _ => Raise TypeError
  end.

(** ** Page layout *)

Definition render_card := (string * string * string)%type.

Inductive paint_op :=
| DrawRect (x y w h : Q) (color : pyval) (width : Z)
| DrawLesson (x y w h : Q) (text : string)
| DrawText (x y w h : Q) (point_size : Z) (text : string).

(** What one iteration of a cell loop paints, with the loop's [r] and [c]. *)
Record cell := Cell {
  cell_row : Z;
  cell_col : Z;
  cell_ops : list paint_op
}.

Definition page := list cell.

Record layout := Layout {
  cpp : Z;
  font_size : Z;
  pen_color : pyval;
  pen_width : Z;
  card_w : Q;
  card_h : Q
}.

Definition paint_front (L : layout) (i : Z) (rc : render_card) : cell :=
  let r := i / 2 in
  let c := i mod 2 in
  let x := (inject_Z c * card_w L)%Q in
  let y := (inject_Z r * card_h L)%Q in
  let '(lesson, front, _) := rc in
  Cell r c
    [ DrawRect x y (card_w L) (card_h L) (pen_color L) (pen_width L);
      DrawLesson (x + 10)%Q (y + 300)%Q (card_w L - 400)%Q 30%Q lesson;
      DrawText (x + 10)%Q (y + 20)%Q (card_w L - 20)%Q (card_h L - 40)%Q
        (font_size L) front ].

Definition paint_back (L : layout) (i : Z) (rc : render_card) : cell :=
  let r := i / 2 in
  let c := 1 - i mod 2 in
  let x := (inject_Z c * card_w L)%Q in
  let y := (inject_Z r * card_h L)%Q in
  let '(_, _, back) := rc in
  Cell r c
    [ DrawText (x + 10)%Q (y + 20)%Q (card_w L - 20)%Q (card_h L - 40)%Q
        (font_size L) back ].

Definition len {A} (l : list A) : Z := Z.of_nat (length l).

(** [range(n)] *)
Definition py_range (n : Z) : list Z := map Z.of_nat (seq 0 (Z.to_nat n)).

(** [for i in range(cpp): if index + i >= len(cards): break; ...] *)
Fixpoint side_loop (paint : Z -> render_card -> cell)
    (cards : list render_card) (index : Z) (range : list Z) : page :=
  match range with
  | [] => []
  | i :: range' =>
      if index + i >=? len cards then []
      else
        match nth_error cards (Z.to_nat (index + i)) with
        | Some rc => paint i rc :: side_loop paint cards index range'
        | None => []
        end
  end.

Definition front_side (L : layout) (cards : list render_card) (index : Z)
    : page :=
  side_loop (paint_front L) cards index (py_range (cpp L)).

Definition back_side (L : layout) (cards : list render_card) (index : Z)
    : page :=
  side_loop (paint_back L) cards index (py_range (cpp L)).

(** The printer being painted on: the pages left behind by [newPage] and
    the page under the painter. *)
Record printer := Printer {
  finished : list page;
  current : page
}.

Definition draw (cells : page) (p : printer) : printer :=
  Printer (finished p) (current p ++ cells).

Definition newPage (p : printer) : printer :=
  Printer (finished p ++ [current p]) [].

Definition pages_of (p : printer) : list page := finished p ++ [current p].

(** [while index < len(cards): ...]; [None] when the fuel runs out. With
    [cpp >= 1] one unit of fuel per card is enough; with [cpp <= 0] and a
    card left the loop never ends, whatever the fuel. *)
Fixpoint document_loop (fuel : nat) (L : layout) (cards : list render_card)
    (index : Z) (p : printer) : option printer :=
  if index <? len cards then
    match fuel with
    | O => None
    | S fuel' =>
        let p := draw (front_side L cards index) p in
        let p := newPage p in
        let p := draw (back_side L cards index) p in
        let index := index + cpp L in
        let p := if index <? len cards then newPage p else p in
        document_loop fuel' L cards index p
    end
  else Some p.

(** The device handed to [render_document]. *)
Record device := Device {
  resolution : Z;
  landscape : bool;
  begin_ok : bool
}.

(** How a call of [render_document] ends: the pages painted; nothing,
    the painter not having begun; an exception; or never. *)
Inductive rendering :=
| Painted (pages : list page)
| NotBegun
| Raised (e : exn)
| Hangs.

(** Pen and grid geometry, as computed before the page loop. *)
Definition page_layout (settings : gmap string pyval)
    (print_cpp print_font_size : Z) (dev : device) : result layout :=
  let pen_color := settings_get settings "pen_color" (PyStr "#000000") in
  match py_int (settings_get settings "pen_width" (PyInt 2)) with
  | Raise e => Raise e
  | Ok pen_width =>
      let dpi := resolution dev in
      let page_width_px :=
        if landscape dev then 11 * dpi else Z.quot (17 * dpi) 2 in
      let page_height_px :=
        if landscape dev then Z.quot (17 * dpi) 2 else 11 * dpi in
      let rows := print_cpp / 2 in
      let card_w := (inject_Z page_width_px / 2)%Q in
      if rows =? 0 then Raise ZeroDivisionError
      else
        let card_h := (inject_Z page_height_px / inject_Z rows)%Q in
        Ok (Layout print_cpp print_font_size pen_color pen_width
              card_w card_h)
  end.

Definition render_document (settings : gmap string pyval)
    (cards_to_print : list render_card) (print_cpp print_font_size : Z)
    (dev : device) : rendering :=
  if negb (begin_ok dev) then NotBegun
  else
    match page_layout settings print_cpp print_font_size dev with
    | Raise e => Raised e
    | Ok L =>
        match document_loop (S (length cards_to_print)) L cards_to_print 0
                (Printer [] []) with
        | Some p => Painted (pages_of p)
        | None => Hangs
        end
    end.

(** ** Printing the selection *)

(** One copy to print. *)
Definition render_cards (rows : list card) : list render_card :=
  flat_map
    (fun row => repeat (lesson row, front row, back row)
                  (Z.to_nat (copies row)))
    rows.

(** [SELECT * FROM flashcards WHERE selected=1 ORDER BY lesson], expanded *)
Definition cards_to_print (db : store) : list render_card :=
  render_cards (order_by lesson_le (sql_select is_selected db)).

(** The update made once the preview is accepted. *)
Definition update_print_stats (now : string) (db : store) : store :=
  sql_update is_selected
    (fun c => set_printed (printed_count c + copies c) (Some now) c) db.

(** The body of a [try] block of [print_selected]:
    [v = int(settings.get(key, dflt)); if v < lo or v > hi: raise
    ValueError]. *)
Definition checked_setting (settings : gmap string pyval) (key : string)
    (dflt lo hi : Z) : result Z :=
  match py_int (settings_get settings key (PyInt dflt)) with
  | Ok n => if (n <? lo) || (n >? hi) then Raise ValueError else Ok n
  | Raise e => Raise e
  end.

(** The value the block ends with, when it ends without an exception. *)
Definition parse_setting (settings : gmap string pyval) (key : string)
    (dflt lo hi : Z) : option Z :=
  match py_int (settings_get settings key (PyInt dflt)) with
  | Ok n => if (n <? lo) || (n >? hi) then None else Some n
  | Raise _ => None
  end.

(** The modal preview dialog as [print_selected] meets it: the device it
    paints on, whether it is accepted, and what other connections to the
    database file do to the table while it is open (the identity when
    nothing else writes). *)
Record preview := Preview {
  dpi : Z;
  painter_ok : bool;
  accepted : bool;
  meanwhile : store -> store
}.

(** The ways [print_selected] ends: the two message boxes, the preview
    dismissed, the print stats updated, and an exception that no
    [except] clause catches. *)
Inductive print_outcome :=
| NothingToPrint
| InvalidSetting (message : string)
| Cancelled
| Printed
| Uncaught (e : exn).

(** What a call leaves behind: how it ended, what [render_document]
    painted for the preview if it was opened, and the table. *)
Record print_run := PrintRun {
  outcome : print_outcome;
  painted : option rendering;
  db_after : store
}.

Definition print_selected (settings : gmap string pyval) (pv : preview)
    (now : string) (db : store) : print_run :=
  let cards := cards_to_print db in
  match cards with
  | [] => PrintRun NothingToPrint None db
  | _ :: _ =>
      match checked_setting settings "cards_per_page" 6 1 12 with
      | Raise ValueError =>
          PrintRun
            (InvalidSetting "Cards per page must be between 1 and 12.")
            None db
      | Raise e => PrintRun (Uncaught e) None db
      | Ok cpp =>
          match checked_setting settings "font_size" 12 6 120 with
          | Raise ValueError =>
              PrintRun
                (InvalidSetting "Font size must be between 6 and 120.")
                None db
          | Raise e => PrintRun (Uncaught e) None db
          | Ok font_size =>
              let is_landscape :=
                match settings_get settings "orientation" (PyStr "Portrait")
                with
                | PyStr s => String.eqb s "Landscape"
                | _ => false
                end in
              let dev := Device (dpi pv) is_landscape (painter_ok pv) in
              let shown := render_document settings cards cpp font_size dev in
              let db := meanwhile pv db in
              if accepted pv then
                PrintRun Printed (Some shown) (update_print_stats now db)
              else PrintRun Cancelled (Some shown) db
          end
      end
  end.

(** ** Debounced search *)

Record ui := Ui {
  search_text : string;
  filter_selected : bool;
  filter_timer : option Z
}.

(** A call of [load_data]: when, and with which view. *)
Record commit := Commit {
  commit_time : Z;
  commit_text : string;
  commit_selected_only : bool
}.

Definition timer_stop (u : ui) : ui :=
  Ui (search_text u) (filter_selected u) None.

(** [start(msec)] at time [now]: due [msec] later, replacing any pending
    timeout. *)
Definition timer_start (msec now : Z) (u : ui) : ui :=
  Ui (search_text u) (filter_selected u) (Some (now + msec)).

Definition debounced_filter (now : Z) (u : ui) : ui :=
  timer_start 300 now (timer_stop u).

Definition on_search_changed (now : Z) (s : ui * list commit)
    : ui * list commit :=
  let (u, log) := s in
  let u :=
    if nonempty (search_text u) then Ui (search_text u) false (filter_timer u)
    else u in
  let u := timer_stop u in
  (u, log ++ [Commit now (search_text u) (filter_selected u)]).

(** The event loop reaching time [now]: a single-shot timer that is due
    fires once, at its due time. *)
Definition advance (now : Z) (s : ui * list commit) : ui * list commit :=
  match filter_timer (fst s) with
  | Some due =>
      if due <=? now then on_search_changed due (timer_stop (fst s), snd s)
      else s
  | None => s
  end.

(** The search box text changes at time [t]. *)
Definition text_changed (s : ui * list commit) (e : Z * string)
    : ui * list commit :=
  let (u, log) := advance (fst e) s in
  (debounced_filter (fst e)
     (Ui (snd e) (filter_selected u) (filter_timer u)), log).

Definition typing (changes : list (Z * string)) (s : ui * list commit)
    : ui * list commit :=
  fold_left text_changed changes s.

(** Each change comes less than 300 after the one before. *)
Fixpoint rapid (t : Z) (changes : list (Z * string)) : Prop :=
  match changes with
  | [] => True
  | e :: rest => t <= fst e < t + 300 /\ rapid (fst e) rest
  end.

(** ** Vocabulary of the statements *)

(** The last of a burst of changes that starts with [e]. *)
Fixpoint final_change (e : Z * string) (rest : list (Z * string))
    : Z * string :=
  match rest with
  | [] => e
  | e' :: rest' => final_change e' rest'
  end.

(** Catalog order: lesson ascending, then id ascending. *)
Definition catalog_le (a b : card) : Prop :=
  String.compare (lesson a) (lesson b) = Lt
  \/ (lesson a = lesson b /\ card_id a <= card_id b).

Definition as_render_card (c : card) : render_card :=
  (lesson c, front c, back c).



(** Number of sheets for [m] cards at [n] per sheet. *)
Definition sheet_count (m n : Z) : Z := (m + n - 1) / n.

(** The two pages of sheet [k]: the cards from [k * cpp] on. *)
Definition sheet (L : layout) (cards : list render_card) (k : nat)
    : list page :=
  [ front_side L cards (Z.of_nat k * cpp L);
    back_side L cards (Z.of_nat k * cpp L) ].

Definition sheets (L : layout) (cards : list render_card) : list page :=
  flat_map (sheet L cards)
    (seq 0 (Z.to_nat (sheet_count (len cards) (cpp L)))).

(** Grid position of a painted cell. *)
Definition cell_at (c : cell) : Z * Z := (cell_row c, cell_col c).

Definition field_contains (nocase : bool) (t : string) (c : card) : Prop :=
  if nocase
  then contains_nocase t (lesson c) \/ contains_nocase t (front c)
       \/ contains_nocase t (back c)
  else contains t (lesson c) \/ contains t (front c) \/ contains t (back c).

(** The view a query is said to return for a filter text and the
    selected-only flag, under a case policy. *)
Definition view_of (nocase : bool) (text : string) (selected_only : bool)
    (db : store) (rows : list card) : Prop :=
  forall c,
    In c rows <->
    In c db
    /\ (if nonempty text then field_contains nocase text c
        else if selected_only then selected c = 1
        else True).

(** ** Sample data *)

Definition sample_settings : gmap string pyval :=
  {[ "cards_per_page" := PyStr "6"; "font_size" := PyStr "60";
     "pen_width" := PyStr "2" ]}.

Definition hola : card := Card 1 "L1" "Hola" "Hello" 1 1 0 None.
Definition adios : card := Card 2 "L1" "Adios" "Bye" 0 1 0 None.

(** Three selected cards with copies 1, 2 and 1. *)
Definition catalog_sample : store :=
  [ Card 1 "L1" "Hola" "Hello" 1 1 0 None;
    Card 2 "L1" "Adios" "Bye" 1 2 0 None;
    Card 3 "L0" "Uno" "One" 1 1 3 (Some "2025-12-24 18:00:00") ].


(** Four copies to print, laid out six to a sheet. *)
Definition sample_cards : list render_card := cards_to_print catalog_sample.

Definition sample_device : device := Device 1200 false true.

Definition sample_pages : list page :=
  match render_document sample_settings sample_cards 6 60 sample_device with
  | Painted pages => pages
  | _ => []
  end.

Definition sample_front : page := nth 0 sample_pages [].
Definition sample_back : page := nth 1 sample_pages [].
Definition sample_back_cell : cell := nth 1 sample_back (Cell 0 0 []).

(** Settings files edited by hand. *)
Definition one_per_sheet : gmap string pyval :=
  <[ "cards_per_page" := PyStr "1" ]> sample_settings.

Definition wide_pen : gmap string pyval :=
  <[ "pen_width" := PyStr "50" ]> sample_settings.

Definition quiet_preview : preview := Preview 1200 true true (fun db => db).

(** Three keystrokes, 100 and 299 apart, in the selected-only view. *)
Definition keystrokes : list (Z * string) := [(100, "ho"); (399, "hol")].

Definition idle_ui : ui := Ui "" true None.

(** ** Adding, editing and deleting cards *)

(** The rowid SQLite gives a row inserted without one: one more than the
    largest in use, 1 in an empty table. *)
Definition next_rowid (db : store) : Z :=
  match map card_id db with
  | [] => 1
  | i :: ids => fold_right Z.max i ids + 1
  end.

(** [INSERT INTO flashcards (lesson, front, back, selected, copies)
    VALUES (?, ?, ?, 0, 1)]; printed_count and last_printed take their
    column defaults. *)
Definition sql_insert (lesson front back : string) (db : store) : store :=
  db ++ [Card (next_rowid db) lesson front back 0 1 0 None].

(** [DELETE FROM flashcards WHERE ...] *)
Definition sql_delete (where_ : card -> bool) (db : store) : store :=
  List.filter (fun c => negb (where_ c)) db.

Definition has_id (i : Z) (c : card) : bool := card_id c =? i.

Definition set_lesson (v : string) (c : card) : card :=
  Card (card_id c) v (front c) (back c) (selected c) (copies c)
       (printed_count c) (last_printed c).

Definition set_front (v : string) (c : card) : card :=
  Card (card_id c) (lesson c) v (back c) (selected c) (copies c)
       (printed_count c) (last_printed c).

Definition set_back (v : string) (c : card) : card :=
  Card (card_id c) (lesson c) (front c) v (selected c) (copies c)
       (printed_count c) (last_printed c).

Definition set_copies (v : Z) (c : card) : card :=
  Card (card_id c) (lesson c) (front c) (back c) (selected c) v
       (printed_count c) (last_printed c).

(** The texts of the three input boxes; [None] is the Missing Data
    warning, [Some id] the [lastrowid] kept as [last_added_id]. *)
Definition add_flashcard (lesson_input front_input back_input : string)
    (db : store) : option Z * store :=
  let lesson := strip lesson_input in
  let front := strip front_input in
  let back := strip back_input in
  if negb (nonempty front) || negb (nonempty back) then (None, db)
  else (Some (next_rowid db), sql_insert lesson front back db).

(** The largest integer an SQLite INTEGER holds; binding a larger one to
    a parameter raises [OverflowError]. *)
Definition sqlite_max_int : Z := 2 ^ 63 - 1.

(** [item] is the id held by the row's first cell, if there is one;
    [checked] the state of its checkbox; [text] the text of the edited
    cell. The result is the exception that leaves the call, if one does,
    and the table: an exception passes [conn.commit()] by, so that
    nothing is written. *)
Definition update_cell (item : option Z) (col : Z) (checked : bool)
    (text : string) (db : store) : option exn * store :=
  match item with
  | None => (None, db)
  | Some card_id =>
      if card_id =? 0 then (None, db)
      else if col =? 0 then
        (None,
         sql_update (has_id card_id)
           (set_selected (if checked then 1 else 0)) db)
      else if col =? 1 then
        (None, sql_update (has_id card_id) (set_lesson text) db)
      else if col =? 2 then
        (None, sql_update (has_id card_id) (set_front text) db)
      else if col =? 3 then
        (None, sql_update (has_id card_id) (set_back text) db)
      else if col =? 4 then
        match int_of_str text with
        | Some copies =>
            let copies := if copies <? 1 then 1 else copies in
            if sqlite_max_int <? copies then (Some OverflowError, db)
            else (None, sql_update (has_id card_id) (set_copies copies) db)
        | None => (None, sql_update (has_id card_id) (set_copies 1) db)
        end
      else (None, db)
  end.

(** [reply_yes]: the answer to the confirmation box. *)
Definition delete_row (reply_yes : bool) (card_id : Z) (db : store) : store :=
  if reply_yes then sql_delete (has_id card_id) db else db.

(** The count shown in the confirmation box ([None]: the No Selection
    box instead) and the table left. *)
Definition delete_selected (reply_yes : bool) (db : store)
    : option Z * store :=
  let count := len (sql_select is_selected db) in
  if count =? 0 then (None, db)
  else if reply_yes then (Some count, sql_delete is_selected db)
  else (Some count, db).

(** [table_ids]: the ids held by the rows of the table widget, top to
    bottom. *)
Definition select_all (table_ids : list Z) (db : store) : store :=
  let card_ids := List.filter (fun i => negb (i =? 0)) table_ids in
  match card_ids with
  | [] => db
  | _ :: _ =>
      fold_left (fun db i => sql_update (has_id i) (set_selected 1) db)
        card_ids db
  end.

(** ** CSV import *)

(** [row.get(key, '')] on a row of [csv.DictReader]: a column missing
    from the header gives the default, a row too short for the header
    gives Python's [None]. *)
Definition row_get (row : gmap string (option string)) (key : string)
    : option string :=
  default (Some "") (row !! key).

(** What one row contributes: [None] when [.strip()] meets Python's
    [None] and raises, [Some None] when the row is skipped. *)
Definition import_row (row : gmap string (option string))
    : option (option (string * string * string)) :=
  match row_get row "lesson", row_get row "front", row_get row "back" with
  | Some lesson, Some front, Some back =>
      let lesson := strip lesson in
      let front := strip front in
      let back := strip back in
      if nonempty lesson && nonempty front && nonempty back
      then Some (Some (lesson, front, back))
      else Some None
  | _, _, _ => None
  end.

Fixpoint rows_to_insert (rows : list (gmap string (option string)))
    : option (list (string * string * string)) :=
  match rows with
  | [] => Some []
  | row :: rows' =>
      match import_row row with
      | None => None
      | Some kept =>
          match rows_to_insert rows' with
          | None => None
          | Some rest =>
              Some (match kept with Some t => t :: rest | None => rest end)
          end
      end
  end.

(** [executemany] of the insert. *)
Definition insert_all (rows : list (string * string * string)) (db : store)
    : store :=
  fold_left (fun db t => sql_insert (fst (fst t)) (snd (fst t)) (snd t) db)
    rows db.

(** The rows read from the file; [None] is the Import Error box, [Some n]
    the number reported as imported. *)
Definition import_csv (rows : list (gmap string (option string)))
    (db : store) : option Z * store :=
  match rows_to_insert rows with
  | None => (None, db)
  | Some kept => (Some (len kept), insert_all kept db)
  end.

(** ** The options dialog *)

Definition digit_char (d : Z) : ascii := ascii_of_N (Z.to_N (48 + d)).

Fixpoint digits_of (fuel : nat) (n : Z) (acc : string) : string :=
  match fuel with
  | O => acc
  | S fuel' =>
      let acc' := String (digit_char (n mod 10)) acc in
      if n <? 10 then acc' else digits_of fuel' (n / 10) acc'
  end.

(** [str(n)] for an integer. *)
Definition py_str (n : Z) : string :=
  if n <? 0
  then String "-" (digits_of (S (Z.to_nat (Z.log2 (- n)))) (- n) "")
  else digits_of (S (Z.to_nat (Z.log2 n))) n "".

(** The values of the dialog's widgets when OK is pressed. *)
Record options := Options {
  cards_per_page_value : Z;
  orientation_text : string;
  font_size_value : Z;
  auto_fill_lang_text : string;
  pen_color_name : string;
  pen_width_value : Z
}.

(** What the spin boxes and combo boxes can hold. *)
Definition options_in_range (o : options) : Prop :=
  1 <= cards_per_page_value o <= 12
  /\ 6 <= font_size_value o <= 120
  /\ 1 <= pen_width_value o <= 10.

Definition accept_settings (o : options) (settings : gmap string pyval)
    : gmap string pyval :=
  let settings :=
    <["cards_per_page" := PyStr (py_str (cards_per_page_value o))]> settings in
  let settings := <["orientation" := PyStr (orientation_text o)]> settings in
  let settings :=
    <["font_size" := PyStr (py_str (font_size_value o))]> settings in
  let settings :=
    <["auto_fill_language" := PyStr (auto_fill_lang_text o)]> settings in
  let settings := <["pen_color" := PyStr (pen_color_name o)]> settings in
  <["pen_width" := PyStr (py_str (pen_width_value o))]> settings.

(** ** The settings file *)

(** What [open] and [json.load] give [load_settings]: no file
    ([FileNotFoundError]), a text that is not JSON
    ([json.JSONDecodeError]), another exception (a file that may not be
    read, bytes that are not text, an integer of too many digits), or the
    value decoded. *)
Inductive settings_file :=
| FileNotFound
| NotJson
| ReadError (e : exn)
| Decoded (loaded : pyval).

Definition is_dict (v : pyval) : bool :=
  match v with PyDict _ => true | _ => false end.

Definition default_column_widths : gmap string pyval :=
  {[ "0" := PyInt 60; "1" := PyInt 100; "2" := PyInt 150; "3" := PyInt 150;
     "4" := PyInt 80; "5" := PyInt 60; "6" := PyInt 80; "7" := PyInt 120 ]}.

(** The keys of [default_settings], in the order written. *)
Definition default_keys : list string :=
  [ "cards_per_page"; "orientation"; "font_size"; "auto_fill_language";
    "pen_color"; "pen_width"; "column_widths" ].

Definition default_settings : gmap string pyval :=
  {[ "cards_per_page" := PyStr "6";
     "orientation" := PyStr "Portrait";
     "font_size" := PyStr "60";
     "auto_fill_language" := PyStr "Disabled";
     "pen_color" := PyStr "#000000";
     "pen_width" := PyStr "2";
     "column_widths" := PyDict default_column_widths ]}.

(** The two caught exceptions give the defaults, any other leaves the
    call. A decoded value that is not an object ends in [TypeError],
    which is not caught: [key not in loaded] is not defined on a number,
    a truth value or [null]; on a string or an array it is, but neither
    takes a value under a string key ([loaded[key] = ...]) nor gives one
    ([loaded["column_widths"]]), and one of the two is always reached. *)
Definition load_settings (file : settings_file)
    : result (gmap string pyval) :=
  match file with
  | FileNotFound | NotJson => Ok default_settings
  | ReadError e => Raise e
  | Decoded (PyDict loaded) =>
      let loaded :=
        fold_left
          (fun loaded key =>
             match loaded !! key with
             | Some _ => loaded
             | None =>
                 match default_settings !! key with
                 | Some v => <[key := v]> loaded
                 | None => loaded
                 end
             end)
          default_keys loaded in
      match loaded !! "column_widths" with
      | Some v =>
          if is_dict v then Ok loaded
          else Ok (<["column_widths" := PyDict default_column_widths]> loaded)
      | None => Ok (<["column_widths" := PyDict default_column_widths]> loaded)
      end
  | Decoded _ => Raise TypeError
  end.

(** ** The view buttons *)

(** [self.search.clear()]: the text changes, and [textChanged] reaches
    [debounced_filter], only when the box was not empty. *)
Definition clear_search (now : Z) (u : ui) : ui :=
  if nonempty (search_text u)
  then debounced_filter now (Ui "" (filter_selected u) (filter_timer u))
  else u.

(** A click on Show All (resp. Show Selected) at time [now]. *)
Definition show_view (selected_only : bool) (now : Z)
    (s : ui * list commit) : ui * list commit :=
  let (u, log) := advance now s in
  let u := clear_search now u in
  let u := Ui (search_text u) selected_only (filter_timer u) in
  (u, log ++ [Commit now (search_text u) (filter_selected u)]).

Definition show_all : Z -> ui * list commit -> ui * list commit :=
  show_view false.

Definition show_selected : Z -> ui * list commit -> ui * list commit :=
  show_view true.

(** ** What is drawn *)

Definition op_text (op : paint_op) : list string :=
  match op with
  | DrawText _ _ _ _ _ text => [text]
  | _ => []
  end.

Definition op_lesson (op : paint_op) : list string :=
  match op with
  | DrawLesson _ _ _ _ text => [text]
  | _ => []
  end.

(** The card texts drawn on a run of cells, in painting order. *)
Definition drawn_texts (cells : list cell) : list string :=
  flat_map (fun c => flat_map op_text (cell_ops c)) cells.

Definition drawn_lessons (cells : list cell) : list string :=
  flat_map (fun c => flat_map op_lesson (cell_ops c)) cells.

(** The pages of odd and of even rank of a document. *)
Fixpoint front_pages (pages : list page) : list page :=
  match pages with
  | [] => []
  | [f] => [f]
  | f :: _ :: rest => f :: front_pages rest
  end.

Fixpoint back_pages (pages : list page) : list page :=
  match pages with
  | [] => []
  | [_] => []
  | _ :: b :: rest => b :: back_pages rest
  end.

(** Height of the page in device pixels, as [render_document] takes it. *)
Definition page_height_px (dev : device) : Z :=
  if landscape dev then Z.quot (17 * resolution dev) 2
  else 11 * resolution dev.

(** ** The table over a session *)

(** What every row of the table satisfies. *)
Definition card_ok (c : card) : Prop :=
  1 <= card_id c /\ 1 <= copies c
  /\ (selected c = 0 \/ selected c = 1) /\ 0 <= printed_count c.

Definition store_ok (db : store) : Prop :=
  store_wf db /\ Forall card_ok db.

(** The operations of the application that write to the table; a print
    is taken with no other connection writing while the preview is
    open. *)
Inductive action :=
| AddFlashcard (lesson_input front_input back_input : string)
| ImportCsv (rows : list (gmap string (option string)))
| UpdateCell (item : option Z) (col : Z) (checked : bool) (text : string)
| DeleteRow (reply_yes : bool) (card_id : Z)
| DeleteSelected (reply_yes : bool)
| SelectAll (table_ids : list Z)
| UnselectAll
| SelectAllUnprinted
| PrintSelected (settings : gmap string pyval) (resolution : Z)
    (painter_ok accepted : bool) (now : string).

Definition step (db : store) (a : action) : store :=
  match a with
  | AddFlashcard l f b => snd (add_flashcard l f b db)
  | ImportCsv rows => snd (import_csv rows db)
  | UpdateCell item col checked text =>
      snd (update_cell item col checked text db)
  | DeleteRow reply_yes i => delete_row reply_yes i db
  | DeleteSelected reply_yes => snd (delete_selected reply_yes db)
  | SelectAll table_ids => select_all table_ids db
  | UnselectAll => unselect_all db
  | SelectAllUnprinted => select_all_unprinted db
  | PrintSelected settings resolution painter_ok accepted now =>
      db_after
        (print_selected settings
           (Preview resolution painter_ok accepted (fun db => db)) now db)
  end.

(** A session from a new database. *)
Definition session (actions : list action) : store :=
  fold_left step actions [].

(** Each change comes 300 or more after the one before. *)
Fixpoint spaced (t : Z) (changes : list (Z * string)) : Prop :=
  match changes with
  | [] => True
  | e :: rest => t + 300 <= fst e /\ spaced (fst e) rest
  end.

(** A row of an import file with an empty lesson. *)
Definition row_without_lesson (front back : string)
    : gmap string (option string) :=
  {[ "lesson" := Some ""; "front" := Some front; "back" := Some back ]}.

(** A row counts when none of its three fields is blank. *)
Definition complete_row (row : gmap string (option string)) : bool :=
  match import_row row with
  | Some (Some _) => true
  | _ => false
  end.

(** An edit of the copies cell of a row that holds an id, to an integer
    of 2^63 or more. *)
Definition copies_overflow (item : option Z) (col : Z) (text : string)
    : Prop :=
  col = 4 /\ (exists i, item = Some i /\ i <> 0)
  /\ exists n, int_of_str text = Some n /\ 2 ^ 63 <= n.

Definition fresh_card (c : card) : Prop :=
  selected c = 0 /\ copies c = 1 /\ printed_count c = 0
  /\ last_printed c = None.

Fixpoint no_space (s : string) : bool :=
  match s with
  | EmptyString => true
  | String c s' => negb (py_isspace c) && no_space s'
  end.

(** [int] refuses the value under [key] with [ValueError], or gives an
    integer that is not from [lo] to [hi]. *)
Definition bad_setting (settings : gmap string pyval) (key : string)
    (dflt lo hi : Z) : Prop :=
  match py_int (settings_get settings key (PyInt dflt)) with
  | Ok n => n < lo \/ hi < n
  | Raise e => e = ValueError
  end.

(** The keys written by the options dialog. *)
Definition dialog_keys : list string :=
  [ "cards_per_page"; "orientation"; "font_size"; "auto_fill_language";
    "pen_color"; "pen_width" ].

Definition sample_options : options :=
  Options 4 "Landscape" 48 "Disabled" "#ff0000" 3.

(** Settings whose font size is too large, and whose pen width is not a
    number. *)
Definition huge_font : gmap string pyval :=
  <[ "font_size" := PyStr "200" ]> sample_settings.

Definition no_painter : preview := Preview 1200 false true (fun db => db).

(** Five copies of one card, for three to a sheet. *)
Definition five_cards : list render_card := repeat ("L1", "Hola", "Hello") 5.

(** The commits of a run of changes that are each left to settle, from
    the view mode [sel] on. *)
Fixpoint spaced_commits (sel : bool) (changes : list (Z * string))
    : list commit :=
  match changes with
  | [] => []
  | e :: rest =>
      let sel' := if nonempty (snd e) then false else sel in
      Commit (fst e + 300) (snd e) sel' :: spaced_commits sel' rest
  end.

(** A settings file written by an older version: one known key, one
    unknown key, and column widths that are not an object. *)
Definition old_settings_file : gmap string pyval :=
  {[ "font_size" := PyStr "48"; "theme" := PyStr "dark";
     "column_widths" := PyList [PyInt 60; PyInt 100] ]}.

(** ** Auto-fill of the back text *)

(** [lang_codes.get(lang)] *)
Definition lang_code (lang : string) : option string :=
  if String.eqb lang "Spanish" then Some "es"
  else if String.eqb lang "French" then Some "fr"
  else if String.eqb lang "German" then Some "de"
  else if String.eqb lang "Italian" then Some "it"
  else if String.eqb lang "Portuguese" then Some "pt"
  else if String.eqb lang "Chinese" then Some "zh-CN"
  else if String.eqb lang "Japanese" then Some "ja"
  else None.

(** The text of the back input after the front input loses focus.
    [translation_available]: whether the translation package could be
    imported; [translate target text]: the translator, [None] when it
    raises. A language setting that is not a string has no code:
    [lang_codes.get] finds nothing under it, or, for an array or an
    object, raises [TypeError] on hashing it; both leave the back input
    as it is. *)
Definition auto_fill_back (translation_available : bool)
    (settings : gmap string pyval)
    (translate : string -> string -> option string)
    (front_input back_input : string) : string :=
  if negb translation_available then back_input
  else
    let lang :=
      settings_get settings "auto_fill_language" (PyStr "Disabled") in
    let disabled :=
      match lang with
      | PyStr s => String.eqb s "Disabled"
      | _ => false
      end in
    if disabled then back_input
    else
      let front_text := strip front_input in
      if negb (nonempty front_text) then ""
      else if nonempty (strip back_input) then back_input
      else
        match match lang with
              | PyStr s => lang_code s
              | _ => None
              end with
        | None => back_input
        | Some target_lang =>
            match translate target_lang front_text with
            | Some translation => translation
            | None => back_input
            end
        end.

(** Copies to print over the selected cards. *)
Definition total_copies (db : store) : Z :=
  fold_right (fun c acc => Z.max 0 (copies c) + acc) 0
    (sql_select is_selected db).

(** Settings with auto-fill to Spanish, and a translator that knows one
    word. *)
Definition spanish_settings : gmap string pyval :=
  <[ "auto_fill_language" := PyStr "Spanish" ]> sample_settings.

Definition one_word (target text : string) : option string :=
  if String.eqb target "es" && String.eqb text "Hello" then Some "Hola"
  else None.

(** * Properties *)

(** The two readings of a [try] block of [print_selected] agree. *)
Lemma checked_setting_parse settings key dflt lo hi :
  match parse_setting settings key dflt lo hi with
  | Some n => checked_setting settings key dflt lo hi = Ok n
  | None => exists e, checked_setting settings key dflt lo hi = Raise e
  end.
Proof.
  unfold parse_setting, checked_setting.
  destruct (py_int _) as [n|e]; [|now exists e].
  destruct ((n <? lo) || (n >? hi)); [now exists ValueError | reflexivity].
Qed.

(** One goal for the value the block ends with, then one for each
    exception that can leave it. *)
Ltac setting_cases settings key dflt lo hi :=
  let H := fresh "Hset" in
  pose proof (checked_setting_parse settings key dflt lo hi) as H;
  destruct (parse_setting settings key dflt lo hi);
  [ rewrite H; clear H | destruct H as [[] ->] ].

Lemma select_all_unprinted_row (db : store) :
  select_all_unprinted db =
  map (fun c => set_selected (if is_unprinted c then 1 else 0) c) db.
Proof.
  unfold select_all_unprinted, sql_update. rewrite map_map.
  apply map_ext. intros c. unfold is_unprinted. simpl.
  destruct (printed_count c =? 0); reflexivity.
Qed.

(** C5. After [select_all_unprinted] the selected ids are exactly the
    ids of the rows whose printed_count is 0, whatever was selected
    before: a row ends selected iff its printed_count is 0, and the ids
    listed as selected are those of the unprinted rows of the table. *)
Theorem select_all_unprinted_exact (db : store) :
  selected_ids (select_all_unprinted db)
    = map card_id (sql_select is_unprinted db)
  /\ Forall2 (fun c c' =>
        c' = set_selected (selected c') c
        /\ (selected c' = 1 <-> printed_count c = 0)
        /\ (selected c' = 0 \/ selected c' = 1))
      db (select_all_unprinted db).
Proof.
  rewrite select_all_unprinted_row. split.
  - unfold selected_ids, sql_select.
    induction db as [|c db IH]; [reflexivity|].
    cbn [map List.filter]. unfold is_selected at 1.
    destruct (is_unprinted c); cbn [selected set_selected Z.eqb Pos.eqb map];
      rewrite IH; reflexivity.
  - induction db as [|c db IH]; simpl; constructor; [|exact IH].
    unfold is_unprinted. destruct (Z.eqb_spec (printed_count c) 0) as [E|E];
      simpl; (split; [reflexivity|]); split; try tauto; try lia.
Qed.

(** ** Ordered queries *)

Section OrderBy.
Variable le : card -> card -> bool.

Lemma insert_row_perm x rows :
  Permutation (insert_row le x rows) (x :: rows).
Proof.
  induction rows as [|y rows IH]; simpl; [reflexivity|].
  destruct (le x y); [reflexivity|].
  rewrite IH. apply perm_swap.
Qed.

Lemma order_by_perm rows : Permutation (order_by le rows) rows.
Proof.
  induction rows as [|x rows IH]; simpl; [reflexivity|].
  rewrite insert_row_perm. now constructor.
Qed.

Hypothesis le_total : forall a b, le a b = false -> le b a = true.
Hypothesis le_trans :
  forall a b c, le a b = true -> le b c = true -> le a c = true.

Lemma insert_row_sorted x rows :
  StronglySorted (fun a b => le a b = true) rows ->
  StronglySorted (fun a b => le a b = true) (insert_row le x rows).
Proof.
  induction 1 as [|y rows Hs IH Hy]; simpl.
  - repeat constructor.
  - destruct (le x y) eqn:E.
    + constructor; [now constructor|].
      constructor; [exact E|].
      eapply List.Forall_impl; [|exact Hy]. intros z Hz. now apply le_trans with y.
    + constructor; [exact IH|].
      eapply Permutation_Forall; [symmetry; apply insert_row_perm|].
      constructor; [now apply le_total | exact Hy].
Qed.

Lemma order_by_sorted rows :
  StronglySorted (fun a b => le a b = true) (order_by le rows).
Proof.
  induction rows as [|x rows IH]; simpl; [constructor|].
  now apply insert_row_sorted.
Qed.
End OrderBy.

Lemma lesson_id_le_iff a b : lesson_id_le a b = true <-> catalog_le a b.
Proof.
  unfold lesson_id_le, catalog_le.
  destruct (String.compare (lesson a) (lesson b)) eqn:E.
  - apply String.compare_eq_iff in E. rewrite Z.leb_le. intuition congruence.
  - intuition.
  - split; [discriminate|]. intros [H|[H _]]; [discriminate|].
    rewrite H in E. now rewrite (proj2 (OrderedTypeEx.String_as_OT.cmp_eq _ _) eq_refl) in E.
Qed.

Lemma lesson_id_le_total a b :
  lesson_id_le a b = false -> lesson_id_le b a = true.
Proof.
  unfold lesson_id_le. rewrite (String.compare_antisym (lesson b) (lesson a)).
  destruct (String.compare (lesson a) (lesson b)); simpl; try discriminate.
  - rewrite Z.leb_gt, Z.leb_le. lia.
  - reflexivity.
Qed.

Lemma lesson_id_le_trans a b c :
  lesson_id_le a b = true -> lesson_id_le b c = true ->
  lesson_id_le a c = true.
Proof.
  rewrite !lesson_id_le_iff. unfold catalog_le.
  intros [H1|[H1 I1]] [H2|[H2 I2]].
  - left. apply OrderedTypeEx.String_as_OT.cmp_lt. apply OrderedTypeEx.String_as_OT.cmp_lt in H1, H2.
    eapply OrderedTypeEx.String_as_OT.lt_trans; eassumption.
  - left. now rewrite <- H2.
  - left. now rewrite H1.
  - right. split; [congruence | lia].
Qed.

Lemma catalog_sorted rows :
  StronglySorted catalog_le (order_by lesson_id_le rows).
Proof.
  pose proof (order_by_sorted lesson_id_le lesson_id_le_total
                lesson_id_le_trans rows) as H.
  induction H as [|x l Hs IH Hx]; constructor; [exact IH|].
  eapply List.Forall_impl; [|exact Hx]. intros y. apply lesson_id_le_iff.
Qed.

(** A row whose id is below every id of [rows] lands at the same place
    under both orders. *)
Lemma insert_row_lesson_only x rows :
  Forall (fun y => card_id x < card_id y) rows ->
  insert_row lesson_le x rows = insert_row lesson_id_le x rows.
Proof.
  induction 1 as [|y rows Hy _ IH]; simpl; [reflexivity|].
  rewrite IH.
  replace (lesson_le x y) with (lesson_id_le x y); [reflexivity|].
  unfold lesson_le, lesson_id_le, String.leb.
  destruct (String.compare (lesson x) (lesson y)); try reflexivity.
  apply Z.leb_le. lia.
Qed.

Lemma store_wf_select where_ db :
  store_wf db -> store_wf (sql_select where_ db).
Proof.
  unfold store_wf, sql_select.
  induction db as [|c db IH]; simpl; intros H; [constructor|].
  inversion H as [|? ? Hs Hc]; subst.
  destruct (where_ c); simpl; [|now apply IH].
  constructor; [now apply IH|].
  rewrite List.Forall_forall in Hc |- *. intros z Hz. apply Hc.
  rewrite in_map_iff in Hz |- *. destruct Hz as [y [<- Hy]].
  exists y. split; [reflexivity|]. now apply filter_In in Hy.
Qed.

Lemma order_by_lesson_only rows :
  store_wf rows -> order_by lesson_le rows = order_by lesson_id_le rows.
Proof.
  unfold store_wf.
  induction rows as [|x rows IH]; simpl; intros H; [reflexivity|].
  inversion H as [|? ? Hs Hx]; subst.
  rewrite (IH Hs). apply insert_row_lesson_only.
  eapply Permutation_Forall; [symmetry; apply order_by_perm|].
  rewrite List.Forall_map in Hx. exact Hx.
Qed.

Lemma load_data_selected db :
  load_data "" true db = order_by lesson_id_le (sql_select is_selected db).
Proof. reflexivity. Qed.

Lemma store_wf_NoDup db : store_wf db -> List.NoDup db.
Proof.
  unfold store_wf. induction db as [|x db IH]; simpl; intros H;
    [constructor|].
  inversion H as [|? ? Hs Hx]; subst. constructor; [|now apply IH].
  intros Hin. rewrite List.Forall_map, List.Forall_forall in Hx.
  specialize (Hx x Hin). simpl in Hx. lia.
Qed.

Section PrintQueryPlans.
Variable le : card -> card -> bool.
Hypothesis le_total : forall a b, le a b = false -> le b a = true.
Hypothesis le_trans :
  forall a b c, le a b = true -> le b c = true -> le a c = true.

Lemma insert_row_first x rows :
  Forall (fun y => le x y = true) rows -> insert_row le x rows = x :: rows.
Proof. destruct 1 as [|y rows Hy _]; simpl; [|rewrite Hy]; reflexivity. Qed.

Lemma filter_insert_row p x rows :
  StronglySorted (fun a b => le a b = true) rows ->
  List.filter p (insert_row le x rows)
  = if p x then insert_row le x (List.filter p rows)
    else List.filter p rows.
Proof.
  induction 1 as [|y rows Hs IH Hy]; simpl; [now destruct (p x)|].
  destruct (le x y) eqn:E; simpl.
  - destruct (p x); [|reflexivity].
    destruct (p y); simpl; [now rewrite E|].
    symmetry. apply insert_row_first. apply List.Forall_forall.
    intros z Hz. apply filter_In in Hz as [Hz _].
    apply le_trans with y; [exact E|].
    now apply (proj1 (List.Forall_forall _ _) Hy).
  - rewrite IH. destruct (p y), (p x); simpl; rewrite ?E; reflexivity.
Qed.

(** The rows can be sorted and then filtered, or filtered and then
    sorted. *)
Lemma filter_order_by p rows :
  List.filter p (order_by le rows) = order_by le (List.filter p rows).
Proof.
  induction rows as [|x rows IH]; simpl; [reflexivity|].
  rewrite filter_insert_row by now apply order_by_sorted.
  rewrite IH. now destruct (p x).
Qed.
End PrintQueryPlans.

(** The print query read off the index on lesson, whose entries come by
    lesson and, within a lesson, by rowid, gives the rows that sorting
    the selected rows of a table scan gives. *)
Lemma print_query_plans_agree db :
  store_wf db ->
  sql_select is_selected (order_by lesson_id_le db)
  = order_by lesson_le (sql_select is_selected db).
Proof.
  intros Hwf. unfold sql_select.
  rewrite (filter_order_by lesson_id_le lesson_id_le_total lesson_id_le_trans).
  symmetry. apply order_by_lesson_only. now apply store_wf_select.
Qed.

(** C3. The list handed to the layout step is the selected cards in
    catalog order, each card followed by its further copies. There is a
    list of cards that holds each card of the table whose selected flag
    is 1, once, and no other, that ascends by lesson and, among cards of
    one lesson, by id, and the list handed over is, card after card of
    it, the card's lesson, front and back as many times as its copies.
    The query is [ORDER BY lesson]; rows of one lesson come by id
    because the rows reach the sorter in rowid order and it keeps rows
    of equal key as they came, or, read off the index on lesson, because
    that index is kept by lesson and rowid
    ([print_query_plans_agree]). *)
Theorem cards_to_print_catalog_order (db : store) :
  store_wf db ->
  exists rows : list card,
    List.NoDup rows
    /\ (forall c, In c rows <-> In c db /\ selected c = 1)
    /\ StronglySorted catalog_le rows
    /\ cards_to_print db
       = concat (map (fun c => repeat (lesson c, front c, back c)
                                 (Z.to_nat (copies c)))
                   rows).
Proof.
  intros Hwf. exists (order_by lesson_id_le (sql_select is_selected db)).
  pose proof (order_by_perm lesson_id_le (sql_select is_selected db)) as Hp.
  split.
  { eapply Permutation.Permutation_NoDup; [symmetry; exact Hp|].
    apply store_wf_NoDup. now apply store_wf_select. }
  split.
  { intros c. split.
    - intros Hc. apply (Permutation_in _ Hp) in Hc.
      apply filter_In in Hc as [Hc Hs]. split; [exact Hc|].
      now apply Z.eqb_eq.
    - intros [Hc Hs]. apply (Permutation_in _ (Permutation_sym Hp)).
      apply filter_In. split; [exact Hc|]. now apply Z.eqb_eq. }
  split; [apply catalog_sorted|].
  unfold cards_to_print, render_cards.
  rewrite order_by_lesson_only by now apply store_wf_select.
  now rewrite flat_map_concat_map.
Qed.

Lemma cards_to_print_catalog_order_witness :
  exists rows : list card,
    List.NoDup rows
    /\ (forall c, In c rows <-> In c catalog_sample /\ selected c = 1)
    /\ StronglySorted catalog_le rows
    /\ cards_to_print catalog_sample
       = concat (map (fun c => repeat (lesson c, front c, back c)
                                 (Z.to_nat (copies c)))
                   rows).
Proof.
  apply (cards_to_print_catalog_order catalog_sample).
  unfold store_wf. vm_compute. repeat constructor.
Defined.

(** Two cards of one lesson entered in the other order of their fronts,
    and a card of an earlier lesson entered last, one card unselected:
    the selected ones are printed by lesson and then by id. *)
Example cards_to_print_ties :
  cards_to_print
    [ Card 1 "L1" "Zorro" "Fox" 1 1 0 None;
      Card 2 "L1" "Abeja" "Bee" 1 2 0 None;
      Card 3 "L1" "Mono" "Monkey" 0 1 0 None;
      Card 4 "L0" "Uno" "One" 1 1 0 None ]
  = [ ("L0", "Uno", "One"); ("L1", "Zorro", "Fox");
      ("L1", "Abeja", "Bee"); ("L1", "Abeja", "Bee") ].
Proof. reflexivity. Qed.

Example cards_to_print_sample :
  cards_to_print catalog_sample
  = [("L0", "Uno", "One"); ("L1", "Hola", "Hello");
     ("L1", "Adios", "Bye"); ("L1", "Adios", "Bye")].
Proof. reflexivity. Qed.

(** ** Print bookkeeping *)

Lemma store_wf_unique db a b :
  store_wf db -> In a db -> In b db -> card_id a = card_id b -> a = b.
Proof.
  unfold store_wf. induction db as [|x db IH]; simpl; [contradiction|].
  intros H. inversion H as [|? ? Hs Hx]; subst.
  rewrite List.Forall_map, List.Forall_forall in Hx.
  intros [->|Ha] [->|Hb] E; auto.
  - specialize (Hx _ Hb). lia.
  - specialize (Hx _ Ha). lia.
Qed.



Lemma print_selected_printed settings pv now db :
  outcome (print_selected settings pv now db) = Printed ->
  accepted pv = true
  /\ db_after (print_selected settings pv now db)
     = update_print_stats now (meanwhile pv db).
Proof.
  unfold print_selected.
  destruct (cards_to_print db); simpl; [discriminate|].
  setting_cases settings "cards_per_page" 6 1 12; simpl;
    [|discriminate..].
  setting_cases settings "font_size" 12 6 120; simpl;
    [|discriminate..].
  destruct (accepted pv); simpl; [auto | discriminate].
Qed.




(** C10. If the preview is not accepted the print does not complete and
    [print_selected] writes nothing: the table it leaves is the table it
    found, up to what other connections did while the dialog was open,
    and is exactly the table it found when nothing else wrote. *)
Theorem print_cancelled_store_untouched
    (settings : gmap string pyval) (pv : preview) (now : string) (db : store) :
  accepted pv = false ->
  outcome (print_selected settings pv now db) <> Printed
  /\ (db_after (print_selected settings pv now db) = db
      \/ db_after (print_selected settings pv now db) = meanwhile pv db)
  /\ ((forall d, meanwhile pv d = d) ->
      db_after (print_selected settings pv now db) = db).
Proof.
  intros Ha. unfold print_selected.
  destruct (cards_to_print db); simpl; [(repeat split; auto; discriminate)|].
  setting_cases settings "cards_per_page" 6 1 12; simpl;
    [|(repeat split; auto; discriminate)..].
  setting_cases settings "font_size" 12 6 120; simpl;
    [|(repeat split; auto; discriminate)..].
  rewrite Ha. simpl. (repeat split; auto; discriminate).
Qed.

Lemma print_cancelled_store_untouched_witness :
  outcome (print_selected sample_settings
             (Preview 1200 true false (fun d => d))
             "2026-01-05 10:00:00" [hola; adios]) = Cancelled
  /\ db_after (print_selected sample_settings
                 (Preview 1200 true false (fun d => d))
                 "2026-01-05 10:00:00" [hola; adios]) = [hola; adios].
Proof.
  split; [vm_compute; reflexivity|].
  apply (print_cancelled_store_untouched sample_settings
           (Preview 1200 true false (fun d => d)) "2026-01-05 10:00:00"
           [hola; adios] eq_refl).
  reflexivity.
Defined.

(** ** Page layout *)

Section SideLoop.
Variable paint : Z -> render_card -> cell.
Variable cards : list render_card.
Variable index : Z.
Hypothesis index_nonneg : 0 <= index.

Lemma side_loop_nth_from m : forall a i,
  nth_error (side_loop paint cards index (map Z.of_nat (seq a m))) i
  = if (i <? m)%nat
    then option_map (paint (Z.of_nat (a + i)))
           (nth_error cards (Z.to_nat index + a + i))
    else None.
Proof.
  induction m as [|m IH]; intros a i; simpl side_loop.
  - now destruct i.
  - unfold len. destruct (Z.geb_spec (index + Z.of_nat a) (Z.of_nat (length cards)))
      as [Hge|Hlt].
    + replace (nth_error cards (Z.to_nat index + a + i)) with (@None render_card).
      * replace (nth_error (@nil cell) i) with (@None cell) by now destruct i.
        now destruct (i <? S m)%nat.
      * symmetry. apply nth_error_None. lia.
    + replace (Z.to_nat (index + Z.of_nat a)) with (Z.to_nat index + a)%nat by lia.
      destruct (nth_error cards (Z.to_nat index + a)) as [rc|] eqn:E.
      * destruct i as [|i]; simpl nth_error.
        -- rewrite !Nat.add_0_r, E. reflexivity.
        -- rewrite IH. change (S i <? S m)%nat with (i <? m)%nat.
           now replace (Z.to_nat index + S a + i)%nat
             with (Z.to_nat index + a + S i)%nat by lia;
             replace (S a + i)%nat with (a + S i)%nat by lia.
      * apply nth_error_None in E. lia.
Qed.

Lemma side_loop_nth n i :
  nth_error (side_loop paint cards index (py_range n)) i
  = if Z.of_nat i <? n
    then option_map (paint (Z.of_nat i)) (nth_error cards (Z.to_nat index + i))
    else None.
Proof.
  unfold py_range. rewrite side_loop_nth_from. simpl. rewrite Nat.add_0_r.
  destruct (Nat.ltb_spec i (Z.to_nat n)), (Z.ltb_spec (Z.of_nat i) n);
    try reflexivity; lia.
Qed.

Lemma side_loop_length n :
  len (side_loop paint cards index (py_range n))
  = Z.max 0 (Z.min n (len cards - index)).
Proof.
  set (l := side_loop paint cards index (py_range n)).
  assert (H : forall i, nth_error l i = None <->
                        Z.max 0 (Z.min n (len cards - index)) <= Z.of_nat i).
  { intros i. unfold l. rewrite side_loop_nth. unfold len.
    destruct (Z.ltb_spec (Z.of_nat i) n).
    - destruct (nth_error cards (Z.to_nat index + i)) eqn:E; simpl.
      + assert (Z.to_nat index + i < length cards)%nat
          by (apply nth_error_Some; congruence).
        split; [discriminate | lia].
      + apply nth_error_None in E. split; [lia | reflexivity].
    - split; [lia | reflexivity]. }
  unfold len in *.
  assert (H1 := proj1 (H (length l)) (proj2 (nth_error_None l _) (le_n _))).
  destruct (length l) as [|n0] eqn:E; [lia|].
  assert (H2 : nth_error l n0 <> None) by (apply nth_error_Some; lia).
  rewrite H in H2. lia.
Qed.
End SideLoop.

Lemma sheet_index_lt (m n k : Z) :
  1 <= n -> k < sheet_count m n <-> k * n < m.
Proof.
  intros Hn. unfold sheet_count. split; intros H.
  - assert (n * (k + 1) <= m + n - 1); [|lia].
    etransitivity; [|apply (Z.mul_div_le _ n); lia].
    apply Z.mul_le_mono_nonneg_l; lia.
  - assert (k + 1 <= (m + n - 1) / n); [|lia].
    apply Z.div_le_lower_bound; lia.
Qed.

Lemma sheet_count_le (m n : Z) : 1 <= n -> 0 <= m -> sheet_count m n <= m.
Proof.
  intros Hn Hm. unfold sheet_count.
  assert ((m + n - 1) / n < m + 1); [|lia].
  apply Z.div_lt_upper_bound; nia.
Qed.

Section Document.
Variable L : layout.
Variable cards : list render_card.

Lemma document_loop_hangs fuel : forall index p,
  cpp L <= 0 -> index < len cards ->
  document_loop fuel L cards index p = None.
Proof.
  induction fuel as [|fuel IH]; intros index p Hc Hi; simpl;
    rewrite (proj2 (Z.ltb_lt _ _) Hi); [reflexivity|].
  apply IH; lia.
Qed.

Lemma document_loop_pages n : forall k fuel p,
  1 <= cpp L ->
  Z.of_nat (k + n) = sheet_count (len cards) (cpp L) ->
  (n <= fuel)%nat ->
  exists p',
    document_loop fuel L cards (Z.of_nat k * cpp L) p = Some p'
    /\ pages_of p'
       = finished p
         ++ match flat_map (sheet L cards) (seq k n) with
            | [] => [current p]
            | f :: rest => (current p ++ f) :: rest
            end.
Proof.
  induction n as [|n IH]; intros k fuel p Hc Hk Hf.
  - exists p. split; [|reflexivity].
    assert (~ Z.of_nat k * cpp L < len cards) as Hge
      by (rewrite <- sheet_index_lt by assumption; lia).
    apply Z.ltb_nlt in Hge. destruct fuel; simpl; now rewrite Hge.
  - destruct fuel as [|fuel]; [lia|].
    assert (Z.of_nat k * cpp L < len cards) as Hlt
      by (rewrite <- sheet_index_lt by assumption; lia).
    simpl document_loop. rewrite (proj2 (Z.ltb_lt _ _) Hlt).
    replace (Z.of_nat k * cpp L + cpp L) with (Z.of_nat (S k) * cpp L) by lia.
    match goal with |- context [document_loop fuel L cards _ ?q] =>
      destruct (IH (S k) fuel q Hc) as [p' [Hp' Hpages]]; [lia | lia |] end.
    exists p'. split; [exact Hp'|]. rewrite Hpages. clear Hp' Hpages.
    simpl flat_map. unfold sheet at 2. simpl app.
    destruct (Z.ltb_spec (Z.of_nat (S k) * cpp L) (len cards)) as [Hn|Hn].
    + destruct n as [|n].
      * exfalso. apply sheet_index_lt in Hn; [lia | assumption].
      * simpl. unfold sheet at 1. simpl. now rewrite <- !app_assoc.
    + destruct n as [|n].
      * simpl. now rewrite <- !app_assoc.
      * assert (Z.of_nat (S k) * cpp L < len cards)
          by (apply sheet_index_lt; [assumption | lia]).
        lia.
Qed.

Lemma sheets_nth_front n : forall a j,
  nth_error (flat_map (sheet L cards) (seq a n)) (2 * j)
  = if (j <? n)%nat
    then Some (front_side L cards (Z.of_nat (a + j) * cpp L)) else None.
Proof.
  induction n as [|n IH]; intros a j; [now destruct j|].
  destruct j as [|j].
  - simpl. now rewrite Nat.add_0_r.
  - replace (2 * S j)%nat with (S (S (2 * j))) by lia.
    cbn [flat_map seq]. unfold sheet at 1. cbn [app nth_error]. rewrite IH.
    change (S j <? S n)%nat with (j <? n)%nat.
    now replace (S a + j)%nat with (a + S j)%nat by lia.
Qed.

Lemma sheets_nth_back n : forall a j,
  nth_error (flat_map (sheet L cards) (seq a n)) (2 * j + 1)
  = if (j <? n)%nat
    then Some (back_side L cards (Z.of_nat (a + j) * cpp L)) else None.
Proof.
  induction n as [|n IH]; intros a j; [now destruct j|].
  destruct j as [|j].
  - simpl. now rewrite Nat.add_0_r.
  - replace (2 * S j + 1)%nat with (S (S (2 * j + 1))) by lia.
    cbn [flat_map seq]. unfold sheet at 1. cbn [app nth_error]. rewrite IH.
    change (S j <? S n)%nat with (j <? n)%nat.
    now replace (S a + j)%nat with (a + S j)%nat by lia.
Qed.

Lemma sheets_length :
  len (sheets L cards) = 2 * Z.max 0 (sheet_count (len cards) (cpp L)).
Proof.
  unfold sheets, len at 1.
  set (n := Z.to_nat (sheet_count (len cards) (cpp L))).
  assert (forall a, length (flat_map (sheet L cards) (seq a n)) = (2 * n)%nat)
    as H.
  { induction n as [|m IH]; intros a; simpl; [reflexivity|].
    rewrite IH. lia. }
  rewrite H. lia.
Qed.
End Document.

Lemma page_layout_ok settings print_cpp print_font_size dev L :
  page_layout settings print_cpp print_font_size dev = Ok L ->
  cpp L = print_cpp /\ font_size L = print_font_size
  /\ print_cpp / 2 <> 0
  /\ py_int (settings_get settings "pen_width" (PyInt 2)) = Ok (pen_width L).
Proof.
  unfold page_layout.
  destruct (py_int (settings_get settings "pen_width" (PyInt 2)));
    [|discriminate].
  destruct (Z.eqb_spec (print_cpp / 2) 0); [discriminate|].
  intros [= <-]. auto.
Qed.

Lemma render_document_sheets settings cards print_cpp print_font_size dev L :
  begin_ok dev = true ->
  page_layout settings print_cpp print_font_size dev = Ok L ->
  1 <= print_cpp -> cards <> [] ->
  render_document settings cards print_cpp print_font_size dev
  = Painted (sheets L cards).
Proof.
  intros Hb EL H1 Hne. unfold render_document. rewrite Hb, EL. cbn [negb].
  destruct (page_layout_ok _ _ _ _ _ EL) as [Hc _].
  assert (0 < len cards) as Hlen
    by (destruct cards; [contradiction | unfold len; simpl; lia]).
  assert (0 < sheet_count (len cards) (cpp L)) as Hpos
    by (apply sheet_index_lt; lia).
  destruct (document_loop_pages L cards
              (Z.to_nat (sheet_count (len cards) (cpp L))) 0
              (S (length cards)) (Printer [] [])) as [p' [Hp' Hpages]];
    [lia | lia | |].
  - pose proof (sheet_count_le (len cards) (cpp L)) as Hle.
    unfold len in *. lia.
  - simpl Z.of_nat in Hp'. rewrite Z.mul_0_l in Hp'. rewrite Hp', Hpages.
    unfold sheets. cbn [finished current app].
    now destruct (Z.to_nat (sheet_count (len cards) (cpp L))) eqn:E; [lia|].
Qed.

(** What a completed rendering consists of. *)
Lemma render_document_painted settings cards print_cpp print_font_size dev
    pages :
  render_document settings cards print_cpp print_font_size dev = Painted pages ->
  exists L,
    page_layout settings print_cpp print_font_size dev = Ok L
    /\ ((cards = [] /\ pages = [[]])
        \/ (cards <> [] /\ 2 <= print_cpp /\ pages = sheets L cards)).
Proof.
  intros H. pose proof H as H0. revert H0.
  unfold render_document. destruct (begin_ok dev) eqn:Hb; cbn [negb];
    [|discriminate].
  destruct (page_layout settings print_cpp print_font_size dev) as [L|]
    eqn:EL; [|discriminate].
  intros H0. exists L. split; [reflexivity|].
  destruct (page_layout_ok _ _ _ _ _ EL) as [Hc [_ [Hrows _]]].
  destruct cards as [|rc cards]; [left; split; [reflexivity|] | right].
  - simpl in H0. now injection H0 as <-.
  - split; [discriminate|].
    destruct (Z.le_gt_cases print_cpp 0) as [Hle|Hgt].
    + rewrite document_loop_hangs in H0; [discriminate | lia |].
      unfold len. simpl. lia.
    + assert (2 <= print_cpp) as H2.
      { destruct (Z.eq_dec print_cpp 1) as [->|]; [now elim Hrows | lia]. }
      split; [exact H2|].
      rewrite (render_document_sheets _ _ _ _ _ L Hb EL) in H;
        [now injection H | lia | discriminate].
Qed.

Lemma painted_back_page settings cards print_cpp print_font_size dev pages
    L k back :
  render_document settings cards print_cpp print_font_size dev = Painted pages ->
  page_layout settings print_cpp print_font_size dev = Ok L ->
  nth_error pages (2 * k + 1) = Some back ->
  2 <= cpp L /\ Z.of_nat k * cpp L < len cards
  /\ back = back_side L cards (Z.of_nat k * cpp L)
  /\ nth_error pages (2 * k) = Some (front_side L cards (Z.of_nat k * cpp L)).
Proof.
  intros H EL Hb.
  destruct (render_document_painted _ _ _ _ _ _ H) as [L' [EL' Hp]].
  rewrite EL in EL'. injection EL' as <-.
  destruct (page_layout_ok _ _ _ _ _ EL) as [Hc _].
  destruct Hp as [[-> ->]|[Hne [H2 ->]]].
  - replace (2 * k + 1)%nat with (S (2 * k)) in Hb by lia.
    cbn [nth_error] in Hb. now destruct (2 * k)%nat.
  - unfold sheets in *. rewrite sheets_nth_back in Hb.
    rewrite sheets_nth_front.
    destruct (Nat.ltb_spec k (Z.to_nat (sheet_count (len cards) (cpp L))));
      [|discriminate].
    injection Hb as <-. simpl. repeat split; try lia.
    apply sheet_index_lt; lia.
Qed.

Lemma painted_front_page settings cards print_cpp print_font_size dev pages
    L k front :
  render_document settings cards print_cpp print_font_size dev = Painted pages ->
  page_layout settings print_cpp print_font_size dev = Ok L ->
  cards <> [] ->
  nth_error pages (2 * k) = Some front ->
  2 <= cpp L /\ Z.of_nat k * cpp L < len cards
  /\ front = front_side L cards (Z.of_nat k * cpp L).
Proof.
  intros H EL Hne Hf.
  destruct (render_document_painted _ _ _ _ _ _ H) as [L' [EL' Hp]].
  rewrite EL in EL'. injection EL' as <-.
  destruct (page_layout_ok _ _ _ _ _ EL) as [Hc _].
  destruct Hp as [[-> ->]|[_ [H2 ->]]]; [contradiction|].
  unfold sheets in *. rewrite sheets_nth_front in Hf.
  destruct (Nat.ltb_spec k (Z.to_nat (sheet_count (len cards) (cpp L))));
    [|discriminate].
  injection Hf as <-. simpl. repeat split; try lia.
  apply sheet_index_lt; lia.
Qed.

Lemma paint_back_cell L i rc :
  cell_at (paint_back L i rc) = (i / 2, 1 - i mod 2).
Proof. now destruct rc as [[? ?] ?]. Qed.

Lemma paint_front_cell L i rc :
  cell_at (paint_front L i rc) = (i / 2, i mod 2).
Proof. now destruct rc as [[? ?] ?]. Qed.

Lemma side_loop_cell paint cards index n i cl :
  0 <= index ->
  nth_error (side_loop paint cards index (py_range n)) i = Some cl ->
  Z.of_nat i < n
  /\ exists rc, nth_error cards (Z.to_nat index + i) = Some rc
                /\ cl = paint (Z.of_nat i) rc.
Proof.
  intros Hi. rewrite side_loop_nth by assumption.
  destruct (Z.ltb_spec (Z.of_nat i) n); [|discriminate].
  destruct (nth_error cards (Z.to_nat index + i)) as [rc|]; [|discriminate].
  intros [= <-]. eauto.
Qed.

(** C4. In a completed rendering, the cell painted at chunk position i of
    a back page is in column 1 - (i mod 2) and row i / 2; the front page
    of the same sheet has a cell at position i, for the same card, in the
    same row and in column i mod 2. *)
Theorem back_page_mirrors_front
    (settings : gmap string pyval) (cards : list render_card)
    (print_cpp print_font_size : Z) (dev : device) (pages : list page)
    (k i : nat) (back : page) (bc : cell) :
  render_document settings cards print_cpp print_font_size dev = Painted pages ->
  nth_error pages (2 * k + 1) = Some back ->
  nth_error back i = Some bc ->
  cell_col bc = 1 - Z.of_nat i mod 2
  /\ cell_row bc = Z.of_nat i / 2
  /\ exists front fc,
       nth_error pages (2 * k) = Some front
       /\ nth_error front i = Some fc
       /\ cell_row fc = cell_row bc
       /\ cell_col fc = Z.of_nat i mod 2
       /\ exists L rc,
            page_layout settings print_cpp print_font_size dev = Ok L
            /\ nth_error cards (k * Z.to_nat print_cpp + i) = Some rc
            /\ fc = paint_front L (Z.of_nat i) rc
            /\ bc = paint_back L (Z.of_nat i) rc.
Proof.
  intros H Hb Hbc.
  destruct (render_document_painted _ _ _ _ _ _ H) as [L [EL _]].
  destruct (page_layout_ok _ _ _ _ _ EL) as [Hc _].
  destruct (painted_back_page _ _ _ _ _ _ _ _ _ H EL Hb)
    as [H2 [Hk [-> Hf]]].
  unfold back_side in Hbc.
  apply side_loop_cell in Hbc as [Hi [rc [Hrc ->]]]; [|lia].
  pose proof (paint_back_cell L (Z.of_nat i) rc) as Eb.
  pose proof (paint_front_cell L (Z.of_nat i) rc) as Ef.
  unfold cell_at in Eb, Ef. injection Eb as Eb1 Eb2. injection Ef as Ef1 Ef2.
  split; [exact Eb2|]. split; [exact Eb1|].
  exists (front_side L cards (Z.of_nat k * cpp L)), (paint_front L (Z.of_nat i) rc).
  split; [exact Hf|].
  split.
  { unfold front_side. rewrite side_loop_nth by lia.
    rewrite (proj2 (Z.ltb_lt _ _) Hi), Hrc. reflexivity. }
  split; [congruence|]. split; [exact Ef2|].
  exists L, rc. split; [exact EL|]. split; [|split; reflexivity].
  rewrite <- Hrc. f_equal. rewrite <- Hc. rewrite Z2Nat.inj_mul by lia.
  now rewrite Nat2Z.id.
Qed.

(** C7. In a completed rendering, when the chunk of a sheet holds M < N
    cards, its front page and its back page consist of exactly M painted
    cells, those of positions 0..M-1 in order, and nothing on either page
    is painted in the grid cell of any position from M on. *)
Theorem short_sheet_leaves_cells_blank
    (settings : gmap string pyval) (cards : list render_card)
    (print_cpp print_font_size : Z) (dev : device) (pages : list page)
    (k : nat) (front back : page) :
  render_document settings cards print_cpp print_font_size dev = Painted pages ->
  nth_error pages (2 * k) = Some front ->
  nth_error pages (2 * k + 1) = Some back ->
  len cards - Z.of_nat k * print_cpp < print_cpp ->
  exists L,
    page_layout settings print_cpp print_font_size dev = Ok L
    /\ len front = len cards - Z.of_nat k * print_cpp
    /\ len back = len cards - Z.of_nat k * print_cpp
    /\ (forall i : nat,
          Z.of_nat i < len cards - Z.of_nat k * print_cpp ->
          exists rc,
            nth_error cards (k * Z.to_nat print_cpp + i) = Some rc
            /\ nth_error front i = Some (paint_front L (Z.of_nat i) rc)
            /\ nth_error back i = Some (paint_back L (Z.of_nat i) rc))
    /\ (forall (j : Z) (cl : cell),
          len cards - Z.of_nat k * print_cpp <= j ->
          (In cl front -> cell_at cl <> (j / 2, j mod 2))
          /\ (In cl back -> cell_at cl <> (j / 2, 1 - j mod 2))).
Proof.
  intros H Hf Hb Hshort.
  destruct (render_document_painted _ _ _ _ _ _ H) as [L [EL _]].
  destruct (page_layout_ok _ _ _ _ _ EL) as [Hc _].
  destruct (painted_back_page _ _ _ _ _ _ _ _ _ H EL Hb)
    as [H2 [Hk [-> Hf']]].
  rewrite Hf in Hf'. injection Hf' as ->. subst print_cpp.
  set (index := Z.of_nat k * cpp L) in *.
  assert (Z.to_nat index = (k * Z.to_nat (cpp L))%nat) as Eidx.
  { unfold index. rewrite Z2Nat.inj_mul by lia. now rewrite Nat2Z.id. }
  assert (0 <= index) as Hidx by (unfold index; lia).
  exists L. split; [exact EL|].
  unfold front_side, back_side.
  split; [rewrite side_loop_length by assumption; lia|].
  split; [rewrite side_loop_length by assumption; lia|].
  split.
  - intros i Hi. rewrite <- Eidx.
    destruct (nth_error cards (Z.to_nat index + i)) as [rc|] eqn:E.
    + exists rc. split; [reflexivity|].
      rewrite !side_loop_nth by assumption.
      rewrite (proj2 (Z.ltb_lt (Z.of_nat i) (cpp L))) by lia.
      rewrite E. split; reflexivity.
    + apply nth_error_None in E. unfold len in *. lia.
  - intros j cl Hj.
    assert (forall paint i rc,
              nth_error (side_loop paint cards index (py_range (cpp L))) i
              = Some (paint (Z.of_nat i) rc) -> Z.of_nat i < j) as Hpos.
    { intros paint i rc Hn. apply side_loop_cell in Hn as [_ [rc' [Hn _]]];
        [|assumption].
      assert (Z.to_nat index + i < length cards)%nat
        by (apply nth_error_Some; congruence).
      unfold len in *. lia. }
    split; intros Hin; apply In_nth_error in Hin as [i Hi];
      pose proof Hi as Hi';
      apply side_loop_cell in Hi' as [_ [rc [_ ->]]]; try assumption;
      apply Hpos in Hi;
      [rewrite paint_front_cell | rewrite paint_back_cell];
      intros [= E1 E2];
      pose proof (Z.div_mod (Z.of_nat i) 2);
      pose proof (Z.div_mod j 2); lia.
Qed.

Lemma back_page_mirrors_front_witness :
  nth_error sample_back 1 = Some sample_back_cell
  /\ cell_col sample_back_cell = 1 - Z.of_nat 1 mod 2
  /\ cell_row sample_back_cell = Z.of_nat 1 / 2.
Proof.
  assert (nth_error sample_back 1 = Some sample_back_cell) as Hc
    by (vm_compute; reflexivity).
  split; [exact Hc|].
  destruct (back_page_mirrors_front sample_settings sample_cards 6 60
              sample_device sample_pages 0 1 sample_back sample_back_cell)
    as [H1 [H2 _]].
  - vm_compute. reflexivity.
  - vm_compute. reflexivity.
  - exact Hc.
  - split; assumption.
Defined.

Lemma short_sheet_leaves_cells_blank_witness :
  len sample_front = 4 /\ len sample_back = 4
  /\ forall cl, In cl sample_front -> cell_at cl <> (2, 0).
Proof.
  destruct (short_sheet_leaves_cells_blank sample_settings sample_cards 6 60
              sample_device sample_pages 0 sample_front sample_back)
    as [L [_ [Hf [Hb [_ Hblank]]]]].
  - vm_compute. reflexivity.
  - vm_compute. reflexivity.
  - vm_compute. reflexivity.
  - vm_compute. reflexivity.
  - split; [exact Hf|]. split; [exact Hb|].
    intros cl Hin. apply (proj1 (Hblank 4 cl ltac:(vm_compute; discriminate))).
    exact Hin.
Defined.

Example sample_pages_shape :
  map (map cell_at) sample_pages
  = [ [(0, 0); (0, 1); (1, 0); (1, 1)];
      [(0, 1); (0, 0); (1, 1); (1, 0)] ].
Proof. vm_compute. reflexivity. Qed.

(** Page count for two or more cards per sheet: M cards at N per sheet
    give 2 * ceil(M / N) pages, a front and a back for every sheet. *)
Lemma render_document_page_pairs settings cards print_cpp print_font_size
    dev w :
  begin_ok dev = true ->
  py_int (settings_get settings "pen_width" (PyInt 2)) = Ok w ->
  2 <= print_cpp -> cards <> [] ->
  exists pages,
    render_document settings cards print_cpp print_font_size dev
    = Painted pages
    /\ len pages = 2 * sheet_count (len cards) print_cpp
    /\ (sheet_count (len cards) print_cpp - 1) * print_cpp < len cards
       <= sheet_count (len cards) print_cpp * print_cpp.
Proof.
  intros Hb Hw H2 Hne.
  assert (print_cpp / 2 <> 0) as Hrows.
  { assert (1 <= print_cpp / 2); [|lia]. apply Z.div_le_lower_bound; lia. }
  destruct (page_layout settings print_cpp print_font_size dev) as [L|e]
    eqn:EL.
  2:{ unfold page_layout in EL. rewrite Hw in EL.
      destruct (Z.eqb_spec (print_cpp / 2) 0); [contradiction | discriminate]. }
  destruct (page_layout_ok _ _ _ _ _ EL) as [Hc _].
  exists (sheets L cards).
  split; [apply render_document_sheets; auto; lia|].
  rewrite sheets_length, Hc.
  assert (0 < len cards) as Hlen
    by (destruct cards; [contradiction | unfold len; simpl; lia]).
  pose proof (proj1 (sheet_index_lt (len cards) print_cpp
                       (sheet_count (len cards) print_cpp - 1)
                       ltac:(lia)) ltac:(lia)) as Hlo.
  pose proof (sheet_index_lt (len cards) print_cpp
                (sheet_count (len cards) print_cpp) ltac:(lia)) as Hhi.
  assert (0 < sheet_count (len cards) print_cpp)
    by (apply sheet_index_lt; lia).
  split; [lia|]. split; [exact Hlo|].
  destruct (Z.le_gt_cases (len cards)
              (sheet_count (len cards) print_cpp * print_cpp));
    [assumption|].
  apply Hhi in H0. lia.
Qed.

(** C2, at one card per sheet. The setting is accepted by
    [print_selected], and [render_document] divides the page height by
    rows = 1 // 2 = 0: it raises before any page is painted, for every
    list of cards. *)
Theorem one_card_per_sheet_divides_by_zero
    (cards : list render_card) (print_font_size : Z) (dev : device) :
  parse_setting one_per_sheet "cards_per_page" 6 1 12 = Some 1
  /\ (begin_ok dev = true ->
      render_document one_per_sheet cards 1 print_font_size dev
      = Raised ZeroDivisionError)
  /\ painted (print_selected one_per_sheet quiet_preview
                "2026-01-05 10:00:00" catalog_sample)
     = Some (Raised ZeroDivisionError).
Proof.
  split; [vm_compute; reflexivity|]. split.
  - intros Hb. unfold render_document. rewrite Hb. reflexivity.
  - vm_compute. reflexivity.
Qed.

Lemma one_card_per_sheet_divides_by_zero_witness :
  render_document one_per_sheet sample_cards 1 60 sample_device
  = Raised ZeroDivisionError.
Proof.
  apply (one_card_per_sheet_divides_by_zero sample_cards 60 sample_device).
  reflexivity.
Defined.

(** ** Search *)

Lemma like_char_eq c d :
  like_char c d = true <-> sqlite_tolower c = sqlite_tolower d.
Proof. unfold like_char. apply Ascii.eqb_eq. Qed.

Lemma sql_like_percent p s :
  sql_like (String "%" p) s
  = sql_like p s
    || match s with
       | EmptyString => false
       | String _ s' => sql_like (String "%" p) s'
       end.
Proof. now destruct s. Qed.

Lemma sql_like_literal c p s :
  is_wildcard c = false ->
  sql_like (String c p) s
  = match s with
    | EmptyString => false
    | String d s' => like_char c d && sql_like p s'
    end.
Proof.
  unfold is_wildcard. intros H. apply orb_false_elim in H as [H1 H2].
  simpl. rewrite H1, H2. reflexivity.
Qed.

Lemma sql_like_percent_only s : sql_like "%" s = true.
Proof.
  induction s as [|c s IH]; [reflexivity|].
  rewrite sql_like_percent, IH. apply orb_true_r.
Qed.

Lemma append_empty (s : string) : "" +:+ s = s.
Proof. reflexivity. Qed.

Lemma append_string (c : ascii) (s u : string) :
  String c s +:+ u = String c (s +:+ u).
Proof. reflexivity. Qed.

Lemma sql_like_prefix t : forall s,
  wildcard_free t = true -> sql_like (t +:+ "%") s = prefix_nocase t s.
Proof.
  induction t as [|c t IH]; intros s Hw.
  - rewrite append_empty, sql_like_percent_only. now destruct s.
  - simpl in Hw. apply andb_prop in Hw as [Hc Hw].
    apply negb_true_iff in Hc.
    rewrite append_string, sql_like_literal by assumption.
    destruct s as [|d s]; [reflexivity|]. simpl. now rewrite IH.
Qed.

Lemma sql_like_infix t s :
  wildcard_free t = true ->
  sql_like ("%" +:+ t +:+ "%") s = infix_nocase t s.
Proof.
  intros Hw. rewrite append_string, append_empty.
  induction s as [|d s IH]; rewrite sql_like_percent, sql_like_prefix
    by assumption.
  - now destruct t.
  - rewrite IH. now destruct t.
Qed.

Lemma prefix_nocase_spec t : forall s,
  prefix_nocase t s = true <->
  exists m post, s = m +:+ post /\ fold_case m = fold_case t.
Proof.
  induction t as [|c t IH]; intros s.
  - split; [|reflexivity]. intros _. now exists "", s.
  - destruct s as [|d s]; simpl.
    + split; [discriminate|]. intros [m [post [E F]]].
      destruct m; [discriminate F | discriminate E].
    + rewrite andb_true_iff, like_char_eq, IH. split.
      * intros [Hc [m [post [-> F]]]]. exists (String d m), post.
        split; [reflexivity|]. simpl. now rewrite F, Hc.
      * intros [m [post [E F]]]. destruct m as [|d' m]; [discriminate F|].
        rewrite append_string in E. simpl in F.
        injection E as <- ->. injection F as F1 F2.
        split; [now symmetry|]. now exists m, post.
Qed.

Lemma infix_nocase_spec t s : infix_nocase t s = true <-> contains_nocase t s.
Proof.
  unfold contains_nocase. induction s as [|d s IH]; simpl.
  - rewrite orb_false_r, prefix_nocase_spec. split.
    + intros [m [post [E F]]]. now exists "", m, post.
    + intros [pre [m [post [E F]]]].
      destruct pre; [|discriminate E]. now exists m, post.
  - rewrite orb_true_iff, prefix_nocase_spec, IH. split.
    + intros [[m [post [E F]]]|[pre [m [post [E F]]]]].
      * now exists "", m, post.
      * exists (String d pre), m, post. rewrite append_string. now rewrite E.
    + intros [pre [m [post [E F]]]]. destruct pre as [|d' pre].
      * left. now exists m, post.
      * right. rewrite append_string in E. injection E as <- ->.
        now exists pre, m, post.
Qed.

Lemma contains_nocase_of_contains t s : contains t s -> contains_nocase t s.
Proof. intros [pre [post E]]. now exists pre, t, post. Qed.

(** A filter text without [%] and [_] selects the cards that contain it,
    up to ASCII case, in one of the three fields. *)
Lemma like_any_field_contains t c :
  wildcard_free t = true ->
  like_any_field ("%" +:+ t +:+ "%") c = true <-> field_contains true t c.
Proof.
  intros Hw. unfold like_any_field, field_contains.
  rewrite !orb_true_iff, !sql_like_infix, !infix_nocase_spec by assumption.
  tauto.
Qed.

Lemma order_by_In le rows c : In c (order_by le rows) <-> In c rows.
Proof.
  split; apply Permutation_in; [|symmetry]; apply order_by_perm.
Qed.

(** The view [load_data] fetches: sorted by lesson then id; a stable
    rearrangement of the rows kept; and, for the trimmed filter text [t]
    without wildcard characters, the cards containing [t] up to ASCII
    case when [t] is not empty, else the selected cards when
    [filter_selected] is set, else all cards. *)
Lemma load_data_view search_text filter_selected db :
  StronglySorted catalog_le (load_data search_text filter_selected db)
  /\ (exists keep,
        Permutation (load_data search_text filter_selected db)
          (sql_select keep db))
  /\ (wildcard_free (strip search_text) = true ->
      view_of true (strip search_text) filter_selected db
        (load_data search_text filter_selected db)).
Proof.
  unfold load_data, view_of.
  destruct (nonempty (strip search_text)) eqn:Ht;
    [|destruct filter_selected]; (split; [apply catalog_sorted|]);
    (split; [eexists; apply order_by_perm|]); intros Hw c;
    rewrite order_by_In; unfold sql_select; rewrite filter_In.
  - now rewrite like_any_field_contains.
  - unfold is_selected. now rewrite Z.eqb_eq.
  - tauto.
Qed.

(** C6, at a filter text with a wildcard character. The text [_] is not
    empty and occurs in no field of the card, under either case policy,
    yet the card is fetched: in the LIKE pattern [%_%] the underscore
    stands for any one character. *)
Theorem underscore_filter_fetches_any_card :
  load_data "_" false [hola] = [hola]
  /\ ~ field_contains true "_" hola
  /\ ~ field_contains false "_" hola
  /\ ~ view_of true "_" false [hola] (load_data "_" false [hola])
  /\ ~ view_of false "_" false [hola] (load_data "_" false [hola]).
Proof.
  assert (~ field_contains true "_" hola) as Hn.
  { unfold field_contains. rewrite <- !infix_nocase_spec. vm_compute.
    intros [H|[H|H]]; discriminate. }
  assert (~ field_contains false "_" hola) as Hs.
  { intros H. apply Hn. unfold field_contains in *.
    destruct H as [H|[H|H]]; apply contains_nocase_of_contains in H; tauto. }
  split; [reflexivity|]. split; [exact Hn|]. split; [exact Hs|].
  split; intros H; [apply Hn | apply Hs];
    apply (proj1 (H hola)); now left.
Qed.

(** ** Settings on the print path *)

Lemma parse_setting_in_range settings key dflt lo hi n :
  parse_setting settings key dflt lo hi = Some n -> lo <= n <= hi.
Proof.
  unfold parse_setting. destruct (py_int _) as [m|]; [|discriminate].
  destruct (Z.ltb_spec m lo), (Z.gtb_spec m hi); simpl; try discriminate.
  intros [= <-]. lia.
Qed.

Lemma parse_setting_rejects settings key dflt lo hi n :
  py_int (settings_get settings key (PyInt dflt)) = Ok n ->
  n < lo \/ hi < n ->
  parse_setting settings key dflt lo hi = None.
Proof.
  unfold parse_setting. intros -> H.
  destruct (Z.ltb_spec n lo), (Z.gtb_spec n hi); simpl; try reflexivity. lia.
Qed.

Lemma checked_setting_rejects settings key dflt lo hi n :
  py_int (settings_get settings key (PyInt dflt)) = Ok n ->
  n < lo \/ hi < n ->
  checked_setting settings key dflt lo hi = Raise ValueError.
Proof.
  unfold checked_setting. intros -> H.
  destruct (Z.ltb_spec n lo), (Z.gtb_spec n hi); simpl; try reflexivity. lia.
Qed.

(** A cards-per-page value outside 1..12, or one in which [int] finds no
    integer, stops the print with a warning: nothing is painted, nothing
    written. *)
Lemma print_rejects_cards_per_page settings pv now db :
  cards_to_print db <> [] ->
  checked_setting settings "cards_per_page" 6 1 12 = Raise ValueError ->
  print_selected settings pv now db
  = PrintRun (InvalidSetting "Cards per page must be between 1 and 12.")
      None db.
Proof.
  intros Hne Hp. unfold print_selected.
  destruct (cards_to_print db); [contradiction|]. now rewrite Hp.
Qed.

(** So does a font size outside 6..120. *)
Lemma print_rejects_font_size settings pv now db n :
  cards_to_print db <> [] ->
  checked_setting settings "cards_per_page" 6 1 12 = Ok n ->
  checked_setting settings "font_size" 12 6 120 = Raise ValueError ->
  print_selected settings pv now db
  = PrintRun (InvalidSetting "Font size must be between 6 and 120.") None db.
Proof.
  intros Hne Hc Hp. unfold print_selected.
  destruct (cards_to_print db); [contradiction|]. now rewrite Hc, Hp.
Qed.

Lemma page_layout_total settings print_cpp print_font_size dev w :
  py_int (settings_get settings "pen_width" (PyInt 2)) = Ok w ->
  2 <= print_cpp ->
  exists L,
    page_layout settings print_cpp print_font_size dev = Ok L
    /\ pen_width L = w.
Proof.
  intros Hw H2. unfold page_layout. rewrite Hw.
  assert (1 <= print_cpp / 2) by (apply Z.div_le_lower_bound; lia).
  destruct (Z.eqb_spec (print_cpp / 2) 0); [lia|]. eauto.
Qed.

(** C8, for the pen width. Whatever integer the settings hold under
    [pen_width], in 1..10 or not, the document is painted and the card
    borders are drawn with that width: the first cell of the first
    page is the first card's, painted by [paint_front] with the pen
    width as read. *)
Theorem pen_width_reaches_painter_unchecked
    (settings : gmap string pyval) (rc : render_card)
    (cards : list render_card) (print_cpp print_font_size w : Z)
    (dev : device) :
  begin_ok dev = true ->
  py_int (settings_get settings "pen_width" (PyInt 2)) = Ok w ->
  2 <= print_cpp ->
  exists L front pages,
    render_document settings (rc :: cards) print_cpp print_font_size dev
    = Painted (front :: pages)
    /\ pen_width L = w
    /\ nth_error front 0 = Some (paint_front L 0 rc).
Proof.
  intros Hb Hw H2.
  destruct (page_layout_total settings print_cpp print_font_size dev w Hw H2)
    as [L [EL Hpen]].
  destruct (page_layout_ok _ _ _ _ _ EL) as [Hc _].
  rewrite (render_document_sheets _ _ _ _ _ L Hb EL) by (lia || discriminate).
  pose proof (sheets_nth_front L (rc :: cards)
                (Z.to_nat (sheet_count (len (rc :: cards)) (cpp L))) 0 0) as Hf.
  fold (sheets L (rc :: cards)) in Hf.
  assert (0 < sheet_count (len (rc :: cards)) (cpp L)) as Hpos.
  { apply sheet_index_lt; [lia|]. unfold len. simpl length. lia. }
  destruct (Nat.ltb_spec 0 (Z.to_nat (sheet_count (len (rc :: cards)) (cpp L))));
    [|lia].
  destruct (sheets L (rc :: cards)) as [|front pages]; [discriminate Hf|].
  injection Hf as ->. exists L. eexists. exists pages.
  split; [reflexivity|]. split; [exact Hpen|].
  unfold front_side. rewrite side_loop_nth by lia.
  destruct (Z.ltb_spec (Z.of_nat 0) (cpp L)); [reflexivity | lia].
Qed.

Lemma pen_width_reaches_painter_unchecked_witness :
  exists L front pages,
    render_document wide_pen (("L1", "Hola", "Hello") :: []) 6 60
      sample_device
    = Painted (front :: pages)
    /\ pen_width L = 50
    /\ nth_error front 0 = Some (paint_front L 0 ("L1", "Hola", "Hello")).
Proof.
  apply (pen_width_reaches_painter_unchecked wide_pen ("L1", "Hola", "Hello")
           [] 6 60 50 sample_device).
  - reflexivity.
  - vm_compute. reflexivity.
  - lia.
Defined.

Example wide_pen_prints :
  outcome (print_selected wide_pen quiet_preview "2026-01-05 10:00:00"
             [hola]) = Printed
  /\ exists x y w h ops cells back,
       painted (print_selected wide_pen quiet_preview "2026-01-05 10:00:00"
                  [hola])
       = Some (Painted
                 [ Cell 0 0 (DrawRect x y w h (PyStr "#000000") 50 :: ops)
                     :: cells;
                   back ]).
Proof. split; [vm_compute; reflexivity|]. vm_compute. repeat eexists. Qed.

(** ** Debounced search *)

Lemma text_changed_pending t u log e :
  filter_timer u = Some (t + 300) -> fst e < t + 300 ->
  text_changed (u, log) e
  = (Ui (snd e) (filter_selected u) (Some (fst e + 300)), log).
Proof.
  intros Ht He. unfold text_changed, advance. cbn [fst snd]. rewrite Ht.
  destruct (Z.leb_spec (t + 300) (fst e)); [lia|]. reflexivity.
Qed.

(** While the changes keep coming the timer is restarted each time and
    nothing is committed. *)
Lemma typing_rapid changes : forall t text sel log,
  rapid t changes ->
  typing changes (Ui text sel (Some (t + 300)), log)
  = (Ui (snd (final_change (t, text) changes)) sel
       (Some (fst (final_change (t, text) changes) + 300)), log).
Proof.
  unfold typing.
  induction changes as [|e changes IH]; intros t text sel log Hr;
    [reflexivity|].
  destruct Hr as [He Hr]. cbn [fold_left].
  rewrite (text_changed_pending t) by (cbn; (reflexivity || lia)).
  cbn [filter_selected].
  rewrite (IH (fst e) (snd e) sel log Hr). cbn [final_change].
  now destruct e.
Qed.

(** C9. A burst of filter-text changes, each less than 300 after the one
    before, starting with no timer pending: nothing is committed while
    the burst lasts; the timer is left due 300 after the last change;
    nothing is committed before that time; and once it is reached there
    is exactly one commit, made at that time with the last text, after
    which the timer is idle and no further commit follows. *)
Theorem debounce_commits_once
    (u0 : ui) (e : Z * string) (changes : list (Z * string)) (T : Z) :
  filter_timer u0 = None ->
  rapid (fst e) changes ->
  snd (typing (e :: changes) (u0, [])) = []
  /\ filter_timer (fst (typing (e :: changes) (u0, [])))
     = Some (fst (final_change e changes) + 300)
  /\ (T < fst (final_change e changes) + 300 ->
      snd (advance T (typing (e :: changes) (u0, []))) = [])
  /\ (fst (final_change e changes) + 300 <= T ->
      snd (advance T (typing (e :: changes) (u0, [])))
      = [ Commit (fst (final_change e changes) + 300)
            (snd (final_change e changes))
            (if nonempty (snd (final_change e changes)) then false
             else filter_selected u0) ]
      /\ filter_timer (fst (advance T (typing (e :: changes) (u0, []))))
         = None
      /\ forall T',
           advance T' (advance T (typing (e :: changes) (u0, [])))
           = advance T (typing (e :: changes) (u0, []))).
Proof.
  intros H0 Hr.
  assert (typing (e :: changes) (u0, [])
          = (Ui (snd (final_change e changes)) (filter_selected u0)
               (Some (fst (final_change e changes) + 300)), [])) as E.
  { pose proof (typing_rapid changes (fst e) (snd e) (filter_selected u0) []
                  Hr) as Hb.
    unfold typing in *. cbn [fold_left].
    unfold text_changed at 2, advance. cbn [fst snd]. rewrite H0.
    unfold debounced_filter, timer_start, timer_stop.
    cbn [search_text filter_selected filter_timer].
    rewrite Hb. now destruct e. }
  rewrite E. cbn [fst snd filter_timer].
  split; [reflexivity|]. split; [reflexivity|].
  unfold advance. cbn [fst snd filter_timer]. split.
  - intros HT.
    destruct (Z.leb_spec (fst (final_change e changes) + 300) T); [lia|].
    reflexivity.
  - intros HT.
    destruct (Z.leb_spec (fst (final_change e changes) + 300) T); [|lia].
    unfold on_search_changed, timer_stop. cbn.
    destruct (nonempty (snd (final_change e changes))); cbn; auto.
Qed.

Lemma debounce_commits_once_witness :
  snd (advance 699 (typing ((0, "h") :: keystrokes) (idle_ui, [])))
  = [Commit 699 "hol" false].
Proof.
  destruct (debounce_commits_once idle_ui (0, "h") keystrokes 699)
    as [_ [_ [_ H]]].
  - reflexivity.
  - vm_compute. repeat split; discriminate.
  - apply H. vm_compute. discriminate.
Defined.

Example debounce_not_before :
  snd (advance 698 (typing ((0, "h") :: keystrokes) (idle_ui, []))) = [].
Proof. reflexivity. Qed.

(** * Further properties *)

(** ** The table over a session *)

Lemma next_rowid_above db :
  Forall (fun c => card_id c < next_rowid db) db.
Proof.
  unfold next_rowid. rewrite <- (List.Forall_map card_id (fun i => i < _)).
  destruct (map card_id db) as [|i ids]; [constructor|].
  assert (forall j, In j (i :: ids) -> j <= fold_right Z.max i ids) as H.
  { induction ids as [|k ids IH]; intros j Hj.
    - destruct Hj as [<-|[]]. simpl. lia.
    - cbn [fold_right].
      destruct Hj as [<-|[<-|Hj]]; [| lia |].
      + specialize (IH i (or_introl eq_refl)). lia.
      + specialize (IH j (or_intror Hj)). lia. }
  apply List.Forall_forall. intros j Hj. specialize (H j Hj). lia.
Qed.

Lemma next_rowid_positive db :
  Forall (fun c => 1 <= card_id c) db -> 1 <= next_rowid db.
Proof.
  intros H. destruct db as [|c db]; [reflexivity|].
  pose proof (next_rowid_above (c :: db)) as Ha.
  inversion H; subst. inversion Ha; subst. lia.
Qed.

Lemma store_wf_snoc db c :
  store_wf db -> Forall (fun x => card_id x < card_id c) db ->
  store_wf (db ++ [c]).
Proof.
  unfold store_wf. induction db as [|x db IH]; simpl; intros Hs Hc.
  - repeat constructor.
  - inversion Hs as [|? ? Hs' Hx]; subst. inversion Hc; subst.
    constructor; [now apply IH|].
    rewrite map_app. apply Forall_app. split; [exact Hx|].
    simpl. now repeat constructor.
Qed.

Lemma sql_insert_ok lesson front back db :
  store_ok db -> store_ok (sql_insert lesson front back db).
Proof.
  intros [Hwf Hok]. unfold sql_insert. split.
  - apply store_wf_snoc; [exact Hwf|]. apply next_rowid_above.
  - apply Forall_app. split; [exact Hok|]. constructor; [|constructor].
    unfold card_ok. simpl. repeat split; try lia.
    apply next_rowid_positive.
    eapply List.Forall_impl; [|exact Hok]. now intros c [H _].
Qed.

Lemma sql_update_ok where_ set db :
  (forall c, card_id (set c) = card_id c) ->
  (forall c, card_ok c -> card_ok (set c)) ->
  store_ok db -> store_ok (sql_update where_ set db).
Proof.
  intros Hid Hset [Hwf Hok]. unfold sql_update. split.
  - unfold store_wf in *. rewrite map_map.
    erewrite map_ext; [exact Hwf|].
    intros c. simpl. destruct (where_ c); [apply Hid | reflexivity].
  - apply List.Forall_map. eapply List.Forall_impl; [|exact Hok].
    intros c Hc. destruct (where_ c); auto.
Qed.

Lemma sql_delete_ok where_ db : store_ok db -> store_ok (sql_delete where_ db).
Proof.
  intros [Hwf Hok]. split.
  - apply (store_wf_select (fun c => negb (where_ c)) db Hwf).
  - unfold sql_delete. apply List.Forall_forall. intros c Hc.
    apply filter_In in Hc as [Hc _].
    now apply (proj1 (List.Forall_forall _ _) Hok).
Qed.

Lemma insert_all_ok rows : forall db,
  store_ok db -> store_ok (insert_all rows db).
Proof.
  unfold insert_all.
  induction rows as [|t rows IH]; intros db H; simpl; [exact H|].
  apply IH. now apply sql_insert_ok.
Qed.

Lemma select_all_ok table_ids db :
  store_ok db -> store_ok (select_all table_ids db).
Proof.
  unfold select_all.
  generalize (List.filter (fun i => negb (i =? 0)) table_ids) as ids.
  intros ids H.
  assert (store_ok
            (fold_left (fun db i => sql_update (has_id i) (set_selected 1) db)
               ids db)) as Hf.
  { revert db H. induction ids as [|i ids IH]; intros db H; simpl;
      [exact H|].
    apply IH. apply sql_update_ok; auto.
    intros c (H1 & H2 & H3 & H4). unfold card_ok. simpl. auto. }
  destruct ids; [exact H | exact Hf].
Qed.

Lemma update_print_stats_ok now db :
  store_ok db -> store_ok (update_print_stats now db).
Proof.
  apply sql_update_ok; [reflexivity|].
  intros c (H1 & H2 & H3 & H4). unfold card_ok. simpl.
  repeat split; auto; lia.
Qed.

Lemma print_selected_db settings pv now db :
  db_after (print_selected settings pv now db) = db
  \/ (accepted pv = true
      /\ db_after (print_selected settings pv now db)
         = update_print_stats now (meanwhile pv db))
  \/ (accepted pv = false
      /\ db_after (print_selected settings pv now db) = meanwhile pv db).
Proof.
  unfold print_selected.
  destruct (cards_to_print db); [now left|].
  setting_cases settings "cards_per_page" 6 1 12; [|now left..].
  setting_cases settings "font_size" 12 6 120; [|now left..].
  destruct (accepted pv); simpl; auto.
Qed.

(** X1. Whatever the user does in the main window, starting from a new
    database, the table keeps its shape: ids are distinct, positive and
    ascending in storage order, every card has copies >= 1, a selected
    flag that is 0 or 1, and a printed count that is not negative. *)
Theorem session_keeps_table_sound (actions : list action) :
  store_ok (session actions).
Proof.
  unfold session.
  assert (store_ok []) as H0 by (split; constructor).
  revert H0. generalize (@nil card) as db.
  induction actions as [|a actions IH]; intros db H; simpl; [exact H|].
  apply IH. clear IH. destruct a; simpl.
  - unfold add_flashcard.
    destruct (negb _ || negb _); simpl; [exact H | now apply sql_insert_ok].
  - unfold import_csv. destruct (rows_to_insert rows); simpl;
      [now apply insert_all_ok | exact H].
  - unfold update_cell. destruct item as [i|]; [|exact H].
    assert (forall v, forall c, card_ok c -> card_ok (set_copies (if v <? 1 then 1 else v) c)) as Hcp.
    { intros v c (H1 & H2 & H3 & H4). unfold card_ok. simpl.
      destruct (Z.ltb_spec v 1); repeat split; auto; lia. }
    destruct (i =? 0); [exact H|].
    destruct (col =? 0).
    { apply sql_update_ok; auto. intros c (H1 & H2 & H3 & H4).
      unfold card_ok. simpl. destruct checked; auto. }
    destruct (col =? 1); [apply sql_update_ok; auto|].
    destruct (col =? 2); [apply sql_update_ok; auto|].
    destruct (col =? 3); [apply sql_update_ok; auto|].
    destruct (col =? 4); [|exact H].
    destruct (int_of_str text) as [n|]; cbv zeta.
    + destruct (sqlite_max_int <? _); [exact H|].
      apply sql_update_ok; auto.
    + apply sql_update_ok; auto. apply (Hcp 1).
  - unfold delete_row. destruct reply_yes; [now apply sql_delete_ok | exact H].
  - unfold delete_selected. destruct (_ =? 0); [exact H|].
    destruct reply_yes; simpl; [now apply sql_delete_ok | exact H].
  - now apply select_all_ok.
  - unfold unselect_all. apply sql_update_ok; auto.
    intros c (H1 & H2 & H3 & H4). unfold card_ok. simpl. auto.
  - unfold select_all_unprinted. apply sql_update_ok; auto.
    + intros c (H1 & H2 & H3 & H4). unfold card_ok. simpl. auto.
    + apply sql_update_ok; auto.
      intros c (H1 & H2 & H3 & H4). unfold card_ok. simpl. auto.
  - match goal with |- store_ok (db_after (print_selected ?s ?pv ?n ?d)) =>
      destruct (print_selected_db s pv n d) as [->|[[_ ->]|[_ ->]]] end;
      simpl; auto using update_print_stats_ok.
Qed.

(** ** Adding, editing and deleting cards *)

Lemma nonempty_false s : nonempty s = false <-> s = "".
Proof. destruct s; simpl; split; congruence. Qed.

Lemma load_data_all db c : In c (load_data "" false db) <-> In c db.
Proof.
  unfold load_data. simpl. rewrite order_by_In. unfold sql_select.
  rewrite filter_In. tauto.
Qed.

(** X2. Add Flashcard trims the three inputs. With a blank front or back
    it refuses and the table is unchanged. Otherwise the card is stored
    under an id no card has, with the trimmed texts (the lesson may be
    empty), unselected, one copy, never printed, and the full view shows
    it next to the cards that were there. *)
Theorem add_flashcard_effect
    (lesson_input front_input back_input : string) (db : store) :
  (strip front_input = "" \/ strip back_input = "" ->
   add_flashcard lesson_input front_input back_input db = (None, db))
  /\ (strip front_input <> "" -> strip back_input <> "" ->
      add_flashcard lesson_input front_input back_input db
      = (Some (next_rowid db),
         db ++ [Card (next_rowid db) (strip lesson_input)
                  (strip front_input) (strip back_input) 0 1 0 None])
      /\ ~ In (next_rowid db) (map card_id db)
      /\ forall c,
           In c (load_data "" false
                   (snd (add_flashcard lesson_input front_input back_input
                           db)))
           <-> In c db
               \/ c = Card (next_rowid db) (strip lesson_input)
                        (strip front_input) (strip back_input) 0 1 0 None).
Proof.
  unfold add_flashcard. split.
  - intros [H|H]; rewrite H; simpl; [reflexivity|].
    now rewrite orb_true_r.
  - intros Hf Hb.
    destruct (nonempty (strip front_input)) eqn:Ef;
      [|now apply nonempty_false in Ef].
    destruct (nonempty (strip back_input)) eqn:Eb;
      [|now apply nonempty_false in Eb].
    simpl. split; [reflexivity|]. split.
    + intros Hin. apply in_map_iff in Hin as [c [Hc Hin]].
      pose proof (proj1 (List.Forall_forall _ _) (next_rowid_above db) c Hin)
        as Hlt.
      simpl in Hlt. lia.
    + intros c. rewrite load_data_all. unfold sql_insert.
      rewrite in_app_iff. simpl. intuition congruence.
Qed.

Lemma add_flashcard_effect_witness :
  add_flashcard " L2 " "Gato " " Cat" [hola; adios]
  = (Some 3, [hola; adios; Card 3 "L2" "Gato" "Cat" 0 1 0 None]).
Proof.
  apply (add_flashcard_effect " L2 " "Gato " " Cat" [hola; adios]);
    vm_compute; discriminate.
Defined.

Lemma Forall2_map_In {A B} (R : A -> B -> Prop) (g : A -> B) (l : list A) :
  (forall x, In x l -> R x (g x)) -> Forall2 R l (map g l).
Proof.
  induction l as [|x l IH]; intros H; simpl; constructor.
  - apply H. now left.
  - apply IH. intros y Hy. apply H. now right.
Qed.

Lemma Forall2_diag {A} (R : A -> A -> Prop) (l : list A) :
  (forall x, R x x) -> Forall2 R l l.
Proof. intros H. induction l; constructor; auto. Qed.

Lemma copies_bound n :
  (sqlite_max_int <? (if n <? 1 then 1 else n)) = (2 ^ 63 <=? n)
  /\ (if n <? 1 then 1 else n) = Z.max 1 n.
Proof.
  unfold sqlite_max_int. change (2 ^ 63) with 9223372036854775808.
  destruct (Z.ltb_spec n 1), (Z.leb_spec 9223372036854775808 n);
    split; try lia;
    first [apply Z.ltb_ge; simpl; lia | apply Z.ltb_lt; simpl; lia].
Qed.

Lemma update_cell_outcome item col checked text db :
  (copies_overflow item col text
   /\ update_cell item col checked text db = (Some OverflowError, db))
  \/ (~ copies_overflow item col text
      /\ fst (update_cell item col checked text db) = None).
Proof.
  unfold update_cell, copies_overflow.
  destruct item as [i|]; [|right; split; [|reflexivity]].
  2:{ intros (_ & [i [[=] _]] & _). }
  destruct (Z.eqb_spec i 0) as [->|Hi]; [right; split; [|reflexivity]|].
  { intros (_ & [i [[= <-] N]] & _). congruence. }
  destruct (Z.eqb_spec col 0) as [->|H0];
    [right; split; [intros [[=] _] | reflexivity]|].
  destruct (Z.eqb_spec col 1) as [->|H1];
    [right; split; [intros [[=] _] | reflexivity]|].
  destruct (Z.eqb_spec col 2) as [->|H2];
    [right; split; [intros [[=] _] | reflexivity]|].
  destruct (Z.eqb_spec col 3) as [->|H3];
    [right; split; [intros [[=] _] | reflexivity]|].
  destruct (Z.eqb_spec col 4) as [->|H4];
    [|right; split; [tauto | reflexivity]].
  destruct (int_of_str text) as [n|]; cbv zeta;
    [|right; split; [intros (_ & _ & m & [=] & _) | reflexivity]].
  destruct (copies_bound n) as [-> _].
  destruct (Z.leb_spec (2 ^ 63) n) as [Hn|Hn].
  - left. split; [|reflexivity]. split; [reflexivity|].
    split; [now exists i | now exists n].
  - right. split; [|reflexivity]. intros (_ & _ & m & [= <-] & Hm). lia.
Qed.

Lemma update_cell_rows item col checked text db :
  Forall2
    (fun c c' =>
       card_id c' = card_id c
       /\ printed_count c' = printed_count c
       /\ last_printed c' = last_printed c
       /\ (item <> Some (card_id c) -> c' = c)
       /\ (1 <= copies c -> 1 <= copies c')
       /\ (col = 4 -> item = Some (card_id c) -> card_id c <> 0 ->
           match int_of_str text with
           | Some n =>
               if 2 ^ 63 <=? n then c' = c else copies c' = Z.max 1 n
           | None => copies c' = 1
           end))
    db (snd (update_cell item col checked text db)).
Proof.
  unfold update_cell.
  destruct item as [i|].
  2:{ apply Forall2_diag. intros c. repeat split; auto; discriminate. }
  destruct (Z.eqb_spec i 0) as [->|Hi].
  { apply Forall2_diag. intros c. repeat split; auto.
    intros _ [= E] Hc. congruence. }
  assert (forall set,
            (forall c, card_id (set c) = card_id c
                       /\ printed_count (set c) = printed_count c
                       /\ last_printed (set c) = last_printed c
                       /\ (1 <= copies c -> 1 <= copies (set c))
                       /\ (col = 4 ->
                           match int_of_str text with
                           | Some n =>
                               if 2 ^ 63 <=? n then set c = c
                               else copies (set c) = Z.max 1 n
                           | None => copies (set c) = 1
                           end)) ->
            Forall2
              (fun c c' =>
                 card_id c' = card_id c
                 /\ printed_count c' = printed_count c
                 /\ last_printed c' = last_printed c
                 /\ (Some i <> Some (card_id c) -> c' = c)
                 /\ (1 <= copies c -> 1 <= copies c')
                 /\ (col = 4 -> Some i = Some (card_id c) -> card_id c <> 0 ->
                     match int_of_str text with
                     | Some n =>
                         if 2 ^ 63 <=? n then c' = c
                         else copies c' = Z.max 1 n
                     | None => copies c' = 1
                     end))
              db (sql_update (has_id i) set db)) as Hupd.
  { intros set Hset. unfold sql_update. apply Forall2_map_In. intros c _.
    unfold has_id. destruct (Z.eqb_spec (card_id c) i) as [E|E].
    - destruct (Hset c) as (H1 & H2 & H3 & H4 & H5).
      split; [exact H1|]. split; [exact H2|]. split; [exact H3|].
      split; [intros N; congruence|]. split; [exact H4|].
      intros Hc _ _. exact (H5 Hc).
    - repeat split; auto. intros _ [= E']. congruence. }
  destruct (Z.eqb_spec col 0) as [->|H0].
  { apply Hupd. intros c. simpl. repeat split; auto. discriminate. }
  destruct (Z.eqb_spec col 1) as [->|H1].
  { apply Hupd. intros c. simpl. repeat split; auto. discriminate. }
  destruct (Z.eqb_spec col 2) as [->|H2].
  { apply Hupd. intros c. simpl. repeat split; auto. discriminate. }
  destruct (Z.eqb_spec col 3) as [->|H3].
  { apply Hupd. intros c. simpl. repeat split; auto. discriminate. }
  destruct (Z.eqb_spec col 4) as [->|H4].
  - destruct (int_of_str text) as [n|] eqn:En; cbv zeta.
    + destruct (copies_bound n) as [-> Hmax].
      destruct (Z.leb_spec (2 ^ 63) n) as [Hn|Hn]; cbn [snd].
      * apply Forall2_diag. intros c. repeat split; auto.
      * apply Hupd. intros c. cbn [card_id printed_count last_printed
          copies set_copies]. rewrite Hmax.
        repeat split; auto; lia.
    + cbn [snd]. apply Hupd. intros c. simpl. repeat split; auto; lia.
  - apply Forall2_diag. intros c. repeat split; auto. contradiction.
Qed.

(** X3. Editing a cell changes at most the card whose id the row holds:
    every other card is left as it is, no row is added or removed, no
    id, printed count or last-printed stamp ever changes, and a card's
    copies stay at 1 or more. After an edit of the copies cell they are
    the number typed if [int] reads it as an integer from 1 to
    2^63 - 1, and 1 if it reads a smaller one or none; an integer of
    2^63 or more is the one case in which the call raises
    ([OverflowError], from the binding of the SQL parameter), and then
    the table is as it was. *)
Theorem update_cell_frame
    (item : option Z) (col : Z) (checked : bool) (text : string)
    (db : store) :
  Forall2
    (fun c c' =>
       card_id c' = card_id c
       /\ printed_count c' = printed_count c
       /\ last_printed c' = last_printed c
       /\ (item <> Some (card_id c) -> c' = c)
       /\ (1 <= copies c -> 1 <= copies c')
       /\ (col = 4 -> item = Some (card_id c) -> card_id c <> 0 ->
           match int_of_str text with
           | Some n =>
               if 2 ^ 63 <=? n then c' = c else copies c' = Z.max 1 n
           | None => copies c' = 1
           end))
    db (snd (update_cell item col checked text db))
  /\ (fst (update_cell item col checked text db) = Some OverflowError <->
      col = 4 /\ (exists i, item = Some i /\ i <> 0)
      /\ exists n, int_of_str text = Some n /\ 2 ^ 63 <= n)
  /\ (fst (update_cell item col checked text db) <> Some OverflowError ->
      fst (update_cell item col checked text db) = None)
  /\ (fst (update_cell item col checked text db) <> None ->
      snd (update_cell item col checked text db) = db).
Proof.
  split; [apply update_cell_rows|].
  destruct (update_cell_outcome item col checked text db) as [[Ho E]|[Ho E]];
    fold (copies_overflow item col text); rewrite E; simpl.
  - split; [tauto|]. split; [congruence | reflexivity].
  - split; [split; [discriminate | contradiction]|].
    split; [reflexivity | congruence].
Qed.

(** Edits of the copies cell of a card with five copies: a number, the
    largest number the column holds, one more, a number behind a
    separator that [int] does not skip, and zero. *)
Example update_cell_copies :
  let five := set_copies 5 hola in
  update_cell (Some 1) 4 true " 3 " [five] = (None, [set_copies 3 hola])
  /\ update_cell (Some 1) 4 true "9223372036854775807" [five]
     = (None, [set_copies 9223372036854775807 hola])
  /\ update_cell (Some 1) 4 true "9223372036854775808" [five]
     = (Some OverflowError, [five])
  /\ update_cell (Some 1) 4 true (String (ascii_of_N 28) "42") [five]
     = (None, [set_copies 1 hola])
  /\ update_cell (Some 1) 4 true "0" [five] = (None, [set_copies 1 hola]).
Proof. repeat split. Qed.

Lemma filter_all_true {A} (f : A -> bool) (l : list A) :
  List.filter f l = [] -> List.filter (fun x => negb (f x)) l = l.
Proof.
  induction l as [|x l IH]; simpl; [reflexivity|].
  destruct (f x); [discriminate|]. intros H. simpl. now rewrite IH.
Qed.

Lemma filter_negb_length {A} (f : A -> bool) (l : list A) :
  len l = len (List.filter f l) + len (List.filter (fun x => negb (f x)) l).
Proof.
  unfold len. induction l as [|x l IH]; simpl; [reflexivity|].
  destruct (f x); simpl; lia.
Qed.

Lemma filter_filter_negb {A} (f : A -> bool) (l : list A) :
  List.filter f (List.filter (fun x => negb (f x)) l) = [].
Proof.
  induction l as [|x l IH]; simpl; [reflexivity|].
  destruct (f x) eqn:E; simpl; [exact IH|]. now rewrite E.
Qed.

(** X4. Delete Selected: with no card selected it only says so and
    deletes nothing. Otherwise it asks about the number of selected
    cards; on Yes exactly the selected cards go, the others stay in
    order, and the table shrinks by the number asked about; on No nothing
    changes. *)
Theorem delete_selected_effect (reply_yes : bool) (db : store) :
  (fst (delete_selected reply_yes db) = None <-> selected_ids db = [])
  /\ (selected_ids db = [] -> snd (delete_selected reply_yes db) = db)
  /\ (reply_yes = false -> snd (delete_selected reply_yes db) = db)
  /\ (reply_yes = true ->
      snd (delete_selected reply_yes db)
      = sql_select (fun c => negb (is_selected c)) db
      /\ selected_ids (snd (delete_selected reply_yes db)) = []
      /\ forall n,
           fst (delete_selected reply_yes db) = Some n ->
           n = len (selected_ids db)
           /\ len db = n + len (snd (delete_selected reply_yes db))).
Proof.
  unfold delete_selected, selected_ids, sql_select, sql_delete.
  pose proof (filter_negb_length is_selected db) as Hlen.
  pose proof (filter_all_true is_selected db) as Hall.
  pose proof (filter_filter_negb is_selected db) as Hnone.
  destruct (List.filter is_selected db) as [|x xs] eqn:Ef.
  - simpl. rewrite (Hall eq_refl), Ef.
    repeat split; auto; discriminate.
  - replace (len (x :: xs) =? 0) with false by reflexivity.
    destruct reply_yes; simpl; rewrite ?Hnone;
      repeat split; auto; try discriminate.
    + match goal with H : Some _ = Some _ |- _ => injection H as <- end.
      unfold len. simpl. now rewrite length_map.
    + match goal with H : Some _ = Some _ |- _ => injection H as <- end.
      exact Hlen.
Qed.

Lemma delete_selected_effect_witness :
  snd (delete_selected true [hola; adios]) = [adios].
Proof.
  apply (delete_selected_effect true [hola; adios]). reflexivity.
Defined.

Lemma select_all_fold ids : forall db,
  fold_left (fun db i => sql_update (has_id i) (set_selected 1) db) ids db
  = map (fun c => if existsb (Z.eqb (card_id c)) ids
                  then set_selected 1 c else c) db.
Proof.
  induction ids as [|i ids IH]; intros db; simpl.
  - symmetry. erewrite map_ext; [apply map_id | reflexivity].
  - rewrite IH. unfold sql_update. rewrite map_map. apply map_ext.
    intros c. unfold has_id.
    destruct (Z.eqb_spec (card_id c) i) as [E|E]; simpl.
    + now destruct (existsb _ ids).
    + reflexivity.
Qed.

Lemma store_ok_visible db c ids :
  store_ok db -> In c db ->
  existsb (Z.eqb (card_id c)) (List.filter (fun i => negb (i =? 0)) ids) = true
  <-> In (card_id c) ids.
Proof.
  intros [_ Hok] Hc. rewrite existsb_exists. split.
  - intros [i [Hi E]]. apply filter_In in Hi as [Hi _].
    apply Z.eqb_eq in E. now subst.
  - intros Hi. exists (card_id c). split; [|apply Z.eqb_refl].
    apply filter_In. split; [exact Hi|].
    destruct (proj1 (List.Forall_forall _ _) Hok c Hc) as [H1 _].
    destruct (Z.eqb_spec (card_id c) 0); [lia | reflexivity].
Qed.

(** X5. Select All acts on the rows in view, not on the table: with the
    widget showing what [load_data] fetched, every card in view ends
    selected and every card out of view is left exactly as it was. *)
Theorem select_all_selects_view
    (search_text : string) (filter_selected : bool) (db : store) :
  store_ok db ->
  Forall2
    (fun c c' =>
       (In c (load_data search_text filter_selected db) ->
        c' = set_selected 1 c)
       /\ (~ In c (load_data search_text filter_selected db) -> c' = c))
    db
    (select_all (map card_id (load_data search_text filter_selected db)) db).
Proof.
  intros Hok.
  set (view := load_data search_text filter_selected db).
  assert (forall c, In c view -> In c db) as Hsub.
  { intros c Hc. destruct (load_data_view search_text filter_selected db)
      as [_ [[keep Hp] _]].
    apply (Permutation_in _ Hp) in Hc. now apply filter_In in Hc. }
  assert (forall c, In c db -> In (card_id c) (map card_id view) <-> In c view)
    as Hview.
  { intros c Hc. rewrite in_map_iff. split; [|eauto].
    intros [c2 [E H2]].
    now rewrite <- (store_wf_unique db c2 c (proj1 Hok) (Hsub _ H2) Hc E). }
  assert (select_all (map card_id view) db
          = map (fun c => if existsb (Z.eqb (card_id c))
                               (List.filter (fun i => negb (i =? 0))
                                  (map card_id view))
                          then set_selected 1 c else c) db) as E.
  { unfold select_all. rewrite <- select_all_fold.
    now destruct (List.filter _ (map card_id view)). }
  rewrite E. apply Forall2_map_In. intros c Hc.
  pose proof (store_ok_visible db c (map card_id view) Hok Hc) as Hex.
  rewrite (Hview c Hc) in Hex.
  destruct (existsb _ _).
  - split; [reflexivity|]. intros N. elim N. now apply Hex.
  - split; [|reflexivity]. intros I. apply Hex in I. discriminate.
Qed.

Lemma select_all_selects_view_witness :
  Forall2
    (fun c c' =>
       (In c (load_data "adi" false [hola; adios]) -> c' = set_selected 1 c)
       /\ (~ In c (load_data "adi" false [hola; adios]) -> c' = c))
    [hola; adios]
    (select_all (map card_id (load_data "adi" false [hola; adios]))
       [hola; adios]).
Proof.
  apply (select_all_selects_view "adi" false [hola; adios]).
  split; [unfold store_wf; vm_compute; repeat constructor|].
  repeat constructor; vm_compute; congruence.
Defined.

Example select_all_sample :
  select_all (map card_id (load_data "adi" false [hola; adios]))
    [hola; adios]
  = [hola; set_selected 1 adios].
Proof. reflexivity. Qed.

(** ** CSV import *)

Lemma insert_all_appends kept : forall db,
  exists new,
    insert_all kept db = db ++ new
    /\ map as_render_card new = kept
    /\ Forall fresh_card new.
Proof.
  unfold insert_all.
  induction kept as [|t kept IH]; intros db; simpl.
  - exists []. now rewrite app_nil_r.
  - destruct (IH (sql_insert (fst (fst t)) (snd (fst t)) (snd t) db))
      as [new [E [Hm Hf]]].
    exists (Card (next_rowid db) (fst (fst t)) (snd (fst t)) (snd t) 0 1 0 None
              :: new).
    split; [|split].
    + rewrite E. unfold sql_insert. now rewrite <- app_assoc.
    + simpl. rewrite Hm. now destruct t as [[? ?] ?].
    + constructor; [|exact Hf]. now repeat split.
Qed.

Lemma rows_to_insert_kept rows kept :
  rows_to_insert rows = Some kept ->
  len kept = len (List.filter complete_row rows)
  /\ Forall (fun t => fst (fst t) <> "" /\ snd (fst t) <> "" /\ snd t <> "")
       kept.
Proof.
  revert kept. induction rows as [|row rows IH]; intros kept; simpl.
  - intros [= <-]. split; [reflexivity | constructor].
  - unfold complete_row at 1.
    destruct (import_row row) as [[t|]|] eqn:Er; [| |discriminate];
      (destruct (rows_to_insert rows) as [rest|]; [|discriminate]);
      intros [= <-]; destruct (IH rest eq_refl) as [Hl Hf].
    + split; [unfold len in *; simpl; lia|].
      constructor; [|exact Hf].
      unfold import_row in Er.
      destruct (row_get row "lesson") as [l|]; [|discriminate].
      destruct (row_get row "front") as [f|]; [|discriminate].
      destruct (row_get row "back") as [b|]; [|discriminate].
      destruct (nonempty (strip l)) eqn:E1; [|discriminate].
      destruct (nonempty (strip f)) eqn:E2; [|discriminate].
      destruct (nonempty (strip b)) eqn:E3; [|discriminate].
      injection Er as <-. simpl.
      repeat split; intros E; rewrite E in *; discriminate.
    + split; assumption.
Qed.

Lemma rows_to_insert_error rows :
  rows_to_insert rows = None <->
  exists row, In row rows /\ import_row row = None.
Proof.
  induction rows as [|row rows IH]; simpl.
  - split; [discriminate | intros [? [[] _]]].
  - destruct (import_row row) as [kept|] eqn:Er.
    + destruct (rows_to_insert rows) as [rest|].
      * split; [discriminate|]. intros [r [[<-|Hr] E]]; [congruence|].
        assert (Some rest = None) by (apply IH; eauto). discriminate.
      * split; [|reflexivity]. intros _.
        destruct (proj1 IH eq_refl) as [r [Hr E]]. eauto.
    + split; [|reflexivity]. intros _. eauto.
Qed.

(** X6. CSV import is all or nothing. If some row is too short for the
    header, so that one of lesson, front, back is missing from it, the
    import fails and the table is unchanged. Otherwise the cards already
    there are kept in place and one card is appended for each row whose
    three fields are all non-blank after trimming, and for no other row:
    the number reported is the number of such rows, and each new card is
    unselected, with one copy, never printed, and non-empty texts. *)
Theorem import_csv_effect
    (rows : list (gmap string (option string))) (db : store) :
  (fst (import_csv rows db) = None <->
   exists row, In row rows /\ import_row row = None)
  /\ (fst (import_csv rows db) = None -> snd (import_csv rows db) = db)
  /\ (forall n,
        fst (import_csv rows db) = Some n ->
        n = len (List.filter complete_row rows)
        /\ exists new,
             snd (import_csv rows db) = db ++ new
             /\ len new = n
             /\ Forall fresh_card new
             /\ Forall (fun c => lesson c <> "" /\ front c <> ""
                                 /\ back c <> "") new).
Proof.
  unfold import_csv.
  pose proof (rows_to_insert_error rows) as Herr.
  destruct (rows_to_insert rows) as [kept|] eqn:Ek; simpl.
  - split; [split; [discriminate|]|].
    { intros H. apply Herr in H. discriminate. }
    split; [discriminate|]. intros n [= <-].
    destruct (rows_to_insert_kept rows kept Ek) as [Hl Hf].
    split; [exact Hl|].
    destruct (insert_all_appends kept db) as [new [E [Hm Hfresh]]].
    exists new. split; [exact E|].
    split; [unfold len; now rewrite <- Hm, length_map|].
    split; [exact Hfresh|].
    rewrite <- Hm in Hf. rewrite List.Forall_map in Hf.
    eapply List.Forall_impl; [|exact Hf]. intros c. simpl. tauto.
  - split; [split; [intros _; now apply Herr | reflexivity]|].
    split; [reflexivity | discriminate].
Qed.

Lemma import_csv_effect_witness :
  snd (import_csv
         [ {[ "lesson" := Some "L3"; "front" := Some "Perro";
              "back" := None ]} ]
         [hola; adios])
  = [hola; adios].
Proof.
  apply (import_csv_effect
           [ {[ "lesson" := Some "L3"; "front" := Some "Perro";
                "back" := None ]} ] [hola; adios]).
  reflexivity.
Defined.

Example import_skips_incomplete_rows :
  import_csv
    [ {[ "lesson" := Some "L3"; "front" := Some " Perro"; "back" := Some "Dog";
         "copies" := Some "5" ]};
      {[ "lesson" := Some "L3"; "front" := Some "Pez"; "back" := Some " " ]} ]
    [hola; adios]
  = (Some 1, [hola; adios; Card 3 "L3" "Perro" "Dog" 0 1 0 None]).
Proof. reflexivity. Qed.

(** X7. A lesson is required on import but not on Add Flashcard: with a
    non-blank front and back and an empty lesson, Add Flashcard stores
    the card, while the import of a row with the same three fields skips
    it and reports 0 imported. *)
Theorem lesson_required_on_import_only (front back : string) (db : store) :
  strip front <> "" -> strip back <> "" ->
  add_flashcard "" front back db
  = (Some (next_rowid db),
     db ++ [Card (next_rowid db) "" (strip front) (strip back) 0 1 0 None])
  /\ import_csv [row_without_lesson front back] db = (Some 0, db).
Proof.
  intros Hf Hb.
  destruct (nonempty (strip front)) eqn:Ef;
    [|now apply nonempty_false in Ef].
  destruct (nonempty (strip back)) eqn:Eb;
    [|now apply nonempty_false in Eb].
  split.
  - unfold add_flashcard. now rewrite Ef, Eb.
  - unfold import_csv, rows_to_insert, import_row.
    replace (row_get (row_without_lesson front back) "lesson")
      with (Some "") by reflexivity.
    replace (row_get (row_without_lesson front back) "front")
      with (Some front) by reflexivity.
    replace (row_get (row_without_lesson front back) "back")
      with (Some back) by reflexivity.
    reflexivity.
Qed.

Lemma lesson_required_on_import_only_witness :
  import_csv [row_without_lesson "Hola" "Hello"] [] = (Some 0, []).
Proof.
  apply (lesson_required_on_import_only "Hola" "Hello" []);
    vm_compute; discriminate.
Defined.

(** ** The options dialog *)

Lemma digit_of_char d : 0 <= d <= 9 -> digit_of (digit_char d) = Some d.
Proof.
  intros H.
  assert (d = 0 \/ d = 1 \/ d = 2 \/ d = 3 \/ d = 4 \/ d = 5 \/ d = 6
          \/ d = 7 \/ d = 8 \/ d = 9) as Hd by lia.
  repeat (destruct Hd as [->|Hd]; [reflexivity|]). now subst.
Qed.

Lemma digit_char_plain d :
  0 <= d <= 9 ->
  py_isspace (digit_char d) = false
  /\ Ascii.eqb (digit_char d) "-" = false
  /\ Ascii.eqb (digit_char d) "+" = false.
Proof.
  intros H.
  assert (d = 0 \/ d = 1 \/ d = 2 \/ d = 3 \/ d = 4 \/ d = 5 \/ d = 6
          \/ d = 7 \/ d = 8 \/ d = 9) as Hd by lia.
  repeat (destruct Hd as [->|Hd]; [now repeat split|]). subst.
  now repeat split.
Qed.

Lemma parse_digits_digit d acc s :
  0 <= d <= 9 ->
  parse_digits acc (String (digit_char d) s) = parse_digits (10 * acc + d) s.
Proof. intros H. simpl. now rewrite digit_of_char. Qed.

Lemma digits_of_S fuel n acc :
  digits_of (S fuel) n acc
  = if n <? 10 then String (digit_char (n mod 10)) acc
    else digits_of fuel (n / 10) (String (digit_char (n mod 10)) acc).
Proof. reflexivity. Qed.

Lemma digits_of_parse fuel : forall n acc,
  0 <= n < 2 ^ Z.of_nat (S fuel) ->
  parse_unsigned (digits_of (S fuel) n acc) = parse_digits n acc.
Proof.
  induction fuel as [|fuel IH]; intros n acc Hn; rewrite digits_of_S.
  - change (2 ^ Z.of_nat 1) with 2 in Hn.
    destruct (Z.ltb_spec n 10); [|lia].
    rewrite Z.mod_small by lia. simpl. now rewrite digit_of_char by lia.
  - destruct (Z.ltb_spec n 10).
    + rewrite Z.mod_small by lia. simpl. now rewrite digit_of_char by lia.
    + rewrite IH.
      * rewrite parse_digits_digit
          by (pose proof (Z.mod_pos_bound n 10); lia).
        f_equal. pose proof (Z.div_mod n 10). lia.
      * split; [apply Z.div_pos; lia|].
        apply Z.div_lt_upper_bound; [lia|].
        replace (Z.of_nat (S (S fuel))) with (Z.succ (Z.of_nat (S fuel))) in Hn
          by lia.
        rewrite Z.pow_succ_r in Hn by lia. lia.
Qed.

Lemma digits_of_head fuel : forall n acc,
  0 <= n ->
  exists d r, 0 <= d <= 9 /\ digits_of (S fuel) n acc = String (digit_char d) r.
Proof.
  induction fuel as [|fuel IH]; intros n acc Hn; rewrite digits_of_S.
  - exists (n mod 10). pose proof (Z.mod_pos_bound n 10 ltac:(lia)).
    destruct (n <? 10); eexists; (split; [lia | reflexivity]).
  - destruct (n <? 10).
    + exists (n mod 10). pose proof (Z.mod_pos_bound n 10 ltac:(lia)).
      eexists; (split; [lia | reflexivity]).
    + apply IH. apply Z.div_pos; lia.
Qed.

Lemma digits_of_no_space fuel : forall n acc,
  0 <= n -> no_space acc = true -> no_space (digits_of fuel n acc) = true.
Proof.
  induction fuel as [|fuel IH]; intros n acc Hn Ha; [exact Ha|].
  rewrite digits_of_S.
  assert (no_space (String (digit_char (n mod 10)) acc) = true) as Hc.
  { simpl. rewrite Ha.
    now rewrite (proj1 (digit_char_plain (n mod 10)
                          (ltac:(pose proof (Z.mod_pos_bound n 10); lia)))). }
  destruct (n <? 10); [exact Hc|].
  apply IH; [apply Z.div_pos; lia | exact Hc].
Qed.

Lemma strip_no_space s : no_space s = true -> strip s = s.
Proof.
  intros H. unfold strip.
  assert (lstrip s = s) as ->.
  { destruct s as [|c s]; [reflexivity|]. simpl in *.
    apply andb_prop in H as [Hc _]. apply negb_true_iff in Hc.
    now rewrite Hc. }
  induction s as [|c s IH]; [reflexivity|]. simpl in *.
  apply andb_prop in H as [Hc Hs]. apply negb_true_iff in Hc.
  rewrite (IH Hs), Hc. now destruct s.
Qed.

Lemma log2_fuel n :
  0 <= n -> 0 <= n < 2 ^ Z.of_nat (S (Z.to_nat (Z.log2 n))).
Proof.
  intros Hn. split; [exact Hn|].
  replace (Z.of_nat (S (Z.to_nat (Z.log2 n)))) with (Z.succ (Z.log2 n))
    by (pose proof (Z.log2_nonneg n); lia).
  destruct (Z.eq_dec n 0) as [->|Hz]; [reflexivity|].
  apply Z.log2_spec. lia.
Qed.

Lemma int_isspace_py c : py_isspace c = false -> int_isspace c = false.
Proof.
  destruct c as [[] [] [] [] [] [] [] []]; vm_compute; congruence.
Qed.

Lemma int_strip_no_space s :
  no_space s = true -> int_rstrip (int_lstrip s) = s.
Proof.
  intros H.
  assert (int_lstrip s = s) as ->.
  { destruct s as [|c s]; [reflexivity|]. simpl in *.
    apply andb_prop in H as [Hc _]. apply negb_true_iff in Hc.
    now rewrite (int_isspace_py c Hc). }
  induction s as [|c s IH]; [reflexivity|]. simpl in *.
  apply andb_prop in H as [Hc Hs]. apply negb_true_iff in Hc.
  rewrite (IH Hs), (int_isspace_py c Hc). now destruct s.
Qed.

Lemma count_digits_length s :
  0 <= count_digits s <= Z.of_nat (String.length s).
Proof.
  induction s as [|c s IH]; simpl; [lia|].
  destruct (digit_of c); lia.
Qed.

Lemma digits_of_length fuel : forall n acc,
  (String.length (digits_of fuel n acc) <= fuel + String.length acc)%nat.
Proof.
  induction fuel as [|fuel IH]; intros n acc; [simpl; lia|].
  rewrite digits_of_S. destruct (n <? 10); [simpl; lia|].
  specialize (IH (n / 10) (String (digit_char (n mod 10)) acc)).
  simpl in IH. lia.
Qed.

Lemma log2_int n : 0 <= n < 2 ^ 31 -> (Z.to_nat (Z.log2 n) < 31)%nat.
Proof.
  intros Hn. destruct (Z.eq_dec n 0) as [->|Hz]; [simpl; lia|].
  assert (Z.log2 n < 31) by (apply Z.log2_lt_pow2; lia).
  pose proof (Z.log2_nonneg n). lia.
Qed.

(** A number of the size of a C [int] has few digits. *)
Lemma py_str_digits n :
  - 2 ^ 31 <= n < 2 ^ 31 ->
  (int_max_str_digits <? count_digits (py_str n)) = false.
Proof.
  intros Hn. apply Z.ltb_ge. unfold int_max_str_digits, py_str.
  destruct (Z.ltb_spec n 0).
  - destruct (Z.eq_dec n (- 2 ^ 31)) as [->|Hm];
      [vm_compute; discriminate|].
    pose proof (log2_int (- n) ltac:(lia)) as Hf.
    pose proof (digits_of_length (S (Z.to_nat (Z.log2 (- n)))) (- n) "") as Hl.
    change (String.length "") with 0%nat in Hl.
    change (count_digits (String "-" ?x)) with (count_digits x).
    pose proof (count_digits_length
                  (digits_of (S (Z.to_nat (Z.log2 (- n)))) (- n) "")) as Hc.
    lia.
  - pose proof (log2_int n ltac:(lia)) as Hf.
    pose proof (digits_of_length (S (Z.to_nat (Z.log2 n))) n "") as Hl.
    change (String.length "") with 0%nat in Hl.
    pose proof (count_digits_length
                  (digits_of (S (Z.to_nat (Z.log2 n))) n "")) as Hc.
    lia.
Qed.

(** [int(str(n))] is [n], for a number of the size of a C [int], as the
    value of a spin box is. *)
Lemma int_of_py_str n :
  - 2 ^ 31 <= n < 2 ^ 31 -> int_of_str (py_str n) = Some n.
Proof.
  intros Hn. pose proof (py_str_digits n Hn) as Hd. revert Hd.
  unfold py_str. destruct (Z.ltb_spec n 0) as [Hneg|Hpos]; intros Hd.
  - unfold int_of_str. rewrite int_strip_no_space.
    2:{ change (no_space (String "-" ?x)) with (no_space x).
        apply digits_of_no_space; [lia | reflexivity]. }
    cbv zeta. rewrite Hd.
    replace (Ascii.eqb "-" "-") with true by reflexivity.
    rewrite digits_of_parse by (apply log2_fuel; lia).
    simpl. f_equal. lia.
  - unfold int_of_str. rewrite int_strip_no_space
      by (apply digits_of_no_space; [lia | reflexivity]).
    cbv zeta. rewrite Hd.
    destruct (digits_of_head (Z.to_nat (Z.log2 n)) n "" Hpos)
      as [d [r [Hdg E]]].
    rewrite E. destruct (digit_char_plain d Hdg) as [_ [-> ->]].
    rewrite <- E, digits_of_parse by (apply log2_fuel; lia).
    reflexivity.
Qed.

Example int_of_str_samples :
  int_of_str " 42 " = Some 42
  /\ int_of_str "-0_7" = Some (-7)
  /\ int_of_str "+12" = Some 12
  /\ int_of_str (String (ascii_of_N 160) "6") = Some 6
  /\ int_of_str (String (ascii_of_N 28) "6") = None
  /\ int_of_str "6.5" = None
  /\ int_of_str "1__0" = None
  /\ int_of_str "" = None.
Proof. repeat split. Qed.

(** 4300 digits are read, 4301 are not. *)
Example int_of_str_digit_limit :
  int_of_str (string_of_list_ascii (repeat "9"%char 4300))
  = Some (10 ^ 4300 - 1)
  /\ int_of_str (string_of_list_ascii (repeat "9"%char 4301)) = None.
Proof. split; vm_compute; reflexivity. Qed.

Example py_int_samples :
  py_int (PyFloat (FloatOf (13 # 2))) = Ok 6
  /\ py_int (PyFloat (FloatOf (- 13 # 2))) = Ok (- 6)
  /\ py_int (PyFloat FloatNaN) = Raise ValueError
  /\ py_int (PyFloat FloatNegInf) = Raise OverflowError
  /\ py_int (PyBool true) = Ok 1
  /\ py_int PyNone = Raise TypeError
  /\ py_int (PyList []) = Raise TypeError
  /\ py_int (PyDict default_column_widths) = Raise TypeError.
Proof. repeat split. Qed.

Lemma accept_settings_lookup o settings :
  accept_settings o settings !! "cards_per_page"
  = Some (PyStr (py_str (cards_per_page_value o)))
  /\ accept_settings o settings !! "font_size"
     = Some (PyStr (py_str (font_size_value o)))
  /\ accept_settings o settings !! "pen_width"
     = Some (PyStr (py_str (pen_width_value o)))
  /\ accept_settings o settings !! "orientation"
     = Some (PyStr (orientation_text o))
  /\ accept_settings o settings !! "pen_color"
     = Some (PyStr (pen_color_name o))
  /\ forall key, ~ In key dialog_keys ->
       accept_settings o settings !! key = settings !! key.
Proof.
  unfold accept_settings. repeat split.
  1-5: repeat (rewrite lookup_insert_ne by discriminate);
       now rewrite lookup_insert_eq.
  intros key Hk. unfold dialog_keys in Hk. simpl in Hk.
  repeat (rewrite lookup_insert_ne by (intros <-; tauto)). reflexivity.
Qed.

(** X8. After OK in the options dialog the print path accepts the
    settings: cards per page and font size parse back to the values of
    the spin boxes and pass the range checks, so Print never stops on an
    Invalid Setting warning, and the page layout uses the pen width and
    pen colour chosen. Keys the dialog does not own are left as they
    were. *)
Theorem accepted_settings_print
    (o : options) (settings : gmap string pyval) :
  options_in_range o ->
  parse_setting (accept_settings o settings) "cards_per_page" 6 1 12
  = Some (cards_per_page_value o)
  /\ parse_setting (accept_settings o settings) "font_size" 12 6 120
     = Some (font_size_value o)
  /\ (forall pv now db message,
        outcome (print_selected (accept_settings o settings) pv now db)
        <> InvalidSetting message)
  /\ (forall print_cpp print_font_size dev L,
        page_layout (accept_settings o settings) print_cpp print_font_size dev
        = Ok L ->
        pen_width L = pen_width_value o
        /\ pen_color L = PyStr (pen_color_name o))
  /\ (forall key, ~ In key dialog_keys ->
        accept_settings o settings !! key = settings !! key).
Proof.
  intros (Hc & Hf & Hp).
  destruct (accept_settings_lookup o settings)
    as (E1 & E2 & E3 & E4 & E5 & E6).
  assert (parse_setting (accept_settings o settings) "cards_per_page" 6 1 12
          = Some (cards_per_page_value o)) as P1.
  { unfold parse_setting, settings_get. rewrite E1. simpl.
    rewrite int_of_py_str by lia.
    destruct (Z.ltb_spec (cards_per_page_value o) 1); [lia|].
    destruct (Z.gtb_spec (cards_per_page_value o) 12); [lia | reflexivity]. }
  assert (parse_setting (accept_settings o settings) "font_size" 12 6 120
          = Some (font_size_value o)) as P2.
  { unfold parse_setting, settings_get. rewrite E2. simpl.
    rewrite int_of_py_str by lia.
    destruct (Z.ltb_spec (font_size_value o) 6); [lia|].
    destruct (Z.gtb_spec (font_size_value o) 120); [lia | reflexivity]. }
  split; [exact P1|]. split; [exact P2|]. split; [|split; [|exact E6]].
  - intros pv now db message. unfold print_selected.
    destruct (cards_to_print db); [discriminate|].
    pose proof (checked_setting_parse (accept_settings o settings)
                  "cards_per_page" 6 1 12) as C1.
    pose proof (checked_setting_parse (accept_settings o settings)
                  "font_size" 12 6 120) as C2.
    rewrite P1 in C1. rewrite P2 in C2. rewrite C1, C2.
    destruct (accepted pv); discriminate.
  - intros print_cpp print_font_size dev L HL.
    destruct (page_layout_ok _ _ _ _ _ HL) as (_ & _ & _ & Hw).
    unfold settings_get in Hw. rewrite E3 in Hw. simpl in Hw.
    rewrite int_of_py_str in Hw by lia. injection Hw as <-.
    split; [reflexivity|].
    unfold page_layout in HL.
    destruct (py_int _); [|discriminate].
    destruct (_ =? 0); [discriminate|]. injection HL as <-. simpl.
    unfold settings_get. now rewrite E5.
Qed.

Lemma accepted_settings_print_witness :
  parse_setting (accept_settings sample_options one_per_sheet)
    "cards_per_page" 6 1 12 = Some 4.
Proof.
  apply (accepted_settings_print sample_options one_per_sheet).
  vm_compute. repeat split; discriminate.
Defined.

Example py_str_samples :
  map py_str [0; 7; 12; 120; -45] = ["0"; "7"; "12"; "120"; "-45"].
Proof. reflexivity. Qed.

(** ** Printing the selection *)

Lemma render_cards_nil rows :
  render_cards rows = [] <-> Forall (fun c => copies c <= 0) rows.
Proof.
  unfold render_cards. induction rows as [|c rows IH]; simpl.
  - split; [constructor | reflexivity].
  - split.
    + intros H. apply app_eq_nil in H as [H1 H2].
      constructor; [|now apply IH].
      destruct (Z.to_nat (copies c)) eqn:E; [lia | discriminate].
    + intros H. inversion H as [|? ? Hc Hr]; subst.
      replace (Z.to_nat (copies c)) with O by lia. simpl. now apply IH.
Qed.

Lemma cards_to_print_nil db :
  cards_to_print db = [] <->
  forall c, In c db -> selected c = 1 -> copies c <= 0.
Proof.
  unfold cards_to_print. rewrite render_cards_nil, List.Forall_forall.
  split; intros H c.
  - intros Hc Hs. apply H. apply order_by_In. apply filter_In.
    split; [exact Hc|]. now apply Z.eqb_eq.
  - intros Hc. apply order_by_In in Hc. apply filter_In in Hc as [Hc Hs].
    apply H; [exact Hc|]. now apply Z.eqb_eq.
Qed.

(** X9. With no card selected (more exactly, with no selected card that
    has a copy to print) Print Selected reports Nothing to Print before
    it looks at the settings: nothing is painted and the table is
    unchanged, whatever the settings hold; and this is the only case in
    which it reports so. *)
Theorem print_nothing_selected
    (settings : gmap string pyval) (pv : preview) (now : string)
    (db : store) :
  ((forall c, In c db -> selected c = 1 -> copies c <= 0) ->
   print_selected settings pv now db = PrintRun NothingToPrint None db)
  /\ (outcome (print_selected settings pv now db) = NothingToPrint ->
      forall c, In c db -> selected c = 1 -> copies c <= 0).
Proof.
  split.
  - intros H. apply cards_to_print_nil in H. unfold print_selected.
    now rewrite H.
  - intros H. apply cards_to_print_nil. revert H. unfold print_selected.
    destruct (cards_to_print db); [reflexivity|].
    setting_cases settings "cards_per_page" 6 1 12; [|discriminate..].
    setting_cases settings "font_size" 12 6 120; [|discriminate..].
    destruct (accepted pv); discriminate.
Qed.

Lemma print_nothing_selected_witness :
  print_selected huge_font quiet_preview "2026-01-05 10:00:00" [adios]
  = PrintRun NothingToPrint None [adios].
Proof.
  apply (print_nothing_selected huge_font quiet_preview
           "2026-01-05 10:00:00" [adios]).
  intros c [<-|[]]. discriminate.
Defined.

Lemma checked_setting_ok settings key dflt lo hi n :
  parse_setting settings key dflt lo hi = Some n ->
  checked_setting settings key dflt lo hi = Ok n.
Proof.
  intros H. pose proof (checked_setting_parse settings key dflt lo hi) as C.
  now rewrite H in C.
Qed.

Lemma checked_setting_good settings key dflt lo hi n :
  py_int (settings_get settings key (PyInt dflt)) = Ok n ->
  lo <= n <= hi ->
  checked_setting settings key dflt lo hi = Ok n.
Proof.
  unfold checked_setting. intros -> H.
  destruct (Z.ltb_spec n lo), (Z.gtb_spec n hi); simpl; try reflexivity; lia.
Qed.

Lemma checked_setting_bad settings key dflt lo hi :
  checked_setting settings key dflt lo hi = Raise ValueError
  <-> bad_setting settings key dflt lo hi.
Proof.
  unfold checked_setting, bad_setting.
  destruct (py_int _) as [n|e]; [|split; congruence].
  destruct (Z.ltb_spec n lo), (Z.gtb_spec n hi); simpl;
    split; (discriminate || reflexivity || lia || auto).
Qed.

Lemma checked_setting_raises settings key dflt lo hi e :
  e <> ValueError ->
  checked_setting settings key dflt lo hi = Raise e
  <-> py_int (settings_get settings key (PyInt dflt)) = Raise e.
Proof.
  unfold checked_setting. intros He.
  destruct (py_int _) as [n|e']; [|tauto].
  destruct ((n <? lo) || (n >? hi)); split; congruence.
Qed.

(** X10. With something to print, Print Selected stops at a warning,
    the preview never opened, nothing painted and the table unchanged,
    exactly when [int] refuses the cards-per-page value with
    [ValueError] or gives a number that is not from 1 to 12, or when
    that value is good and the same holds of the font size and 6 to
    120; the message names the setting. A value on which [int] raises
    another exception, as it does on [null], an array, an object or an
    infinite number, gets no warning: the exception leaves
    [print_selected], again with nothing painted and nothing written.
    A number with a fraction is not refused: its integer part is
    taken. *)
Theorem print_refuses_bad_settings
    (settings : gmap string pyval) (pv : preview) (now : string)
    (db : store) :
  cards_to_print db <> [] ->
  (bad_setting settings "cards_per_page" 6 1 12 ->
   print_selected settings pv now db
   = PrintRun (InvalidSetting "Cards per page must be between 1 and 12.")
       None db)
  /\ (forall n,
        py_int (settings_get settings "cards_per_page" (PyInt 6)) = Ok n ->
        1 <= n <= 12 ->
        bad_setting settings "font_size" 12 6 120 ->
        print_selected settings pv now db
        = PrintRun (InvalidSetting "Font size must be between 6 and 120.")
            None db)
  /\ (forall message,
        outcome (print_selected settings pv now db) = InvalidSetting message ->
        painted (print_selected settings pv now db) = None
        /\ db_after (print_selected settings pv now db) = db
        /\ (bad_setting settings "cards_per_page" 6 1 12
            /\ message = "Cards per page must be between 1 and 12."
            \/ (exists n,
                  py_int (settings_get settings "cards_per_page" (PyInt 6))
                  = Ok n /\ 1 <= n <= 12)
               /\ bad_setting settings "font_size" 12 6 120
               /\ message = "Font size must be between 6 and 120."))
  /\ (forall e,
        e <> ValueError ->
        (py_int (settings_get settings "cards_per_page" (PyInt 6)) = Raise e
         \/ (exists n,
               py_int (settings_get settings "cards_per_page" (PyInt 6))
               = Ok n /\ 1 <= n <= 12)
            /\ py_int (settings_get settings "font_size" (PyInt 12))
               = Raise e)
        <-> print_selected settings pv now db = PrintRun (Uncaught e) None db)
  /\ (forall q : Q,
        settings !! "cards_per_page" = Some (PyFloat (FloatOf q)) ->
        1 <= Z.quot (Qnum q) (Z.pos (Qden q)) <= 12 ->
        outcome (print_selected settings pv now db)
        <> InvalidSetting "Cards per page must be between 1 and 12.").
Proof.
  intros Hne.
  pose proof (checked_setting_bad settings "cards_per_page" 6 1 12) as Bc.
  pose proof (checked_setting_bad settings "font_size" 12 6 120) as Bf.
  assert (forall n,
            checked_setting settings "cards_per_page" 6 1 12 = Ok n ->
            exists m,
              py_int (settings_get settings "cards_per_page" (PyInt 6)) = Ok m
              /\ 1 <= m <= 12) as Gc.
  { unfold checked_setting. intros n.
    destruct (py_int _) as [m|]; [|discriminate].
    destruct (Z.ltb_spec m 1), (Z.gtb_spec m 12); simpl; try discriminate.
    intros _. exists m. split; [reflexivity | lia]. }
  unfold print_selected.
  destruct (cards_to_print db) as [|rc cards]; [contradiction|].
  split; [intros H; apply Bc in H; now rewrite H|].
  split.
  { intros n Hn Hr H. rewrite (checked_setting_good _ _ _ _ _ n Hn Hr).
    apply Bf in H. now rewrite H. }
  split.
  { intros message.
    destruct (checked_setting settings "cards_per_page" 6 1 12)
      as [n|e] eqn:Ec.
    - destruct (checked_setting settings "font_size" 12 6 120)
        as [f|e] eqn:Ef.
      + destruct (accepted pv); discriminate.
      + destruct e; try discriminate. intros [= <-].
        split; [reflexivity|]. split; [reflexivity|]. right.
        split; [now apply (Gc n)|]. split; [now apply Bf | reflexivity].
    - destruct e; try discriminate. intros [= <-].
      split; [reflexivity|]. split; [reflexivity|]. left.
      split; [now apply Bc | reflexivity]. }
  split.
  { intros e He.
    pose proof (checked_setting_raises settings "cards_per_page" 6 1 12 e He)
      as Rc.
    pose proof (checked_setting_raises settings "font_size" 12 6 120 e He)
      as Rf.
    destruct (checked_setting settings "cards_per_page" 6 1 12)
      as [n|e1] eqn:Ec.
    - destruct (Gc n eq_refl) as [m [Hm Hr]].
      destruct (checked_setting settings "font_size" 12 6 120)
        as [f|e2] eqn:Ef.
      + split.
        * intros [H|[_ H]]; [congruence|]. apply Rf in H. discriminate.
        * destruct (accepted pv); discriminate.
      + split.
        * intros [H|[_ H]]; [congruence|]. apply Rf in H.
          injection H as ->. destruct e; congruence.
        * intros H. right. split; [now exists m|]. apply Rf.
          destruct e2; inversion H; reflexivity.
    - split.
      + intros [H|[[m [Hm Hr]] _]].
        * apply Rc in H. injection H as ->. destruct e; congruence.
        * rewrite (checked_setting_good _ _ _ _ _ m Hm Hr) in Ec.
          discriminate.
      + intros H. left. apply Rc.
        destruct e1; inversion H; reflexivity. }
  intros q Hq Hr.
  assert (checked_setting settings "cards_per_page" 6 1 12
          = Ok (Z.quot (Qnum q) (Z.pos (Qden q)))) as ->.
  { apply checked_setting_good; [|exact Hr].
    unfold settings_get. now rewrite Hq. }
  destruct (checked_setting settings "font_size" 12 6 120) as [f|e].
  - destruct (accepted pv); discriminate.
  - destruct e; discriminate.
Qed.

Lemma print_refuses_bad_settings_witness :
  print_selected huge_font quiet_preview "2026-01-05 10:00:00" [hola]
  = PrintRun (InvalidSetting "Font size must be between 6 and 120.")
      None [hola].
Proof.
  apply (proj1 (proj2 (print_refuses_bad_settings huge_font quiet_preview
                         "2026-01-05 10:00:00" [hola]
                         ltac:(vm_compute; discriminate))) 6).
  - vm_compute. reflexivity.
  - lia.
  - vm_compute. now right.
Defined.

(** Cards-per-page values a settings file can hold: a number behind a
    separator that [int] does not skip, [null], and six and a half. *)
Example print_selected_cards_per_page :
  let run v :=
    outcome (print_selected (<["cards_per_page" := v]> sample_settings)
               quiet_preview "2026-01-05 10:00:00" [hola]) in
  run (PyStr (String (ascii_of_N 28) "6"))
  = InvalidSetting "Cards per page must be between 1 and 12."
  /\ run PyNone = Uncaught TypeError
  /\ run (PyList [PyInt 6]) = Uncaught TypeError
  /\ run (PyFloat (FloatOf (13 # 2))) = Printed
  /\ run (PyFloat FloatNaN)
     = InvalidSetting "Cards per page must be between 1 and 12."
  /\ run (PyFloat FloatInf) = Uncaught OverflowError
  /\ run (PyBool true) = Printed.
Proof. vm_compute. repeat split. Qed.

(** X11. Accepting the preview counts the cards as printed whether or
    not anything could be painted: the update of the print stats does
    not depend on what [render_document] did. In particular the stats
    are updated when the painter could not begin on the device, when the
    pen width in the settings is not a number (the rendering raises), and
    at one card per page (the rendering divides by zero). *)
Theorem print_counts_without_painting
    (settings : gmap string pyval) (pv : preview) (now : string)
    (db : store) (n f : Z) :
  cards_to_print db <> [] ->
  parse_setting settings "cards_per_page" 6 1 12 = Some n ->
  parse_setting settings "font_size" 12 6 120 = Some f ->
  accepted pv = true ->
  outcome (print_selected settings pv now db) = Printed
  /\ db_after (print_selected settings pv now db)
     = update_print_stats now (meanwhile pv db)
  /\ (painter_ok pv = false ->
      painted (print_selected settings pv now db) = Some NotBegun)
  /\ (painter_ok pv = true ->
      forall e,
        py_int (settings_get settings "pen_width" (PyInt 2)) = Raise e ->
        painted (print_selected settings pv now db) = Some (Raised e))
  /\ (painter_ok pv = true ->
      forall w,
        py_int (settings_get settings "pen_width" (PyInt 2)) = Ok w ->
        n = 1 ->
        painted (print_selected settings pv now db)
        = Some (Raised ZeroDivisionError)).
Proof.
  intros Hne Hn Hf Ha. unfold print_selected.
  destruct (cards_to_print db) as [|rc cards]; [contradiction|].
  rewrite (checked_setting_ok _ _ _ _ _ _ Hn), (checked_setting_ok _ _ _ _ _ _ Hf), Ha.
  cbn [outcome db_after painted].
  split; [reflexivity|]. split; [reflexivity|].
  unfold render_document. cbn [begin_ok].
  split; [intros ->; reflexivity|].
  split; intros ->; cbn [negb]; unfold page_layout.
  - intros e ->. reflexivity.
  - intros w -> ->. reflexivity.
Qed.

Lemma print_counts_without_painting_witness :
  painted (print_selected sample_settings no_painter "2026-01-05 10:00:00"
             [hola]) = Some NotBegun
  /\ db_after (print_selected sample_settings no_painter
                 "2026-01-05 10:00:00" [hola])
     = [Card 1 "L1" "Hola" "Hello" 1 1 1 (Some "2026-01-05 10:00:00")].
Proof.
  destruct (print_counts_without_painting sample_settings no_painter
              "2026-01-05 10:00:00" [hola] 6 60) as (_ & H2 & H3 & _).
  - vm_compute. discriminate.
  - vm_compute. reflexivity.
  - vm_compute. reflexivity.
  - reflexivity.
  - split; [apply H3; reflexivity|]. rewrite H2. reflexivity.
Defined.

Lemma selected_ids_unprinted db :
  selected_ids (select_all_unprinted db)
  = map card_id (sql_select is_unprinted db).
Proof.
  rewrite select_all_unprinted_row. unfold selected_ids, sql_select.
  induction db as [|c db IH]; [reflexivity|].
  cbn [map List.filter]. unfold is_selected at 1.
  destruct (is_unprinted c); cbn [selected set_selected Z.eqb Pos.eqb map];
    rewrite IH; reflexivity.
Qed.

(** X12. Select Unprinted, print, Select Unprinted again: the second
    time nothing is selected. Every card the first selection picked has
    been counted at least once by the print, and the cards it did not
    pick had been printed before. *)
Theorem printed_cards_leave_unprinted_selection
    (settings : gmap string pyval) (pv : preview) (now : string)
    (db : store) :
  store_ok db ->
  (forall d, meanwhile pv d = d) ->
  outcome (print_selected settings pv now (select_all_unprinted db))
  = Printed ->
  selected_ids
    (select_all_unprinted
       (db_after (print_selected settings pv now (select_all_unprinted db))))
  = [].
Proof.
  intros [_ Hok] Hid Hp.
  apply print_selected_printed in Hp as [_ ->]. rewrite Hid.
  rewrite selected_ids_unprinted, select_all_unprinted_row.
  unfold update_print_stats, sql_update, sql_select. rewrite map_map.
  induction Hok as [|c db Hc Hok IH]; [reflexivity|].
  cbn [map List.filter].
  match goal with |- context [if is_unprinted ?x then _ else _] =>
    assert (is_unprinted x = false) as -> end; [|exact IH].
  destruct Hc as (_ & Hcopies & _ & Hcount).
  unfold is_selected, is_unprinted.
  destruct (Z.eqb_spec (printed_count c) 0) as [E|E]; cbn.
  - rewrite E. apply Z.eqb_neq. lia.
  - now apply Z.eqb_neq.
Qed.

Lemma printed_cards_leave_unprinted_selection_witness :
  selected_ids
    (select_all_unprinted
       (db_after (print_selected sample_settings quiet_preview
                    "2026-01-05 10:00:00"
                    (select_all_unprinted catalog_sample))))
  = [].
Proof.
  apply (printed_cards_leave_unprinted_selection sample_settings
           quiet_preview "2026-01-05 10:00:00" catalog_sample).
  - split; [unfold store_wf; vm_compute; repeat constructor|].
    repeat constructor; vm_compute; congruence.
  - reflexivity.
  - vm_compute. reflexivity.
Defined.

(** ** What is drawn, and where *)

Lemma skipn_nth_error {A} (l : list A) : forall n x,
  nth_error l n = Some x -> skipn n l = x :: skipn (S n) l.
Proof.
  induction l as [|y l IH]; intros [|n] x H; try discriminate.
  - now injection H as <-.
  - simpl in H. change (skipn n l = x :: skipn (S n) l). exact (IH n x H).
Qed.

Lemma firstn_add {A} (c m : nat) : forall l : list A,
  firstn (c + m) l = firstn c l ++ firstn m (skipn c l).
Proof.
  induction c as [|c IH]; intros l; [reflexivity|].
  destruct l as [|x l]; simpl; [now rewrite firstn_nil|].
  now rewrite IH.
Qed.

Lemma chunks_concat {A} (c : nat) (l : list A) (n : nat) : forall a,
  flat_map (fun k => firstn c (skipn (k * c) l)) (seq a n)
  = firstn (n * c) (skipn (a * c) l).
Proof.
  induction n as [|n IH]; intros a; [reflexivity|].
  cbn [seq flat_map]. rewrite IH.
  replace (S n * c)%nat with (c + n * c)%nat by lia.
  rewrite firstn_add, skipn_skipn.
  now replace (c + a * c)%nat with (S a * c)%nat by lia.
Qed.

Section Drawn.
Variable paint : Z -> render_card -> cell.
Variable cards : list render_card.
Variable index : Z.
Hypothesis index_nonneg : 0 <= index.
Variable B : Type.
Variable F : cell -> list B.
Variable G : render_card -> list B.
Hypothesis paint_F : forall i rc, F (paint i rc) = G rc.

Lemma side_loop_flat_from m : forall a,
  flat_map F (side_loop paint cards index (map Z.of_nat (seq a m)))
  = flat_map G (firstn m (skipn (Z.to_nat index + a) cards)).
Proof.
  induction m as [|m IH]; intros a; [reflexivity|].
  cbn [seq map side_loop]. unfold len.
  destruct (Z.geb_spec (index + Z.of_nat a) (Z.of_nat (length cards))).
  - rewrite skipn_all2 by lia. reflexivity.
  - replace (Z.to_nat (index + Z.of_nat a)) with (Z.to_nat index + a)%nat
      by lia.
    destruct (nth_error cards (Z.to_nat index + a)) as [rc|] eqn:E.
    + rewrite (skipn_nth_error _ _ _ E). cbn [firstn flat_map].
      rewrite paint_F, IH.
      now replace (Z.to_nat index + S a)%nat
        with (S (Z.to_nat index + a)) by lia.
    + apply nth_error_None in E. lia.
Qed.

Lemma side_loop_flat n :
  flat_map F (side_loop paint cards index (py_range n))
  = flat_map G (firstn (Z.to_nat n) (skipn (Z.to_nat index) cards)).
Proof.
  unfold py_range. rewrite side_loop_flat_from. now rewrite Nat.add_0_r.
Qed.
End Drawn.

Lemma front_pages_sheets L cards n : forall a,
  front_pages (flat_map (sheet L cards) (seq a n))
  = map (fun k => front_side L cards (Z.of_nat k * cpp L)) (seq a n).
Proof.
  induction n as [|n IH]; intros a; [reflexivity|].
  cbn [seq flat_map map]. unfold sheet at 1. cbn [app front_pages].
  now rewrite IH.
Qed.

Lemma back_pages_sheets L cards n : forall a,
  back_pages (flat_map (sheet L cards) (seq a n))
  = map (fun k => back_side L cards (Z.of_nat k * cpp L)) (seq a n).
Proof.
  induction n as [|n IH]; intros a; [reflexivity|].
  cbn [seq flat_map map]. unfold sheet at 1. cbn [app back_pages].
  now rewrite IH.
Qed.

Lemma flat_map_singleton {A B} (g : A -> B) (l : list A) :
  flat_map (fun x => [g x]) l = map g l.
Proof. induction l; simpl; congruence. Qed.

Lemma flat_map_nil {A B} (l : list A) :
  flat_map (fun _ => @nil B) l = [].
Proof. induction l; simpl; congruence. Qed.

(** What the sides of all sheets draw, through a reading [F] of a cell
    that depends on the card only. *)
Lemma sides_draw_cards {B} (paint : Z -> render_card -> cell)
    (F : cell -> list B) (G : render_card -> list B)
    (cards : list render_card) (n_per_sheet : Z) :
  (forall i rc, F (paint i rc) = G rc) ->
  1 <= n_per_sheet ->
  flat_map F
    (concat
       (map (fun k => side_loop paint cards (Z.of_nat k * n_per_sheet)
                        (py_range n_per_sheet))
          (seq 0 (Z.to_nat (sheet_count (len cards) n_per_sheet)))))
  = flat_map G cards.
Proof.
  intros HF Hn.
  set (n := Z.to_nat (sheet_count (len cards) n_per_sheet)).
  assert (forall m a,
            flat_map F
              (concat
                 (map (fun k => side_loop paint cards
                                  (Z.of_nat k * n_per_sheet)
                                  (py_range n_per_sheet)) (seq a m)))
            = flat_map G
                (flat_map
                   (fun k => firstn (Z.to_nat n_per_sheet)
                               (skipn (k * Z.to_nat n_per_sheet) cards))
                   (seq a m))) as Hall.
  { induction m as [|m IH]; intros a; [reflexivity|].
    cbn [seq map concat flat_map]. rewrite !flat_map_app, IH. f_equal.
    rewrite (side_loop_flat paint cards (Z.of_nat a * n_per_sheet)
               ltac:(lia) B F G HF).
    now rewrite Z2Nat.inj_mul, Nat2Z.id by lia. }
  rewrite Hall, chunks_concat. cbn [Nat.mul skipn].
  rewrite firstn_all2; [reflexivity|].
  assert (~ sheet_count (len cards) n_per_sheet
            < sheet_count (len cards) n_per_sheet) as Hlt by lia.
  rewrite sheet_index_lt in Hlt by assumption.
  assert (0 <= sheet_count (len cards) n_per_sheet) as H0.
  { unfold sheet_count. apply Z.div_pos; unfold len; lia. }
  unfold n, len in *. change (skipn 0 cards) with cards.
  apply Nat2Z.inj_le. rewrite Nat2Z.inj_mul, !Z2Nat.id by lia. lia.
Qed.

Lemma front_text L i rc :
  flat_map op_text (cell_ops (paint_front L i rc)) = [snd (fst rc)].
Proof. now destruct rc as [[? ?] ?]. Qed.

Lemma front_lesson L i rc :
  flat_map op_lesson (cell_ops (paint_front L i rc)) = [fst (fst rc)].
Proof. now destruct rc as [[? ?] ?]. Qed.

Lemma back_text L i rc :
  flat_map op_text (cell_ops (paint_back L i rc)) = [snd rc].
Proof. now destruct rc as [[? ?] ?]. Qed.

Lemma back_lesson L i rc :
  flat_map op_lesson (cell_ops (paint_back L i rc)) = [].
Proof. now destruct rc as [[? ?] ?]. Qed.

(** X13. A completed rendering draws every copy once on each side and
    nothing else: read in painting order, the texts on the front pages
    are the fronts of the cards to print, the lesson labels on the front
    pages their lessons, the texts on the back pages their backs; the
    back pages carry no lesson label. *)
Theorem rendering_draws_every_card
    (settings : gmap string pyval) (cards : list render_card)
    (print_cpp print_font_size : Z) (dev : device) (pages : list page) :
  render_document settings cards print_cpp print_font_size dev = Painted pages ->
  drawn_texts (concat (front_pages pages)) = map (fun rc => snd (fst rc)) cards
  /\ drawn_lessons (concat (front_pages pages))
     = map (fun rc => fst (fst rc)) cards
  /\ drawn_texts (concat (back_pages pages)) = map snd cards
  /\ drawn_lessons (concat (back_pages pages)) = [].
Proof.
  intros H.
  destruct (render_document_painted _ _ _ _ _ _ H)
    as [L [EL [[-> ->]|[Hne [H2 ->]]]]]; [now repeat split|].
  destruct (page_layout_ok _ _ _ _ _ EL) as [Hc _].
  unfold sheets. rewrite front_pages_sheets, back_pages_sheets.
  unfold drawn_texts, drawn_lessons, front_side, back_side.
  repeat split.
  - etransitivity; [|apply flat_map_singleton].
    apply sides_draw_cards; [|lia]. intros i rc. apply front_text.
  - etransitivity; [|apply flat_map_singleton].
    apply sides_draw_cards; [|lia]. intros i rc. apply front_lesson.
  - etransitivity; [|apply flat_map_singleton].
    apply sides_draw_cards; [|lia]. intros i rc. apply back_text.
  - transitivity (flat_map (fun _ : render_card => @nil string) cards);
      [|apply flat_map_nil].
    apply sides_draw_cards; [|lia]. intros i rc. apply back_lesson.
Qed.

Lemma rendering_draws_every_card_witness :
  drawn_texts (concat (front_pages sample_pages))
  = ["Uno"; "Hola"; "Adios"; "Adios"]
  /\ drawn_texts (concat (back_pages sample_pages))
     = ["One"; "Hello"; "Bye"; "Bye"].
Proof.
  destruct (rendering_draws_every_card sample_settings sample_cards 6 60
              sample_device sample_pages) as (H1 & _ & H3 & _).
  - vm_compute. reflexivity.
  - rewrite H1, H3. split; reflexivity.
Defined.

Lemma page_layout_card_h settings print_cpp print_font_size dev L :
  page_layout settings print_cpp print_font_size dev = Ok L ->
  card_h L = (inject_Z (page_height_px dev) / inject_Z (print_cpp / 2))%Q.
Proof.
  unfold page_layout, page_height_px.
  destruct (py_int _); [|discriminate].
  destruct (_ =? 0); [discriminate|]. now intros [= <-].
Qed.

Lemma sheets_In L cards pg :
  In pg (sheets L cards) ->
  exists k : nat,
    pg = front_side L cards (Z.of_nat k * cpp L)
    \/ pg = back_side L cards (Z.of_nat k * cpp L).
Proof.
  unfold sheets. rewrite in_flat_map. intros [k [_ [<-|[<-|[]]]]]; eauto.
Qed.

Lemma side_loop_In paint cards index n cl :
  0 <= index ->
  In cl (side_loop paint cards index (py_range n)) ->
  exists (i : nat) rc, Z.of_nat i < n /\ cl = paint (Z.of_nat i) rc.
Proof.
  intros Hi Hin. apply In_nth_error in Hin as [i Hn].
  apply side_loop_cell in Hn as [Hlt [rc [_ ->]]]; eauto.
Qed.

(** X14. Where the cells fall. With an even number of cards per sheet
    every painted cell lies in one of the rows 0 .. N/2 - 1 of the grid
    and in column 0 or 1. With an odd number N >= 3 the grid has
    (N - 1) / 2 rows, and on a full sheet the card at the last position
    is painted in the row after the last one: the top edge of its cell
    is the bottom edge of the page. *)
Theorem odd_sheet_overflows_grid
    (settings : gmap string pyval) (cards : list render_card)
    (print_cpp print_font_size : Z) (dev : device) (pages : list page)
    (L : layout) :
  render_document settings cards print_cpp print_font_size dev = Painted pages ->
  page_layout settings print_cpp print_font_size dev = Ok L ->
  (Z.even print_cpp = true ->
   forall pg cl, In pg pages -> In cl pg ->
     0 <= cell_row cl < print_cpp / 2 /\ 0 <= cell_col cl <= 1)
  /\ (Z.odd print_cpp = true -> 1 <= print_cpp <= len cards ->
      exists front cl,
        nth_error pages 0 = Some front
        /\ nth_error front (Z.to_nat (print_cpp - 1)) = Some cl
        /\ cell_row cl = print_cpp / 2
        /\ (inject_Z (cell_row cl) * card_h L
            == inject_Z (page_height_px dev))%Q).
Proof.
  intros H EL.
  destruct (render_document_painted _ _ _ _ _ _ H) as [L' [EL' Hp]].
  rewrite EL in EL'. injection EL' as <-.
  destruct (page_layout_ok _ _ _ _ _ EL) as (Hc & _ & Hrows & _).
  split.
  - intros Heven pg cl Hpg Hcl.
    destruct Hp as [[-> ->]|[Hne [H2 ->]]].
    { destruct Hpg as [<-|[]]. destruct Hcl. }
    apply Z.even_spec in Heven as [r Hr].
    assert (print_cpp / 2 = r) as Er
      by (rewrite Hr, Z.mul_comm; apply Z.div_mul; lia).
    apply sheets_In in Hpg as [k Hk].
    assert (exists (i : nat) rc,
              Z.of_nat i < cpp L
              /\ (cl = paint_front L (Z.of_nat i) rc
                  \/ cl = paint_back L (Z.of_nat i) rc)) as (i & rc & Hi & Hcell).
    { destruct Hk as [->| ->]; apply side_loop_In in Hcl as (i & rc & Hi & E);
        try lia; exists i, rc; auto. }
    pose proof (Z.mod_pos_bound (Z.of_nat i) 2 ltac:(lia)) as Hm.
    assert (0 <= Z.of_nat i / 2 < print_cpp / 2) as Hrow.
    { split; [apply Z.div_pos; lia|].
      apply Z.div_lt_upper_bound; lia. }
    destruct Hcell as [-> | ->]; destruct rc as [[? ?] ?]; simpl; lia.
  - intros Hodd Hfull.
    destruct Hp as [[-> ->]|[Hne [H2 ->]]].
    { exfalso. unfold len in Hfull. simpl in Hfull. lia. }
    apply Z.odd_spec in Hodd as [r Hr].
    assert (print_cpp / 2 = r) as Er.
    { rewrite Hr, Z.mul_comm, Z.div_add_l by lia.
      now rewrite Z.add_0_r. }
    assert (exists rc, nth_error cards (Z.to_nat (print_cpp - 1)) = Some rc)
      as [rc Hrc].
    { destruct (nth_error cards (Z.to_nat (print_cpp - 1))) eqn:E; eauto.
      apply nth_error_None in E. unfold len in Hfull. lia. }
    exists (front_side L cards (Z.of_nat 0 * cpp L)),
      (paint_front L (print_cpp - 1) rc).
    split.
    { pose proof (sheets_nth_front L cards
                    (Z.to_nat (sheet_count (len cards) (cpp L))) 0 0) as Hf.
      assert (0 < sheet_count (len cards) (cpp L)) as Hpos
        by (apply sheet_index_lt; lia).
      destruct (Nat.ltb_spec 0 (Z.to_nat (sheet_count (len cards) (cpp L))));
        [exact Hf | lia]. }
    split.
    { unfold front_side. rewrite side_loop_nth by lia.
      rewrite Z2Nat.id by lia.
      destruct (Z.ltb_spec (print_cpp - 1) (cpp L)); [|lia].
      simpl Z.to_nat. rewrite Nat.add_0_l, Hrc. reflexivity. }
    assert (cell_row (paint_front L (print_cpp - 1) rc) = print_cpp / 2)
      as Hrow.
    { destruct rc as [[? ?] ?]. simpl. rewrite Er.
      replace (print_cpp - 1) with (r * 2) by lia. apply Z.div_mul. lia. }
    split; [exact Hrow|].
    rewrite Hrow, (page_layout_card_h _ _ _ _ _ EL).
    apply Qmult_div_r. intros E.
    apply Hrows. unfold Qeq in E. simpl in E. lia.
Qed.

Lemma odd_sheet_overflows_grid_witness :
  exists L front cl,
    page_layout sample_settings 3 60 sample_device = Ok L
    /\ nth_error front (Z.to_nat (3 - 1)) = Some cl
    /\ cell_row cl = 3 / 2
    /\ (inject_Z (cell_row cl) * card_h L
        == inject_Z (page_height_px sample_device))%Q.
Proof.
  destruct (page_layout sample_settings 3 60 sample_device) as [L|] eqn:EL;
    [|discriminate EL].
  destruct (render_document sample_settings five_cards 3 60 sample_device)
    as [pages| | |] eqn:ER; try (vm_compute in ER; discriminate ER).
  destruct (odd_sheet_overflows_grid sample_settings five_cards 3 60
              sample_device pages L ER EL) as [_ Hodd].
  destruct (Hodd eq_refl ltac:(vm_compute; split; discriminate))
    as (front & cl & _ & H2 & H3 & H4).
  exists L, front, cl. auto.
Defined.

(** X21. For N >= 2 cards per sheet, a pen width that is a number and a
    painter that begins, the rendering of M >= 1 cards completes and
    paints exactly 2 * ceil(M / N) pages, a front and a back page for
    every sheet. *)
Theorem render_document_page_count
    (settings : gmap string pyval) (cards : list render_card)
    (print_cpp print_font_size : Z) (dev : device) (w : Z) :
  begin_ok dev = true ->
  py_int (settings_get settings "pen_width" (PyInt 2)) = Ok w ->
  2 <= print_cpp -> cards <> [] ->
  exists pages,
    render_document settings cards print_cpp print_font_size dev
    = Painted pages
    /\ len pages = 2 * sheet_count (len cards) print_cpp
    /\ (sheet_count (len cards) print_cpp - 1) * print_cpp < len cards
       <= sheet_count (len cards) print_cpp * print_cpp.
Proof. apply render_document_page_pairs. Qed.

Lemma render_document_page_count_witness :
  exists pages,
    render_document sample_settings five_cards 3 60 sample_device
    = Painted pages
    /\ len pages = 2 * sheet_count 5 3.
Proof.
  destruct (render_document_page_count sample_settings five_cards 3 60
              sample_device 2) as [pages [H1 [H2 _]]].
  - reflexivity.
  - vm_compute. reflexivity.
  - lia.
  - discriminate.
  - exists pages. split; [exact H1 | exact H2].
Defined.



(** ** The view buttons and the search box *)

(** X15. Show All and Show Selected reload the table at once, with an
    empty filter and the view mode of the button. If the search box held
    text, clearing it also starts the debounce timer, and the same view
    is loaded a second time 300 later; if the box was empty no timer is
    started. *)
Theorem show_view_commits
    (selected_only : bool) (now T : Z) (u : ui) (log : list commit) :
  filter_timer u = None ->
  now + 300 <= T ->
  snd (show_view selected_only now (u, log))
  = log ++ [Commit now "" selected_only]
  /\ search_text (fst (show_view selected_only now (u, log))) = ""
  /\ filter_selected (fst (show_view selected_only now (u, log)))
     = selected_only
  /\ (search_text u <> "" ->
      filter_timer (fst (show_view selected_only now (u, log)))
      = Some (now + 300)
      /\ snd (advance T (show_view selected_only now (u, log)))
         = log ++ [Commit now "" selected_only;
                   Commit (now + 300) "" selected_only])
  /\ (search_text u = "" ->
      advance T (show_view selected_only now (u, log))
      = show_view selected_only now (u, log)).
Proof.
  intros Ht HT.
  assert (show_view selected_only now (u, log)
          = (Ui "" selected_only
               (if nonempty (search_text u) then Some (now + 300) else None),
             log ++ [Commit now "" selected_only])) as E.
  { unfold show_view, advance, clear_search. cbn [fst snd]. rewrite Ht.
    destruct (nonempty (search_text u)) eqn:En.
    - reflexivity.
    - apply nonempty_false in En. cbn. now rewrite En, Ht. }
  rewrite E. cbn [fst snd search_text filter_selected filter_timer].
  split; [reflexivity|]. split; [reflexivity|]. split; [reflexivity|].
  split.
  - intros Hs. destruct (nonempty (search_text u)) eqn:En;
      [|now apply nonempty_false in En].
    split; [reflexivity|].
    unfold advance. cbn [fst snd filter_timer].
    destruct (Z.leb_spec (now + 300) T); [|lia].
    unfold on_search_changed, timer_stop. cbn. now rewrite <- app_assoc.
  - intros Hs. rewrite Hs. reflexivity.
Qed.

Lemma show_view_commits_witness :
  snd (advance 1000 (show_all 500 (Ui "hol" true None, [])))
  = [Commit 500 "" false; Commit 800 "" false].
Proof.
  destruct (show_view_commits false 500 1000 (Ui "hol" true None) [])
    as (_ & _ & _ & H & _).
  - reflexivity.
  - lia.
  - apply H. discriminate.
Defined.

Lemma typing_spaced changes : forall t text sel log T,
  spaced t changes ->
  fst (final_change (t, text) changes) + 300 <= T ->
  snd (advance T (typing changes (Ui text sel (Some (t + 300)), log)))
  = log ++ spaced_commits sel ((t, text) :: changes).
Proof.
  unfold typing.
  induction changes as [|e changes IH]; intros t text sel log T Hs HT.
  - cbn [fold_left final_change fst] in *. unfold advance.
    cbn [fst snd filter_timer].
    destruct (Z.leb_spec (t + 300) T); [|lia].
    unfold on_search_changed, timer_stop. cbn.
    now destruct (nonempty text).
  - destruct Hs as [He Hs]. cbn [fold_left final_change] in *.
    unfold text_changed at 2, advance at 2. cbn [fst snd filter_timer].
    destruct (Z.leb_spec (t + 300) (fst e)); [|lia].
    unfold on_search_changed, timer_stop, debounced_filter, timer_start.
    cbn [search_text filter_selected filter_timer fst snd].
    assert (final_change e changes = final_change (fst e, snd e) changes)
      as Ee by now destruct e.
    rewrite Ee in HT.
    destruct (nonempty text) eqn:En;
      cbn [search_text filter_selected filter_timer];
      rewrite (IH (fst e) (snd e) _ _ T Hs HT);
      cbn [spaced_commits fst snd]; rewrite En, <- app_assoc; reflexivity.
Qed.

(** X16. Changes of the filter text that are each left alone for 300 or
    more are each committed, 300 after they were made and with their own
    text. The first commit with a non-empty text switches the
    selected-only mode off for good: later commits, also those with an
    empty text, show all cards. *)
Theorem spaced_changes_commit_each
    (u0 : ui) (e : Z * string) (changes : list (Z * string)) (T : Z) :
  filter_timer u0 = None ->
  spaced (fst e) changes ->
  fst (final_change e changes) + 300 <= T ->
  snd (advance T (typing (e :: changes) (u0, [])))
  = spaced_commits (filter_selected u0) (e :: changes)
  /\ map (fun c => (commit_time c, commit_text c))
       (spaced_commits (filter_selected u0) (e :: changes))
     = map (fun c => (fst c + 300, snd c)) (e :: changes)
  /\ forall k c1 c2,
       nth_error (spaced_commits (filter_selected u0) (e :: changes)) k
       = Some c1 ->
       commit_text c1 <> "" ->
       In c2 (skipn k (spaced_commits (filter_selected u0) (e :: changes))) ->
       commit_selected_only c2 = false.
Proof.
  intros H0 Hs HT. split; [|split].
  - pose proof (typing_spaced changes (fst e) (snd e) (filter_selected u0)
                  [] T Hs) as Hb.
    unfold typing in *. cbn [fold_left].
    unfold text_changed at 2, advance at 2. cbn [fst snd]. rewrite H0.
    unfold debounced_filter, timer_start, timer_stop.
    cbn [search_text filter_selected filter_timer].
    rewrite Hb; [now destruct e|]. now destruct e.
  - generalize (filter_selected u0) as sel. generalize (e :: changes) as l.
    induction l as [|x l IH]; intros sel; [reflexivity|].
    cbn [spaced_commits map commit_time commit_text]. now rewrite IH.
  - generalize (filter_selected u0) as sel. generalize (e :: changes) as l.
    assert (forall l c, In c (spaced_commits false l) ->
                        commit_selected_only c = false) as Hoff.
    { induction l as [|x l IH]; intros c; [intros []|].
      cbn [spaced_commits]. destruct (nonempty (snd x));
        intros [<-|Hc]; auto. }
    induction l as [|x l IH]; intros sel [|k] c1 c2; cbn [spaced_commits];
      try discriminate.
    + cbn [nth_error skipn]. intros [= <-]. cbn [commit_text]. intros Hne.
      destruct (nonempty (snd x)) eqn:En;
        [|apply nonempty_false in En; contradiction].
      intros [<-|Hc]; [reflexivity|]. now apply (Hoff l).
    + cbn [nth_error skipn]. apply IH.
Qed.

Lemma spaced_changes_commit_each_witness :
  snd (advance 2000 (typing [(0, "h"); (400, "")] (idle_ui, [])))
  = [Commit 300 "h" false; Commit 700 "" false].
Proof.
  apply (spaced_changes_commit_each idle_ui (0, "h") [(400, "")] 2000).
  - reflexivity.
  - vm_compute. split; [discriminate | exact I].
  - vm_compute. discriminate.
Defined.

(** ** The settings file *)

Lemma merge_defaults_lookup keys : forall (loaded : gmap string pyval) key,
  fold_left
    (fun loaded key =>
       match loaded !! key with
       | Some _ => loaded
       | None =>
           match default_settings !! key with
           | Some v => <[key := v]> loaded
           | None => loaded
           end
       end) keys loaded !! key
  = match loaded !! key with
    | Some v => Some v
    | None => if existsb (String.eqb key) keys
              then default_settings !! key else None
    end.
Proof.
  induction keys as [|k keys IH]; intros loaded key; cbn [fold_left existsb].
  - now destruct (loaded !! key).
  - rewrite IH. destruct (String.eqb_spec key k) as [->|Hk]; cbn [orb].
    + destruct (loaded !! k) as [v|] eqn:E; [now rewrite E|].
      destruct (default_settings !! k) as [d|] eqn:Ed.
      * now rewrite lookup_insert_eq.
      * rewrite E. now destruct (existsb _ keys).
    + destruct (loaded !! k) as [v|] eqn:E; [reflexivity|].
      destruct (default_settings !! k) as [d|] eqn:Ed; [|reflexivity].
      now rewrite lookup_insert_ne by congruence.
Qed.

Lemma default_settings_keys key :
  existsb (String.eqb key) default_keys = false ->
  default_settings !! key = None.
Proof.
  unfold default_keys. cbn [existsb]. intros H.
  repeat (apply orb_false_elim in H as [?%String.eqb_neq H]).
  unfold default_settings.
  repeat (rewrite lookup_insert_ne by congruence).
  now apply lookup_singleton_ne.
Qed.

Lemma load_settings_dict (loaded : gmap string pyval) :
  exists settings,
    load_settings (Decoded (PyDict loaded)) = Ok settings
    /\ forall key,
         settings !! key
         = match loaded !! key with
           | Some v =>
               if String.eqb key "column_widths" && negb (is_dict v)
               then Some (PyDict default_column_widths)
               else Some v
           | None => default_settings !! key
           end.
Proof.
  unfold load_settings.
  set (merged := fold_left _ default_keys loaded).
  assert (forall k, merged !! k
                    = match loaded !! k with
                      | Some v => Some v
                      | None => default_settings !! k
                      end) as Hm.
  { intros k. unfold merged. rewrite merge_defaults_lookup.
    destruct (loaded !! k); [reflexivity|].
    destruct (existsb (String.eqb k) default_keys) eqn:E; [reflexivity|].
    symmetry. now apply default_settings_keys. }
  pose proof (Hm "column_widths") as Hcw.
  exists (match merged !! "column_widths" with
          | Some v =>
              if is_dict v then merged
              else <["column_widths" := PyDict default_column_widths]> merged
          | None =>
              <["column_widths" := PyDict default_column_widths]> merged
          end).
  split.
  { destruct (merged !! "column_widths") as [v|];
      [destruct (is_dict v)|]; reflexivity. }
  intros key.
  destruct (String.eqb_spec key "column_widths") as [->|Hk]; cbn [andb].
  - rewrite Hcw.
    destruct (loaded !! "column_widths") as [v'|] eqn:El.
    + destruct (is_dict v'); cbn [negb].
      * exact Hcw.
      * now rewrite lookup_insert_eq.
    + change (default_settings !! "column_widths")
        with (Some (PyDict default_column_widths)) in *.
      cbn [is_dict]. exact Hcw.
  - assert (match merged !! "column_widths" with
            | Some v =>
                if is_dict v then merged
                else <["column_widths" := PyDict default_column_widths]> merged
            | None =>
                <["column_widths" := PyDict default_column_widths]> merged
            end !! key = merged !! key) as ->; [|apply Hm].
    destruct (merged !! "column_widths") as [v|];
      [destruct (is_dict v); [reflexivity|]|];
      now rewrite lookup_insert_ne by congruence.
Qed.

Lemma default_settings_complete key :
  In key default_keys -> is_Some (default_settings !! key).
Proof.
  unfold default_keys. cbn [In]. intros Hk.
  repeat (destruct Hk as [<-|Hk]; [now eexists|]). destruct Hk.
Qed.

(** X17. Loading the settings. A missing file and a file that is not
    JSON give the defaults; any other exception of reading or decoding
    leaves the call, and so does [TypeError] when the file decodes to a
    value that is not an object. When it decodes to an object, every key
    of the file keeps the value the file gives it, known or not, and
    every default key the file lacks gets its default; the one exception
    is [column_widths], which is replaced by the default widths when the
    file's value is not an object, and kept as it is, complete or not,
    when it is one. So whenever settings are returned, the seven default
    keys are among them and the column widths are an object. *)
Theorem load_settings_lookup (file : settings_file) :
  (file = FileNotFound \/ file = NotJson ->
   load_settings file = Ok default_settings)
  /\ (forall e, file = ReadError e -> load_settings file = Raise e)
  /\ (forall v,
        file = Decoded v -> (forall d, v <> PyDict d) ->
        load_settings file = Raise TypeError)
  /\ (forall loaded,
        file = Decoded (PyDict loaded) ->
        exists settings,
          load_settings file = Ok settings
          /\ forall key,
               settings !! key
               = match loaded !! key with
                 | Some (PyDict d) => Some (PyDict d)
                 | Some v =>
                     if String.eqb key "column_widths"
                     then Some (PyDict default_column_widths)
                     else Some v
                 | None => default_settings !! key
                 end)
  /\ (forall settings,
        load_settings file = Ok settings ->
        (forall key, In key default_keys -> is_Some (settings !! key))
        /\ exists d, settings !! "column_widths" = Some (PyDict d)).
Proof.
  split; [intros [->| ->]; reflexivity|].
  split; [intros e ->; reflexivity|].
  split.
  { intros v -> Hv. destruct v; try reflexivity. now elim (Hv d). }
  split.
  { intros loaded ->. destruct (load_settings_dict loaded) as [st [E Hl]].
    exists st. split; [exact E|]. intros key. rewrite Hl.
    destruct (loaded !! key) as [v|]; [|reflexivity].
    destruct v; cbn [is_dict negb]; rewrite ?andb_true_r, ?andb_false_r;
      reflexivity. }
  intros settings.
  destruct file as [| |e|v]; cbn [load_settings].
  1,2: intros [= <-]; split;
       [apply default_settings_complete | now eexists].
  - discriminate.
  - destruct v; try discriminate.
    destruct (load_settings_dict d) as [st [E Hl]].
    cbn [load_settings] in E. rewrite E. intros [= <-]. split.
    + intros key Hk. rewrite Hl. destruct (d !! key) as [v|].
      * destruct (_ && _); eauto.
      * now apply default_settings_complete.
    + rewrite Hl. destruct (d !! "column_widths") as [v|]; [|now eexists].
      destruct v; cbn [is_dict negb String.eqb andb]; now eexists.
Qed.

Lemma load_settings_lookup_witness :
  exists settings,
    load_settings (Decoded (PyDict old_settings_file)) = Ok settings
    /\ settings !! "column_widths" = Some (PyDict default_column_widths)
    /\ settings !! "theme" = Some (PyStr "dark")
    /\ settings !! "font_size" = Some (PyStr "48")
    /\ settings !! "pen_width" = Some (PyStr "2").
Proof.
  destruct (proj1 (proj2 (proj2 (proj2
              (load_settings_lookup (Decoded (PyDict old_settings_file))))))
              old_settings_file eq_refl) as [settings [E Hl]].
  exists settings. split; [exact E|].
  split; [|split; [|split]]; rewrite Hl; reflexivity.
Defined.

(** A settings file that holds an array, the word [null] or a string
    ends [load_settings], and with it the start of the main window, in
    [TypeError]. *)
Example load_settings_not_an_object :
  load_settings (Decoded (PyList [])) = Raise TypeError
  /\ load_settings (Decoded PyNone) = Raise TypeError
  /\ load_settings (Decoded (PyStr "cards_per_page")) = Raise TypeError.
Proof. repeat split. Qed.

(** ** Ids, sheets, auto-fill *)

Lemma sql_delete_fresh i db :
  ~ In i (map card_id db) -> sql_delete (has_id i) db = db.
Proof.
  unfold sql_delete, has_id. induction db as [|c db IH]; simpl;
    [reflexivity|].
  intros H. destruct (Z.eqb_spec (card_id c) i) as [E|E]; [tauto|].
  simpl. rewrite IH; [reflexivity | tauto].
Qed.

(** X18. Ids are reused. Deleting the card that was added last puts the
    table back as it was before the card was added, and the next card
    added gets the id the deleted card had. *)
Theorem deleted_id_is_reused
    (lesson1 front1 back1 lesson2 front2 back2 : string) (db : store)
    (i : Z) (db1 : store) :
  add_flashcard lesson1 front1 back1 db = (Some i, db1) ->
  strip front2 <> "" -> strip back2 <> "" ->
  delete_row true i db1 = db
  /\ fst (add_flashcard lesson2 front2 back2 (delete_row true i db1))
     = Some i.
Proof.
  intros Hadd Hf Hb. unfold add_flashcard in Hadd.
  destruct (negb _ || negb _) in Hadd; [discriminate|].
  injection Hadd as <- <-.
  assert (delete_row true (next_rowid db)
            (sql_insert (strip lesson1) (strip front1) (strip back1) db)
          = db) as E.
  { unfold delete_row, sql_insert, sql_delete.
    rewrite List.filter_app. cbn [List.filter]. unfold has_id at 2.
    cbn [card_id]. rewrite Z.eqb_refl. cbn [negb]. rewrite app_nil_r.
    apply sql_delete_fresh. intros Hin.
    apply in_map_iff in Hin as [c [Hc Hin]].
    pose proof (proj1 (List.Forall_forall _ _) (next_rowid_above db) c Hin)
      as Hlt.
    simpl in Hlt. lia. }
  split; [exact E|]. rewrite E.
  unfold add_flashcard.
  destruct (nonempty (strip front2)) eqn:Ef;
    [|now apply nonempty_false in Ef].
  destruct (nonempty (strip back2)) eqn:Eb;
    [|now apply nonempty_false in Eb].
  reflexivity.
Qed.

Lemma deleted_id_is_reused_witness :
  fst (add_flashcard "L9" "Pez" "Fish" (delete_row true 3
         [hola; adios; Card 3 "L2" "Gato" "Cat" 0 1 0 None]))
  = Some 3.
Proof.
  apply (deleted_id_is_reused "L2" "Gato" "Cat" "L9" "Pez" "Fish"
           [hola; adios] 3
           [hola; adios; Card 3 "L2" "Gato" "Cat" 0 1 0 None]).
  - reflexivity.
  - vm_compute. discriminate.
  - vm_compute. discriminate.
Defined.

Lemma render_cards_length rows :
  len (render_cards rows)
  = fold_right (fun c acc => Z.max 0 (copies c) + acc) 0 rows.
Proof.
  unfold render_cards, len. induction rows as [|c rows IH]; simpl;
    [reflexivity|].
  rewrite List.length_app, List.repeat_length, Nat2Z.inj_add.
  unfold render_card in *. rewrite IH. lia.
Qed.

Lemma copies_sum_perm rows rows' :
  Permutation rows rows' ->
  fold_right (fun c acc => Z.max 0 (copies c) + acc) 0 rows
  = fold_right (fun c acc => Z.max 0 (copies c) + acc) 0 rows'.
Proof. induction 1; simpl; lia. Qed.

(** X19. How many pages a print takes: with N >= 2 cards per sheet in
    the settings, settings that pass the checks and a pen width that is
    a number, the preview of a selection with C copies in all (C >= 1)
    is painted on exactly 2 * ceil(C / N) pages. *)
Theorem print_page_count
    (settings : gmap string pyval) (pv : preview) (now : string)
    (db : store) (n f w : Z) :
  parse_setting settings "cards_per_page" 6 1 12 = Some n ->
  parse_setting settings "font_size" 12 6 120 = Some f ->
  py_int (settings_get settings "pen_width" (PyInt 2)) = Ok w ->
  painter_ok pv = true ->
  2 <= n -> 1 <= total_copies db ->
  exists pages,
    painted (print_selected settings pv now db) = Some (Painted pages)
    /\ len pages = 2 * sheet_count (total_copies db) n.
Proof.
  intros Hn Hf Hw Hp H2 Hc.
  assert (len (cards_to_print db) = total_copies db) as Hlen.
  { unfold cards_to_print, total_copies. rewrite render_cards_length.
    apply copies_sum_perm, order_by_perm. }
  unfold print_selected.
  destruct (cards_to_print db) as [|rc cards] eqn:E.
  { unfold len in Hlen. simpl in Hlen. lia. }
  rewrite (checked_setting_ok _ _ _ _ _ _ Hn), (checked_setting_ok _ _ _ _ _ _ Hf).
  destruct (render_document_page_pairs settings (rc :: cards) n f
              (Device (dpi pv)
                 match settings_get settings "orientation" (PyStr "Portrait")
                 with
                 | PyStr s => String.eqb s "Landscape"
                 | _ => false
                 end (painter_ok pv)) w Hp Hw H2 ltac:(discriminate))
    as [pages [Hr [Hl _]]].
  exists pages. rewrite <- Hlen.
  destruct (accepted pv); cbn [painted]; rewrite Hr; auto.
Qed.

Lemma print_page_count_witness :
  exists pages,
    painted (print_selected sample_settings quiet_preview
               "2026-01-05 10:00:00" catalog_sample)
    = Some (Painted pages)
    /\ len pages = 2 * sheet_count (total_copies catalog_sample) 6.
Proof.
  apply (print_page_count sample_settings quiet_preview
           "2026-01-05 10:00:00" catalog_sample 6 60 2).
  - vm_compute. reflexivity.
  - vm_compute. reflexivity.
  - vm_compute. reflexivity.
  - reflexivity.
  - lia.
  - vm_compute. discriminate.
Defined.

(** X20. Auto-fill of the back text. A back text that is not blank is
    never replaced while the front has text. The back is left alone when
    the translation package is missing, when auto-fill is disabled, and
    when the translator fails. With auto-fill on and the front blank,
    the back is cleared, also when text had been typed into it. A blank
    back is filled with the translation of the trimmed front into the
    language of the settings. *)
Theorem auto_fill_back_cases
    (available : bool) (settings : gmap string pyval)
    (translate : string -> string -> option string)
    (front_input back_input lang : string) :
  settings_get settings "auto_fill_language" (PyStr "Disabled") = PyStr lang ->
  (available = false \/ lang = "Disabled" ->
   auto_fill_back available settings translate front_input back_input
   = back_input)
  /\ (available = true -> lang <> "Disabled" ->
      (strip front_input = "" ->
       auto_fill_back available settings translate front_input back_input
       = "")
      /\ (strip front_input <> "" -> strip back_input <> "" ->
          auto_fill_back available settings translate front_input back_input
          = back_input)
      /\ (strip front_input <> "" -> strip back_input = "" ->
          forall target,
            lang_code lang = Some target ->
            auto_fill_back available settings translate front_input
              back_input
            = match translate target (strip front_input) with
              | Some translation => translation
              | None => back_input
              end)).
Proof.
  intros Hl. unfold auto_fill_back. rewrite Hl. cbv zeta. split.
  - intros [->| ->]; [reflexivity|]. now destruct available.
  - intros -> Hd. cbn [negb].
    destruct (String.eqb_spec lang "Disabled"); [contradiction|].
    split; [|split].
    + intros ->. reflexivity.
    + intros Hf Hb.
      destruct (nonempty (strip front_input)) eqn:Ef;
        [|now apply nonempty_false in Ef].
      destruct (nonempty (strip back_input)) eqn:Eb;
        [reflexivity | now apply nonempty_false in Eb].
    + intros Hf Hb target Ht.
      destruct (nonempty (strip front_input)) eqn:Ef;
        [|now apply nonempty_false in Ef].
      rewrite Hb, Ht. reflexivity.
Qed.

Lemma auto_fill_back_cases_witness :
  auto_fill_back true spanish_settings one_word " Hello " " " = "Hola".
Proof.
  destruct (auto_fill_back_cases true spanish_settings one_word
              " Hello " " " "Spanish" eq_refl) as [_ H].
  destruct (H eq_refl ltac:(discriminate)) as (_ & _ & H3).
  rewrite (H3 ltac:(vm_compute; discriminate) eq_refl "es" eq_refl).
  reflexivity.
Defined.
